(** * Object storage lifecycle of the newspaper archiver

  A shallow embedding of [storage.py] (listing, presigned URLs, single and
  bulk deletion against an S3-compatible store) and of the two retention
  operations of [main.py] ([get_past_papers_from_storage] and
  [cleanup_old_files]), followed by the properties of the retention
  windows, of pagination and of batch deletion.

  Conventions.
  - A [datetime.date] is its proleptic Gregorian ordinal
    ([date.toordinal()]), a [Z] between 1 and 3652059.
  - A [datetime.datetime] is an instant counted in microseconds.
  - The boto3 client is a record of functions over an abstract store;
    every call made through it is written to an event trace.
  - Python exceptions are values of [Exception]; [try ... except] is
    [try_except].
  - The two pagination loops take a [fuel]: a store that never ends its
    listing makes them [Abort], which no handler catches. Against a store
    that serves finitely many pages, enough fuel gives the result.

  Layout: the Python primitives, the client interface and the monad; the
  two modules; the default date format and an in-memory store to run the
  operations on; the vocabulary of the properties; then the facts, first
  about the loops, last about the operations (C1 to C10).

  Further on: the lazily initialised client of [storage.py], the merge
  and the lookups of [config.py], the recipients and the choice of a
  transport of [email_sender.py], with their properties (X1 to X19) after
  those of the operations. *)

From Stdlib Require Import ZArith List String Ascii Bool Lia Permutation.
From Stdlib Require Import DecimalString Sorted.
Import ListNotations.
Local Open Scope Z_scope.

Set Default Proof Using "Type".

(* ===================================================================== *)
(** ** Python primitives used by the two modules *)
(* ===================================================================== *)

Module Py.

(** [s.split(sep)[0]]: the part of [s] before the first [sep], the whole
    of [s] when [sep] does not occur. The index 0 always exists. *)
Fixpoint split_head (sep : ascii) (s : string) : string :=
  match s with
  | EmptyString => EmptyString
  | String c rest =>
      if Ascii.eqb c sep then EmptyString else String c (split_head sep rest)
  end.

(** [sub in s] *)
Fixpoint contains (sub s : string) : bool :=
  String.prefix sub s
  || match s with
     | EmptyString => false
     | String _ rest => contains sub rest
     end.

(** [s.endswith(suffix)] *)
Definition endswith (s suffix : string) : bool :=
  let n := String.length s in
  let m := String.length suffix in
  (m <=? n)%nat && String.eqb (substring (n - m) m s) suffix.

(** Truth value of a string: [if url:] *)
Definition truthy (s : string) : bool := negb (String.eqb s EmptyString).

(** [l.sort(key=key, reverse=True)]: descending, and stable (elements
    with equal keys keep their relative order, also under [reverse]). *)
Section Sort.
Context {A K : Type} (ltb : K -> K -> bool) (key : A -> K).

Fixpoint insert_desc (x : A) (l : list A) : list A :=
  match l with
  | [] => [x]
  | y :: l' =>
      if ltb (key x) (key y) then y :: insert_desc x l' else x :: y :: l'
  end.

Definition sort_desc (l : list A) : list A :=
  fold_right insert_desc [] l.
End Sort.

(** [range(start, stop, step)] for a positive step. *)
Fixpoint range_from (fuel : nat) (start stop step : nat) : list nat :=
  match fuel with
  | O => []
  | S fuel' =>
      if (start <? stop)%nat
      then start :: range_from fuel' (start + step) stop step
      else []
  end.

Definition range (start stop step : nat) : list nat :=
  range_from stop start stop step.

(** [l[i:j]] for non-negative indices. *)
Definition slice {A : Type} (l : list A) (i j : nat) : list A :=
  firstn (j - i) (skipn i l).

(** Dates. [date.min] is ordinal 1 and [date.max] (9999-12-31) ordinal
    3652059; [timedelta] accepts at most 999999999 days either way. An
    out-of-range value raises [OverflowError], here [None]. *)
Definition MINORDINAL : Z := 1.
Definition MAXORDINAL : Z := 3652059.
Definition MAX_DELTA_DAYS : Z := 999999999.

Definition timedelta (days : Z) : option Z :=
  if (- MAX_DELTA_DAYS <=? days) && (days <=? MAX_DELTA_DAYS)
  then Some days else None.

(** [d - timedelta(days=days)] on dates *)
Definition date_sub (d : Z) (days : Z) : option Z :=
  match timedelta days with
  | None => None
  | Some delta =>
      let o := d - delta in
      if (MINORDINAL <=? o) && (o <=? MAXORDINAL) then Some o else None
  end.

(** Instants in microseconds; [datetime.min] is instant 0. *)
Definition US_PER_DAY : Z := 86400000000.
Definition MAX_INSTANT : Z := MAXORDINAL * US_PER_DAY - 1.

(** [t - timedelta(days=days)] on datetimes *)
Definition datetime_sub (t : Z) (days : Z) : option Z :=
  match timedelta days with
  | None => None
  | Some delta =>
      let r := t - delta * US_PER_DAY in
      if (0 <=? r) && (r <=? MAX_INSTANT) then Some r else None
  end.

End Py.

(* ===================================================================== *)
(** ** The S3 client interface (boto3) *)
(* ===================================================================== *)

Module S3.

(** The exception classes the handlers of the two modules tell apart.
    [ClientError] and [NoCredentialsError] come from botocore; the
    others are only ever caught by [except Exception]. *)
Inductive Exception : Type :=
| NoCredentialsError
| ClientError
| PaginationError
| KeyError
| OverflowError
| OtherError.

Definition is_ClientError (e : Exception) : bool :=
  match e with ClientError => true | _ => false end.

Inductive Outcome (A : Type) : Type :=
| Returned (a : A)
| Thrown (e : Exception).
Arguments Returned {A} a.
Arguments Thrown {A} e.

(** One entry of [response['Contents']]. *)
Record Object : Type := mkObject {
  Key : string;
  LastModified : Z;
  Size : Z
}.

(** The response of [list_objects_v2]. ['Contents'] is absent when the
    page carries no key; ['NextContinuationToken'] is present on a
    truncated page. *)
Record ListResponse : Type := mkListResponse {
  Contents : option (list Object);
  IsTruncated : bool;
  NextContinuationToken : option string
}.

Record DeleteError : Type := mkDeleteError {
  ErrorKey : string;
  ErrorMessage : string
}.

(** The response of [delete_objects] with [Quiet=False]. *)
Record DeleteResponse : Type := mkDeleteResponse {
  Deleted : option (list string);
  Errors : option (list DeleteError)
}.

(** The four client methods the module calls. Listing and signing read
    the store; the delete calls may change it. The bucket name is the
    configured one throughout and is left out. *)
Record Client (Store : Type) : Type := mkClient {
  list_objects_v2 :
    Store -> option string -> option string -> Outcome ListResponse;
  generate_presigned_url : Store -> string -> Z -> Outcome string;
  delete_object : Store -> string -> Outcome unit * Store;
  delete_objects : Store -> list string -> Outcome DeleteResponse * Store
}.
Arguments list_objects_v2 {Store} c st prefix token.
Arguments generate_presigned_url {Store} c st key expires_in.
Arguments delete_object {Store} c st key.
Arguments delete_objects {Store} c st batch.

(** What an observer of the store (and of the dry-run log) can see. *)
Inductive Event : Type :=
| ListObjectsV2 (prefix : option string) (token : option string)
| GeneratePresignedUrl (key : string) (expires_in : Z)
| DeleteObject (key : string)
| DeleteObjects (batch : list string)
| LogWouldDelete (key : string).

Definition is_mutation (ev : Event) : bool :=
  match ev with
  | DeleteObject _ | DeleteObjects _ => true
  | _ => false
  end.

End S3.
Import S3.

(* ===================================================================== *)
(** ** A small monad: store, event trace, exceptions *)
(* ===================================================================== *)

(** [Abort] is the model running out of [fuel] in a pagination loop the
  store never ends; no handler catches it. *)
Inductive Res (A : Type) : Type :=
| Val (a : A)
| Raise (e : Exception)
| Abort.
Arguments Val {A} a.
Arguments Raise {A} e.
Arguments Abort {A}.

Section Monad.
Context {Store : Type}.

Definition M (A : Type) : Type := Store -> Res A * Store * list Event.

Definition ret {A} (a : A) : M A := fun st => (Val a, st, []).

Definition raise {A} (e : Exception) : M A := fun st => (Raise e, st, []).

Definition abort {A} : M A := fun st => (Abort, st, []).

Definition bind {A B} (m : M A) (k : A -> M B) : M B :=
  fun st =>
    match m st with
    | (Val a, st1, evs1) =>
        match k a st1 with
        | (r, st2, evs2) => (r, st2, evs1 ++ evs2)
        end
    | (Raise e, st1, evs1) => (Raise e, st1, evs1)
    | (Abort, st1, evs1) => (Abort, st1, evs1)
    end.

(** [try: m  except ...: handler e] *)
Definition try_except {A} (m : M A) (handler : Exception -> M A) : M A :=
  fun st =>
    match m st with
    | (Raise e, st1, evs1) =>
        match handler e st1 with
        | (r, st2, evs2) => (r, st2, evs1 ++ evs2)
        end
    | other => other
    end.

Definition emit (ev : Event) : M unit := fun st => (Val tt, st, [ev]).

(** [d[key]] on a dictionary that may lack the key *)
Definition subscript {A} (field : option A) : M A :=
  match field with
  | Some a => ret a
  | None => raise KeyError
  end.

(** A value that may have overflowed *)
Definition checked {A} (v : option A) : M A :=
  match v with
  | Some a => ret a
  | None => raise OverflowError
  end.

Definition result {A} (r : Res A * Store * list Event) : Res A :=
  fst (fst r).
Definition store_after {A} (r : Res A * Store * list Event) : Store :=
  snd (fst r).
Definition events {A} (r : Res A * Store * list Event) : list Event :=
  snd r.
End Monad.
Arguments M Store A : clear implicits.

Declare Scope monad_scope.
Delimit Scope monad_scope with monad.
Notation "x <- m ;; k" := (bind m (fun x => k))
(at level 100, m at next level, right associativity) : monad_scope.
Notation "m ;;; k" := (bind m (fun _ => k))
(at level 100, right associativity) : monad_scope.
Local Open Scope monad_scope.

(* ===================================================================== *)
(** ** storage.py *)
(* ===================================================================== *)

Section Storage.

Context {Store : Type}.

(** [get_s3_client()]: the lazily initialised module-level client, [None]
    when the bucket name or the credentials are missing. *)
Variable get_s3_client : option (Client Store).

(** [datetime.now()] at the time of the call. *)
Variable now : Z.

Definition call_list_objects_v2 (c : Client Store)
  (prefix token : option string) : M Store ListResponse :=
  fun st =>
    match list_objects_v2 c st prefix token with
    | Returned r => (Val r, st, [ListObjectsV2 prefix token])
    | Thrown e => (Raise e, st, [ListObjectsV2 prefix token])
    end.

Definition call_generate_presigned_url (c : Client Store)
  (key : string) (expires_in : Z) : M Store string :=
  fun st =>
    match generate_presigned_url c st key expires_in with
    | Returned u => (Val u, st, [GeneratePresignedUrl key expires_in])
    | Thrown e => (Raise e, st, [GeneratePresignedUrl key expires_in])
    end.

Definition call_delete_object (c : Client Store) (key : string)
  : M Store unit :=
  fun st =>
    match delete_object c st key with
    | (Returned u, st') => (Val u, st', [DeleteObject key])
    | (Thrown e, st') => (Raise e, st', [DeleteObject key])
    end.

Definition call_delete_objects (c : Client Store) (batch : list string)
  : M Store DeleteResponse :=
  fun st =>
    match delete_objects c st batch with
    | (Returned r, st') => (Val r, st', [DeleteObjects batch])
    | (Thrown e, st') => (Raise e, st', [DeleteObjects batch])
    end.

(** [delete_from_storage(file_key, dry_run)] *)
Definition delete_from_storage (file_key : string) (dry_run : bool)
  : M Store bool :=
  match get_s3_client with
  | None => ret false
  | Some client =>
      if dry_run then
        emit (LogWouldDelete file_key) ;;;
        ret true
      else
        try_except
          (call_delete_object client file_key ;;;
           ret true)
          (fun _ => ret false)
  end.

(** The [while response['IsTruncated']] loop of [list_storage_files]. *)
Fixpoint list_storage_files_loop (fuel : nat) (client : Client Store)
  (response : ListResponse) (files : list string) : M Store (list string) :=
  if IsTruncated response then
    match fuel with
    | O => abort
    | S fuel' =>
        token <- subscript (NextContinuationToken response) ;;
        response' <- call_list_objects_v2 client None (Some token) ;;
        contents <- subscript (Contents response') ;;
        list_storage_files_loop fuel' client response'
          (files ++ map Key contents)
    end
  else ret files.

(** [list_storage_files()]: the list of keys, or [None] on any error. *)
Definition list_storage_files (fuel : nat) : M Store (option (list string)) :=
  match get_s3_client with
  | None => ret None
  | Some client =>
      try_except
        (response <- call_list_objects_v2 client None None ;;
         match Contents response with
         | None => ret (Some [])
         | Some contents =>
             files <- list_storage_files_loop fuel client response
                        (map Key contents) ;;
             ret (Some files)
         end)
        (fun _ => ret None)
  end.

(** [generate_presigned_url(s3_key, expiration, dry_run)] *)
Definition generate_presigned_url (s3_key : string) (expiration : Z)
  (dry_run : bool) : M Store (option string) :=
  match get_s3_client with
  | None => ret None
  | Some client =>
      if dry_run then
        ret (Some ("http://example.com/presigned-url/" ++ s3_key
                   ++ "?simulated=true")%string)
      else
        try_except
          (url <- call_generate_presigned_url client s3_key expiration ;;
           ret (Some url))
          (fun _ => ret None)
  end.

(** [get_file_url(file_key, expiration=3600)] *)
Definition get_file_url (file_key : string) : M Store (option string) :=
  generate_presigned_url file_key 3600 false.

(** botocore's page iterator for [list_objects_v2]: request a page, yield
    it, stop when it is not truncated or carries no (or an empty) token,
    raise [PaginationError] when the store hands out the same token twice
    in a row, otherwise go on from the token. The body of the [for page in
    pages] loops below only grows a local list, lost when the iterator
    raises, so the pages are gathered first. *)
Fixpoint paginate (fuel : nat) (client : Client Store)
  (prefix : option string) (token previous : option string)
  : M Store (list ListResponse) :=
  match fuel with
  | O => abort
  | S fuel' =>
      page <- call_list_objects_v2 client prefix token ;;
      if negb (IsTruncated page) then ret [page]
      else
        match NextContinuationToken page with
        | None => ret [page]
        | Some next =>
            if String.eqb next EmptyString then ret [page]
            else if match previous with
                    | Some p => String.eqb p next
                    | None => false
                    end
            then raise PaginationError
            else
              rest <- paginate fuel' client prefix (Some next) (Some next) ;;
              ret (page :: rest)
        end
  end.

(** [if 'Contents' in page: all_files.extend(page['Contents'])] *)
Definition page_contents (page : ListResponse) : list Object :=
  match Contents page with
  | Some contents => contents
  | None => []
  end.

(** [list_archive_files(prefix, dry_run)] *)
Definition list_archive_files (fuel : nat) (prefix : string) (dry_run : bool)
  : M Store (list Object) :=
  match get_s3_client with
  | None => ret []
  | Some client =>
      if dry_run then
        ret [ mkObject (prefix ++ "dummy_archive_1.pdf")%string
                (now - 1 * Py.US_PER_DAY) 12345;
              mkObject (prefix ++ "dummy_archive_2.pdf")%string
                (now - 2 * Py.US_PER_DAY) 67890 ]
      else
        try_except
          (pages <- paginate fuel client (Some prefix) None None ;;
           ret (flat_map page_contents pages))
          (fun _ => ret [])
  end.

(** The keys of a page that [delete_old_files] marks for deletion. *)
Definition marked_for_deletion (cutoff_date : Z) (page : ListResponse)
  : list string :=
  map Key (filter (fun obj => LastModified obj <? cutoff_date)
             (page_contents page)).

Definition deleted_in (response : DeleteResponse) : nat :=
  match Deleted response with
  | Some deleted => List.length deleted
  | None => 0%nat
  end.

(** The [for i in range(0, len(files_to_delete), 1000)] loop, with the
    [except ClientError] around it: a [ClientError] of the bulk call ends
    the loop and returns the count reached so far; any other exception
    leaves through the outer handlers. *)
Fixpoint delete_batches (client : Client Store) (files_to_delete : list string)
  (starts : list nat) (deleted_count : nat) : M Store nat :=
  match starts with
  | [] => ret deleted_count
  | i :: starts' =>
      let batch := Py.slice files_to_delete i (i + 1000) in
      fun st =>
        match call_delete_objects client batch st with
        | (Val response, st1, evs1) =>
            match delete_batches client files_to_delete starts'
                    (deleted_count + deleted_in response) st1 with
            | (r, st2, evs2) => (r, st2, evs1 ++ evs2)
            end
        | (Raise e, st1, evs1) =>
            if is_ClientError e then (Val deleted_count, st1, evs1)
            else (Raise e, st1, evs1)
        | (Abort, st1, evs1) => (Abort, st1, evs1)
        end
  end.

(** [delete_old_files(retention_days, prefix, dry_run)] *)
Definition delete_old_files (fuel : nat) (retention_days : Z)
  (prefix : string) (dry_run : bool) : M Store nat :=
  match get_s3_client with
  | None => ret 0%nat
  | Some client =>
      cutoff_date <- checked (Py.datetime_sub now retention_days) ;;
      try_except
        (pages <- paginate fuel client (Some prefix) None None ;;
         let files_to_delete := flat_map (marked_for_deletion cutoff_date) pages in
         match files_to_delete with
         | [] => ret 0%nat
         | _ :: _ =>
             if dry_run then
               fold_right (fun key m => emit (LogWouldDelete key) ;;; m)
                 (ret tt) files_to_delete ;;;
               ret (List.length files_to_delete)
             else
               delete_batches client files_to_delete
                 (Py.range 0 (List.length files_to_delete) 1000) 0%nat
         end)
        (fun _ => ret 0%nat)
  end.

End Storage.

(* ===================================================================== *)
(** ** main.py *)
(* ===================================================================== *)

Section Main.

Context {Store : Type}.

Variable get_s3_client : option (Client Store).

(** [datetime.strptime(s, DATE_FORMAT).date()] and
    [d.strftime(DATE_FORMAT)] for the configured [DATE_FORMAT]; [None] is
    the [ValueError] of a string that does not match the format. *)
Variable strptime : string -> option Z.
Variable strftime : Z -> string.

(** [config.config.get(('general', 'retention_days'), 7)] *)
Variable RETENTION_DAYS : Z.

Definition or_default (days : option Z) : Z :=
  match days with
  | Some d => d
  | None => RETENTION_DAYS
  end.

(** [datetime.strptime(filename.split('_')[0], DATE_FORMAT).date()] *)
Definition file_date_of (filename : string) : option Z :=
  strptime (Py.split_head "_" filename).

(** ["newspaper" in filename and (filename.endswith(".pdf") or
    filename.endswith(".html"))] *)
Definition is_newspaper (filename : string) : bool :=
  Py.contains "newspaper" filename
  && (Py.endswith filename ".pdf" || Py.endswith filename ".html").

(** The first loop of [get_past_papers_from_storage]: a file whose date
    does not parse is skipped ([except (ValueError, IndexError):
    continue]). *)
Fixpoint collect_dated_files (all_files : list string) : list (Z * string) :=
  match all_files with
  | [] => []
  | filename :: rest =>
      match file_date_of filename with
      | Some file_date =>
          if is_newspaper filename
          then (file_date, filename) :: collect_dated_files rest
          else collect_dated_files rest
      | None => collect_dated_files rest
      end
  end.

Definition in_window (cutoff_date target_date : Z) (file_date : Z) : bool :=
  (cutoff_date <=? file_date) && (file_date <=? target_date).

(** The body of the second loop for one file: ask for the URL of a file in
    the window and append the link when the URL is not empty. Both
    handlers around [get_file_url] only log. *)
Definition add_link (cutoff_date target_date : Z) (file_date : Z)
  (filename : string) (past_papers_links : list (string * string))
  : M Store (list (string * string)) :=
  if in_window cutoff_date target_date file_date then
    try_except
      (url <- get_file_url get_s3_client filename ;;
       match url with
       | Some u =>
           if Py.truthy u
           then ret (past_papers_links ++ [(strftime file_date, u)])
           else ret past_papers_links
       | None => ret past_papers_links
       end)
      (fun _ => ret past_papers_links)
  else ret past_papers_links.

(** The second loop, with its [break] once [days] links are gathered. *)
Fixpoint gather_links (days cutoff_date target_date : Z)
  (dated_files : list (Z * string)) (past_papers_links : list (string * string))
  : M Store (list (string * string)) :=
  match dated_files with
  | [] => ret past_papers_links
  | (file_date, filename) :: rest =>
      links <- add_link cutoff_date target_date file_date filename
                 past_papers_links ;;
      if days <=? Z.of_nat (List.length links) then ret links
      else gather_links days cutoff_date target_date rest links
  end.

(** What [get_past_papers_from_storage] does with the listing it got. *)
Definition past_papers_of (days target_date : Z)
  (all_files : option (list string)) : M Store (list (string * string)) :=
  match all_files with
  | None | Some [] => ret []
  | Some all_files =>
      let dated_files :=
        Py.sort_desc Z.ltb fst (collect_dated_files all_files) in
      cutoff_date <- checked (Py.date_sub target_date (days - 1)) ;;
      past_papers_links <-
        gather_links days cutoff_date target_date dated_files [] ;;
      ret (Py.sort_desc String.ltb fst past_papers_links)
  end.

(** [get_past_papers_from_storage(target_date, days)] *)
Definition get_past_papers_from_storage (fuel : nat) (target_date : Z)
  (days : option Z) : M Store (list (string * string)) :=
  let days := or_default days in
  try_except
    (all_files <- list_storage_files get_s3_client fuel ;;
     past_papers_of days target_date all_files)
    (fun _ => ret []).

(** The loop of [cleanup_old_files]; it returns [deleted_count], which the
    function logs. *)
Fixpoint cleanup_loop (cutoff_date : Z) (dry_run : bool)
  (all_files : list string) (deleted_count : nat) : M Store nat :=
  match all_files with
  | [] => ret deleted_count
  | filename :: rest =>
      match file_date_of filename with
      | Some file_date =>
          if file_date <? cutoff_date then
            deleted <- delete_from_storage get_s3_client filename dry_run ;;
            cleanup_loop cutoff_date dry_run rest
              (if deleted : bool then S deleted_count else deleted_count)
          else cleanup_loop cutoff_date dry_run rest deleted_count
      | None => cleanup_loop cutoff_date dry_run rest deleted_count
      end
  end.

(** What [cleanup_old_files] does with the listing it got. *)
Definition cleanup_of (days_to_keep target_date : Z) (dry_run : bool)
  (all_files : option (list string)) : M Store unit :=
  match all_files with
  | None | Some [] => ret tt
  | Some all_files =>
      cutoff_date <- checked (Py.date_sub target_date days_to_keep) ;;
      cleanup_loop cutoff_date dry_run all_files 0%nat ;;;
      ret tt
  end.

(** [cleanup_old_files(target_date, days_to_keep, dry_run)] *)
Definition cleanup_old_files (fuel : nat) (target_date : Z)
  (days_to_keep : option Z) (dry_run : bool) : M Store unit :=
  let days_to_keep := or_default days_to_keep in
  try_except
    (all_files <- list_storage_files get_s3_client fuel ;;
     cleanup_of days_to_keep target_date dry_run all_files)
    (fun _ => ret tt).

End Main.

(* ===================================================================== *)
(** ** The default date format, ['%Y-%m-%d'] *)
(* ===================================================================== *)

(** The codec for the default [DATE_FORMAT], on ASCII strings, after
    CPython's [datetime] and [_strptime]: the year is four digits, month
    and day one or two, and the calendar is the proleptic Gregorian one.
    Its domain: [strptime] reads the ASCII digits only (Python also takes
    the other Unicode decimal digits), and [strftime] writes the year on
    four digits, as every platform does from the year 1000 on (before it,
    the C library decides on the padding). The general results below hold
    for any format; this one instantiates them, on keys and dates inside
    this domain. *)
Module DefaultFormat.

Definition is_leap (year : Z) : bool :=
  (year mod 4 =? 0) && (negb (year mod 100 =? 0) || (year mod 400 =? 0)).

Definition days_before_year (year : Z) : Z :=
  let y := year - 1 in y * 365 + y / 4 - y / 100 + y / 400.

Definition days_in_month (year month : Z) : Z :=
  if (month =? 2) && is_leap year then 29
  else nth (Z.to_nat month) [0; 31; 28; 31; 30; 31; 30; 31; 31; 30; 31; 30; 31] 0.

Definition DAYS_BEFORE_MONTH : list Z :=
  [0; 0; 31; 59; 90; 120; 151; 181; 212; 243; 273; 304; 334].

Definition days_before_month (year month : Z) : Z :=
  nth (Z.to_nat month) DAYS_BEFORE_MONTH 0
  + (if (2 <? month) && is_leap year then 1 else 0).

Definition ymd2ord (year month day : Z) : Z :=
  days_before_year year + days_before_month year month + day.

Definition ord2ymd (ordinal : Z) : Z * Z * Z :=
  let n := ordinal - 1 in
  let n400 := n / 146097 in
  let n := n mod 146097 in
  let n100 := n / 36524 in
  let n := n mod 36524 in
  let n4 := n / 1461 in
  let n := n mod 1461 in
  let n1 := n / 365 in
  let n := n mod 365 in
  let year := n400 * 400 + 1 + n100 * 100 + n4 * 4 + n1 in
  if (n1 =? 4) || (n100 =? 4) then (year - 1, 12, 31)
  else
    let leapyear := (n1 =? 3) && (negb (n4 =? 24) || (n100 =? 3)) in
    let month := Z.shiftr (n + 50) 5 in
    let preceding :=
      nth (Z.to_nat month) DAYS_BEFORE_MONTH 0
      + (if (2 <? month) && leapyear then 1 else 0) in
    if n <? preceding then
      let month' := month - 1 in
      let preceding' :=
        preceding
        - (nth (Z.to_nat month') [0; 31; 28; 31; 30; 31; 30; 31; 31; 30; 31; 30; 31] 0
           + (if (month' =? 2) && leapyear then 1 else 0)) in
      (year, month', n - preceding' + 1)
    else (year, month, n - preceding + 1).

Definition digit (c : ascii) : option Z :=
  let n := Z.of_nat (nat_of_ascii c) in
  if (48 <=? n) && (n <=? 57) then Some (n - 48) else None.

(** [(?P<Y>\d\d\d\d)] *)
Definition match_year (s : list ascii) : option (Z * list ascii) :=
  match s with
  | a :: b :: c :: d :: rest =>
      match digit a, digit b, digit c, digit d with
      | Some a, Some b, Some c, Some d =>
          Some (a * 1000 + b * 100 + c * 10 + d, rest)
      | _, _, _, _ => None
      end
  | _ => None
  end.

Definition digit_at (s : list ascii) : option Z :=
  match s with
  | c :: _ => digit c
  | [] => None
  end.

(** [(?P<m>1[0-2]|0[1-9]|[1-9])] *)
Definition match_month (s : list ascii) : option (Z * list ascii) :=
  match s with
  | [] => None
  | a :: rest =>
      match digit a, digit_at rest with
      | Some 1, Some y => if y <=? 2 then Some (10 + y, tl rest) else Some (1, rest)
      | Some 0, Some y => if 1 <=? y then Some (y, tl rest) else None
      | Some x, _ => if 1 <=? x then Some (x, rest) else None
      | None, _ => None
      end
  end.

(** [(?P<d>3[01]|[12]\d|0[1-9]|[1-9]| [1-9])] *)
Definition match_day (s : list ascii) : option (Z * list ascii) :=
  match s with
  | [] => None
  | a :: rest =>
      match digit a, digit_at rest with
      | Some 3, Some y => if y <=? 1 then Some (30 + y, tl rest) else Some (3, rest)
      | Some 1, Some y => Some (10 + y, tl rest)
      | Some 2, Some y => Some (20 + y, tl rest)
      | Some 0, Some y => if 1 <=? y then Some (y, tl rest) else None
      | Some x, _ => if 1 <=? x then Some (x, rest) else None
      | None, Some y =>
          if Ascii.eqb a " " && (1 <=? y) then Some (y, tl rest) else None
      | None, None => None
      end
  end.

Definition expect (c : ascii) (s : list ascii) : option (list ascii) :=
  match s with
  | a :: rest => if Ascii.eqb a c then Some rest else None
  | [] => None
  end.

(** [datetime.strptime(s, '%Y-%m-%d').date().toordinal()] *)
Definition strptime (s : string) : option Z :=
  match match_year (list_ascii_of_string s) with
  | None => None
  | Some (year, s1) =>
      match expect "-" s1 with
      | None => None
      | Some s2 =>
          match match_month s2 with
          | None => None
          | Some (month, s3) =>
              match expect "-" s3 with
              | None => None
              | Some s4 =>
                  match match_day s4 with
                  | Some (day, []) =>
                      if (1 <=? year) && (day <=? days_in_month year month)
                      then Some (ymd2ord year month day)
                      else None
                  | _ => None
                  end
              end
          end
      end
  end.

Definition digit_char (n : Z) : ascii := ascii_of_nat (48 + Z.to_nat (n mod 10)).

Definition two_digits (n : Z) : string :=
  String (digit_char (n / 10)) (String (digit_char n) EmptyString).

(** [date.fromordinal(o).strftime('%Y-%m-%d')], the year on four digits *)
Definition strftime (ordinal : Z) : string :=
  match ord2ymd ordinal with
  | (year, month, day) =>
      (two_digits (year / 100) ++ two_digits year ++ "-"
       ++ two_digits month ++ "-" ++ two_digits day)%string
  end.

End DefaultFormat.

(* ===================================================================== *)
(** ** An in-memory bucket, for concrete runs *)
(* ===================================================================== *)

(** A test double of the store: the objects in store order, the keys the
    bulk delete refuses, and a queue of faults, one per delete call still
    to come. Listing serves [page_size] objects a page and uses the key of
    the next object as continuation token. *)
Module MemStore.

Record Bucket : Type := mkBucket {
  objects : list Object;
  protected : list string;
  delete_faults : list (option Exception)
}.

Definition mem (key : string) (keys : list string) : bool :=
  existsb (String.eqb key) keys.

Fixpoint resume_at (token : string) (objs : list Object) : list Object :=
  match objs with
  | [] => []
  | obj :: rest =>
      if String.eqb (Key obj) token then objs else resume_at token rest
  end.

Definition list_page (page_size : nat)
  (list_fault : option string -> option Exception)
  (st : Bucket) (prefix token : option string) : Outcome ListResponse :=
  match list_fault token with
  | Some e => Thrown e
  | None =>
      let matching :=
        match prefix with
        | Some p => filter (fun obj => String.prefix p (Key obj)) (objects st)
        | None => objects st
        end in
      let from :=
        match token with
        | Some t => resume_at t matching
        | None => matching
        end in
      let page := firstn page_size from in
      let rest := skipn page_size from in
      Returned
        (mkListResponse
           (match page with [] => None | _ => Some page end)
           (match rest with [] => false | _ => true end)
           (match rest with [] => None | obj :: _ => Some (Key obj) end))
  end.

Definition sign (st : Bucket) (key : string) (expires_in : Z)
  : Outcome string :=
  Returned ("https://bucket.example/" ++ key ++ "?X-Amz-Signature=0")%string.

Definition pop_fault (st : Bucket) : option Exception * Bucket :=
  match delete_faults st with
  | [] => (None, st)
  | f :: faults => (f, mkBucket (objects st) (protected st) faults)
  end.

Definition remove_keys (keys : list string) (st : Bucket) : Bucket :=
  mkBucket (filter (fun obj => negb (mem (Key obj) keys)) (objects st))
    (protected st) (delete_faults st).

Definition delete_one (st : Bucket) (key : string) : Outcome unit * Bucket :=
  match pop_fault st with
  | (Some e, st') => (Thrown e, st')
  | (None, st') => (Returned tt, remove_keys [key] st')
  end.

Definition delete_many (st : Bucket) (batch : list string)
  : Outcome DeleteResponse * Bucket :=
  match pop_fault st with
  | (Some e, st') => (Thrown e, st')
  | (None, st') =>
      let refused := filter (fun key => mem key (protected st')) batch in
      let deleted := filter (fun key => negb (mem key (protected st'))) batch in
      (Returned
         (mkDeleteResponse
            (match deleted with [] => None | _ => Some deleted end)
            (match refused with
             | [] => None
             | _ => Some (map (fun key => mkDeleteError key "AccessDenied") refused)
             end)),
       remove_keys deleted st')
  end.

Definition client (page_size : nat)
  (list_fault : option string -> option Exception) : Client Bucket :=
  mkClient Bucket (list_page page_size list_fault) sign delete_one delete_many.

Definition no_fault : option string -> option Exception := fun _ => None.

End MemStore.

(* ===================================================================== *)
(** ** Vocabulary of the properties *)
(* ===================================================================== *)

(** The batches [files[i:i+1000]] for [i] in [range(0, len(files), 1000)]. *)
Definition batches_of {A : Type} (files : list A) : list (list A) :=
  map (fun i => Py.slice files i (i + 1000))
    (Py.range 0 (List.length files) 1000).

Definition is_listing (ev : Event) : bool :=
  match ev with
  | ListObjectsV2 _ _ => true
  | _ => false
  end.

Definition is_presign (ev : Event) : bool :=
  match ev with
  | GeneratePresignedUrl _ _ => true
  | _ => false
  end.

(** An event that is no delete request. *)
Definition harmless (ev : Event) : bool := negb (is_mutation ev).

(** How a listing under a prefix ends. *)
Inductive Ending : Type :=
| Complete
| Fails (token : option string) (e : Exception).

(** [serves c st prefix token served ending]: asked from [token] on, the
    store answers the successive requests with the responses of [served]
    (each with the token it was requested by), every response but the last
    truncated and carrying a fresh, non-empty continuation token; then the
    listing is complete, or the next request fails. *)
Inductive serves {Store : Type} (c : Client Store) (st : Store)
  (prefix : option string)
  : option string -> list (option string * ListResponse) -> Ending -> Prop :=
| serves_last token response :
    list_objects_v2 c st prefix token = Returned response ->
    IsTruncated response = false ->
    serves c st prefix token [(token, response)] Complete
| serves_fails token e :
    list_objects_v2 c st prefix token = Thrown e ->
    serves c st prefix token [] (Fails token e)
| serves_more token response next rest ending :
    list_objects_v2 c st prefix token = Returned response ->
    IsTruncated response = true ->
    NextContinuationToken response = Some next ->
    next <> EmptyString ->
    token <> Some next ->
    serves c st prefix (Some next) rest ending ->
    serves c st prefix token ((token, response) :: rest) ending.

Definition requests_of (prefix : option string)
  (served : list (option string * ListResponse)) (ending : Ending)
  : list Event :=
  map (fun p => ListObjectsV2 prefix (fst p)) served
  ++ match ending with
     | Complete => []
     | Fails token _ => [ListObjectsV2 prefix token]
     end.

(** The objects of the pages, in the order served. *)
Definition objects_of (served : list (option string * ListResponse))
  : list Object :=
  flat_map (fun p => page_contents (snd p)) served.

Definition has_contents (p : option string * ListResponse) : Prop :=
  Contents (snd p) <> None.

(** The keys [delete_old_files] selects: those of the objects last
    modified before the cutoff. *)
Definition expired_keys (cutoff_date : Z) (objs : list Object) : list string :=
  map Key (filter (fun obj => LastModified obj <? cutoff_date) objs).

(** [answers c st batches responses st']: from [st], the store answers the
    bulk-delete requests [batches], in this order, with [responses], and is
    left in [st']. *)
Inductive answers {Store : Type} (c : Client Store)
  : Store -> list (list string) -> list DeleteResponse -> Store -> Prop :=
| answers_nil st : answers c st [] [] st
| answers_cons st batch response st1 batches responses st2 :
    delete_objects c st batch = (Returned response, st1) ->
    answers c st1 batches responses st2 ->
    answers c st (batch :: batches) (response :: responses) st2.

Definition total_deleted (responses : list DeleteResponse) : nat :=
  list_sum (map deleted_in responses).

(** Walking a store: the pages it serves from [token] on, and the
    responses it gives to a sequence of bulk-delete requests. *)
Definition token_eqb (token : option string) (next : string) : bool :=
  match token with
  | Some t => String.eqb t next
  | None => false
  end.

Fixpoint explore {Store : Type} (fuel : nat) (c : Client Store) (st : Store)
  (prefix token : option string)
  : option (list (option string * ListResponse) * Ending) :=
  match fuel with
  | O => None
  | S fuel' =>
      match list_objects_v2 c st prefix token with
      | Thrown e => Some ([], Fails token e)
      | Returned response =>
          if IsTruncated response then
            match NextContinuationToken response with
            | None => None
            | Some next =>
                if String.eqb next EmptyString || token_eqb token next
                then None
                else
                  match explore fuel' c st prefix (Some next) with
                  | Some (rest, ending) =>
                      Some ((token, response) :: rest, ending)
                  | None => None
                  end
            end
          else Some ([(token, response)], Complete)
      end
  end.

Fixpoint respond {Store : Type} (c : Client Store) (st : Store)
  (batches : list (list string)) : option (list DeleteResponse * Store) :=
  match batches with
  | [] => Some ([], st)
  | batch :: batches' =>
      match delete_objects c st batch with
      | (Returned response, st1) =>
          match respond c st1 batches' with
          | Some (responses, st2) => Some (response :: responses, st2)
          | None => None
          end
      | (Thrown _, _) => None
      end
  end.

Section Vocabulary.
Context {Store : Type}.
Variable client : option (Client Store).
Variable strptime : string -> option Z.
Variable strftime : Z -> string.

(** The URL [get_file_url] hands back for a key, when it is usable. *)
Definition url_of (st : Store) (key : string) : option string :=
  match client with
  | Some c =>
      match S3.generate_presigned_url c st key 3600 with
      | Returned u => if Py.truthy u then Some u else None
      | Thrown _ => None
      end
  | None => None
  end.

Definition url_requests (key : string) : list Event :=
  match client with
  | Some _ => [GeneratePresignedUrl key 3600]
  | None => []
  end.

(** The link a dated file contributes, if its URL is usable. *)
Definition link_for (st : Store) (dated : Z * string)
  : list (string * string) :=
  match url_of st (snd dated) with
  | Some u => [(strftime (fst dated), u)]
  | None => []
  end.

Definition windowed (cutoff_date target_date : Z)
  (dated_files : list (Z * string)) : list (Z * string) :=
  filter (fun p => in_window cutoff_date target_date (fst p)) dated_files.

Definition expired_by_name (cutoff_date : Z) (filename : string) : Prop :=
  exists file_date,
    file_date_of strptime filename = Some file_date
    /\ file_date < cutoff_date.

(** A file of the listing that the current window selects. *)
Definition in_current (files : list string) (cutoff_date target_date : Z)
  (file_date : Z) (filename : string) : Prop :=
  In filename files
  /\ file_date_of strptime filename = Some file_date
  /\ is_newspaper filename = true
  /\ cutoff_date <= file_date <= target_date.

Definition dated_files_of (files : list string) : list (Z * string) :=
  Py.sort_desc Z.ltb fst (collect_dated_files strptime files).

End Vocabulary.

(** The [days] dates of the window ending on [target_date], latest
    first. *)
Definition window_dates (target_date days : Z) : list Z :=
  map (fun i => target_date - Z.of_nat i) (seq 0 (Z.to_nat days)).

(* ===================================================================== *)
(** ** Concrete buckets *)
(* ===================================================================== *)

(** Buckets of the in-memory store on which the operations are run, with
    the default date format. The reference date is 2024-06-10. *)
Module Scenario.

Definition target_date : Z := 739047.

Definition day (ordinal : Z) : Z := ordinal * Py.US_PER_DAY.

(** Noon of the reference date. *)
Definition now : Z := day target_date + 43200000000.

Definition named (key : string) : Object := mkObject key (day 739040) 1.

Definition bucket (objs : list Object) : MemStore.Bucket :=
  MemStore.mkBucket objs [] [].

Definition client : option (Client MemStore.Bucket) :=
  Some (MemStore.client 4 MemStore.no_fault).

(** A week of archives, thumbnails and a stray file, in key order. *)
Definition week : MemStore.Bucket :=
  bucket (map named
    ["2024-06-05_newspaper.pdf"; "2024-06-06_newspaper.pdf";
     "2024-06-07_newspaper.pdf"; "2024-06-08_newspaper.pdf";
     "2024-06-08_thumbnail.jpg"; "2024-06-09_newspaper.html";
     "2024-06-10_newspaper.pdf"; "2024-06-11_newspaper.pdf";
     "notes.txt"]%string).

(** Two documents for the reference date, one for the day before. *)
Definition same_day : MemStore.Bucket :=
  bucket (map named
    ["2024-06-09_newspaper.pdf"; "2024-06-10_newspaper.html";
     "2024-06-10_newspaper.pdf"]%string).

Definition get_past_papers (days : Z) (st : MemStore.Bucket) :=
  get_past_papers_from_storage client DefaultFormat.strptime
    DefaultFormat.strftime 7 10 target_date (Some days) st.

Definition cleanup (days : Z) (dry_run : bool) (st : MemStore.Bucket) :=
  cleanup_old_files client DefaultFormat.strptime 7 10 target_date
    (Some days) dry_run st.

(** Archives by age: [old] objects were last modified thirty days before
    the reference date, [fresh] ones the day before it. *)
Definition old (key : string) : Object := mkObject key (day 739017) 1.
Definition fresh (key : string) : Object := mkObject key (day 739046) 1.

Definition archive : MemStore.Bucket :=
  bucket [old "archive/a.pdf"; old "archive/b.pdf"; fresh "archive/c.pdf";
          old "archive/d.pdf"; fresh "archive/e.pdf"]%string.

Definition only_fresh : MemStore.Bucket :=
  bucket [fresh "archive/c.pdf"; fresh "archive/e.pdf"]%string.

(** A client whose first listing request is refused. *)
Definition unreachable : Client MemStore.Bucket :=
  MemStore.client 2 (fun _ => Some ClientError).

(** A client whose listing fails on the second page. *)
Definition flaky : Client MemStore.Bucket :=
  MemStore.client 2
    (fun token => match token with Some _ => Some ClientError | None => None end).

Definition paged : Client MemStore.Bucket :=
  MemStore.client 2 MemStore.no_fault.

Definition key_of (i : nat) : string :=
  (NilEmpty.string_of_uint (Nat.to_uint i) ++ ".pdf")%string.

(** [n] expired objects. *)
Definition expired_objects (n : nat) : list Object :=
  map (fun i => old (key_of i)) (seq 0 n).

Definition bulk : Client MemStore.Bucket :=
  MemStore.client 1000 MemStore.no_fault.

(** 1001 expired objects and a store that refuses the first bulk
    delete. *)
Definition refusing : MemStore.Bucket :=
  MemStore.mkBucket (expired_objects 1001) [] [Some ClientError].

(** 1001 expired objects, one of which the store will not delete. *)
Definition guarded : MemStore.Bucket :=
  MemStore.mkBucket (expired_objects 1001) [key_of 500] [].

(** The archive bucket with one object the store will not delete. *)
Definition guarded_archive : MemStore.Bucket :=
  MemStore.mkBucket (MemStore.objects archive) ["archive/b.pdf"%string] [].

Definition empty : MemStore.Bucket := bucket [].

Definition purge (c : Client MemStore.Bucket) (dry_run : bool)
  (st : MemStore.Bucket) :=
  delete_old_files (Some c) now 10 7 "archive/" dry_run st.

Definition purge_all (c : Client MemStore.Bucket) (dry_run : bool)
  (st : MemStore.Bucket) :=
  delete_old_files (Some c) now 10 7 "" dry_run st.

End Scenario.

(* ===================================================================== *)
(** ** storage.py: the lazily initialised client *)
(* ===================================================================== *)

Section ClientInit.

Context {Store Env : Type}.

(** [config.config.get(('storage', 'bucket_name'))] *)
Variable S3_BUCKET_NAME : option string.

(** [boto3.Session(...).client('s3', endpoint_url=...)]: what creating the
    client gives in the current environment (credentials, endpoint), and
    the environment afterwards. *)
Variable new_client : Env -> Outcome (Client Store) * Env.

(** [if not S3_BUCKET_NAME] *)
Definition bucket_name_missing : bool :=
  match S3_BUCKET_NAME with
  | None => true
  | Some name => negb (Py.truthy name)
  end.

(** [init_s3_client()], on the module-level [s3_client]: the value
    returned, the new [s3_client] and the environment. Every handler sets
    [s3_client = None] and returns [False]. *)
Definition init_s3_client (s3_client : option (Client Store)) (env : Env)
  : bool * option (Client Store) * Env :=
  match s3_client with
  | None =>
      if bucket_name_missing then (false, None, env)
      else
        match new_client env with
        | (Returned client, env') => (true, Some client, env')
        | (Thrown _, env') => (false, None, env')
        end
  | Some _ => (true, s3_client, env)
  end.

(** [get_s3_client()] *)
Definition get_s3_client (s3_client : option (Client Store)) (env : Env)
  : option (Client Store) * option (Client Store) * Env :=
  match s3_client with
  | None =>
      match init_s3_client s3_client env with
      | (false, s3_client', env') => (None, s3_client', env')
      | (true, s3_client', env') => (s3_client', s3_client', env')
      end
  | Some _ => (s3_client, s3_client, env)
  end.

(** [n] calls of [get_s3_client()] in a row: the module state and the
    environment after them. *)
Fixpoint get_s3_client_times (n : nat) (s3_client : option (Client Store))
  (env : Env) : option (Client Store) * Env :=
  match n with
  | O => (s3_client, env)
  | S n' =>
      match get_s3_client s3_client env with
      | (_, s3_client', env') => get_s3_client_times n' s3_client' env'
      end
  end.

End ClientInit.

(* ===================================================================== *)
(** ** config.py *)
(* ===================================================================== *)

(** The values of the configuration: what the defaults hold and what
    [yaml.safe_load] can add to them, floats and timestamps apart. A
    dictionary is the list of its items in insertion order, with keys that
    are strings. *)
#[warnings="-register-all"]
Inductive Value : Type :=
| VNone
| VBool (b : bool)
| VInt (n : Z)
| VStr (s : string)
| VList (items : list Value)
| VDict (items : list (string * Value)).

Module Config.

Definition is_dict (value : Value) : bool :=
  match value with
  | VDict _ => true
  | _ => false
  end.

(** Truth value of a configuration value *)
Definition truthy (value : Value) : bool :=
  match value with
  | VNone => false
  | VBool b => b
  | VInt n => negb (n =? 0)
  | VStr s => Py.truthy s
  | VList items => match items with [] => false | _ => true end
  | VDict items => match items with [] => false | _ => true end
  end.

(** [d[key]] on a dictionary; [None] is the [KeyError] *)
Fixpoint dict_get (key : string) (d : list (string * Value)) : option Value :=
  match d with
  | [] => None
  | (k, v) :: d' => if String.eqb k key then Some v else dict_get key d'
  end.

(** [d[key] = value]: an existing key keeps its place, a new one goes
    last *)
Fixpoint dict_set (key : string) (value : Value) (d : list (string * Value))
  : list (string * Value) :=
  match d with
  | [] => [(key, value)]
  | (k, v) :: d' =>
      if String.eqb k key then (k, value) :: d'
      else (k, v) :: dict_set key value d'
  end.

(** The walk of [get]: [value = value[segment]] for each segment; [None]
    is the [KeyError] of a missing key or the [TypeError] of a value that
    is no dictionary. *)
Fixpoint lookup (value : Value) (path : list string) : option Value :=
  match path with
  | [] => Some value
  | segment :: rest =>
      match value with
      | VDict d =>
          match dict_get segment d with
          | Some v => lookup v rest
          | None => None
          end
      | _ => None
      end
  end.

(** [Configuration.get(path, default)] on [self._config] *)
Definition get (config : list (string * Value)) (path : list string)
  (default : Value) : Value :=
  match lookup (VDict config) path with
  | Some value => value
  | None => default
  end.

(** What one item of the source does to the target, given the merge of
    the nested dictionaries. *)
Definition merge_item (merge_nested : list (string * Value) -> Value ->
                                      list (string * Value))
  (target : list (string * Value)) (key : string) (value : Value)
  : list (string * Value) :=
  match dict_get key target, value with
  | Some (VDict nested), VDict _ =>
      dict_set key (VDict (merge_nested nested value)) target
  | _, _ => dict_set key value target
  end.

(** [_merge_config(target, source)] for a [source] that is a dictionary,
    as the new [target]. *)
Fixpoint merge (target : list (string * Value)) (source : Value)
  {struct source} : list (string * Value) :=
  match source with
  | VDict items =>
      (fix over (items : list (string * Value))
           (target : list (string * Value)) : list (string * Value) :=
         match items with
         | [] => target
         | (key, value) :: rest =>
             over rest (merge_item merge target key value)
         end) items target
  | _ => target
  end.

(** The loop of [_merge_config] over the items of the source. *)
Fixpoint merge_items (items : list (string * Value))
  (target : list (string * Value)) : list (string * Value) :=
  match items with
  | [] => target
  | (key, value) :: rest => merge_items rest (merge_item merge target key value)
  end.

(** [_merge_config(target, source)]: [source.items()] raises
    [AttributeError], here [None], when [source] is no dictionary. *)
Definition _merge_config (target : list (string * Value)) (source : Value)
  : option (list (string * Value)) :=
  match source with
  | VDict items => Some (merge_items items target)
  | _ => None
  end.

(** [_set_nested_value(config_dict, path_tuple, value)] as the new
    dictionary; [None] is the [IndexError] of an empty path or the
    [TypeError] of a step through a value that is no dictionary. *)
Fixpoint _set_nested_value (config_dict : Value) (path_tuple : list string)
  (value : Value) : option Value :=
  match path_tuple with
  | [] => None
  | [key] =>
      match config_dict with
      | VDict d => Some (VDict (dict_set key value d))
      | _ => None
      end
  | key :: rest =>
      match config_dict with
      | VDict d =>
          let d' :=
            match dict_get key d with
            | Some _ => d
            | None => dict_set key (VDict []) d
            end in
          match dict_get key d' with
          | Some nested =>
              match _set_nested_value nested rest value with
              | Some nested' => Some (VDict (dict_set key nested' d'))
              | None => None
              end
          | None => None
          end
      | _ => None
      end
  end.

(** An exception raised while a file is opened and read: one that the
    handlers around the call name, or another one (the
    [UnicodeDecodeError] of a file that is not UTF-8, say, which is a
    [ValueError]). *)
Inductive Raised : Type :=
| Named
| Unnamed.

(** What opening the YAML file and [yaml.safe_load] give. The handlers
    name [FileNotFoundError], [yaml.YAMLError], [PermissionError] and
    [OSError]. *)
Inductive YamlRead : Type :=
| Parsed (document : Value)
| ReadError (raised : Raised).

(** The YAML part of [Configuration.load]: the new [self._config], or
    [None] when an exception leaves [load]: one the handlers do not name,
    or the [AttributeError] of a document that is truthy and no
    dictionary. The read errors the handlers name are logged and change
    nothing. *)
Definition load_yaml (config : list (string * Value)) (config_path : string)
  (read : YamlRead) : option (list (string * Value)) :=
  if Py.truthy config_path then
    match read with
    | Parsed yaml_config =>
        if truthy yaml_config then _merge_config config yaml_config
        else Some config
    | ReadError Named => Some config
    | ReadError Unnamed => None
    end
  else Some config.

(** [Configuration.load(env_file, config_path)]: the new [self._config],
    or [None] when an exception leaves it. [dotenv] is what [load_dotenv]
    raised, if anything; with or without [env_file] the handlers around it
    name [FileNotFoundError], [PermissionError] and [OSError]. What
    [load_dotenv] puts in the environment is not read by [load]. *)
Definition load (config : list (string * Value)) (dotenv : option Raised)
  (config_path : string) (read : YamlRead)
  : option (list (string * Value)) :=
  match dotenv with
  | Some Unnamed => None
  | _ => load_yaml config config_path read
  end.

(** A path that a dictionary with distinct keys sets to a value that is no
    dictionary. *)
Inductive sets : list (string * Value) -> list string -> Value -> Prop :=
| sets_here d key value :
    NoDup (map fst d) -> In (key, value) d -> is_dict value = false ->
    sets d [key] value
| sets_below d key nested rest value :
    NoDup (map fst d) -> In (key, VDict nested) d ->
    sets nested rest value ->
    sets d (key :: rest) value.

(** A path that a dictionary with distinct keys leaves alone: at some
    depth the key is missing, the dictionary holding only dictionaries
    along the path before. *)
Inductive leaves_alone : list (string * Value) -> list string -> Prop :=
| alone_here d key rest :
    dict_get key d = None -> leaves_alone d (key :: rest)
| alone_below d key nested rest :
    NoDup (map fst d) -> In (key, VDict nested) d ->
    leaves_alone nested rest ->
    leaves_alone d (key :: rest).

(** A string between double quotes. *)
Definition quoted (s : string) : string :=
  String (ascii_of_nat 34) (s ++ String (ascii_of_nat 34) EmptyString).

(** The defaults of [Configuration.__init__]. *)
Definition defaults : list (string * Value) :=
  [("general", VDict [("date_format", VStr "%Y-%m-%d");
                      ("retention_days", VInt 7)]);
   ("newspaper",
    VDict [("url", VNone);
           ("username", VNone);
           ("password", VNone);
           ("selectors",
            VDict [("username", VStr ("input[name=" ++ quoted "username" ++ "]"));
                   ("password", VStr ("input[name=" ++ quoted "password" ++ "]"));
                   ("submit", VStr ("button[type=" ++ quoted "submit" ++ "]"));
                   ("login_success", VStr "#user-profile-link");
                   ("login_success_url", VNone);
                   ("download_link", VNone)])]);
   ("storage", VDict [("bucket_name", VNone);
                      ("region", VStr "us-east-1");
                      ("endpoint_url", VNone);
                      ("url_expiration", VInt 3600)]);
   ("email", VDict [("sender", VNone);
                    ("recipients", VList []);
                    ("subject_template", VStr "Daily Newspaper - {{ date }}");
                    ("smtp_host", VNone);
                    ("smtp_port", VInt 587);
                    ("smtp_user", VNone);
                    ("smtp_password", VNone);
                    ("sendgrid_api_key", VNone)]);
   ("paths", VDict [("template_dir", VStr "templates");
                    ("template_name", VStr "email_template.html");
                    ("download_dir", VStr "downloads")])]%string.

End Config.

(* ===================================================================== *)
(** ** email_sender.py: the recipients and the choice of a transport *)
(* ===================================================================== *)

Module Email.

(** [c.isspace()] for a character below U+0100: the strings of this
    module are sequences of such characters. *)
Definition isspace (c : ascii) : bool :=
  let n := nat_of_ascii c in
  ((9 <=? n) && (n <=? 13) || (28 <=? n) && (n <=? 32)
   || (n =? 133) || (n =? 160))%nat.

(** [s.lstrip()] *)
Fixpoint lstrip (s : string) : string :=
  match s with
  | EmptyString => EmptyString
  | String c rest => if isspace c then lstrip rest else s
  end.

(** [s.rstrip()] *)
Fixpoint rstrip (s : string) : string :=
  match s with
  | EmptyString => EmptyString
  | String c rest =>
      match rstrip rest with
      | EmptyString => if isspace c then EmptyString else String c EmptyString
      | tail => String c tail
      end
  end.

(** [s.strip()] *)
Definition strip (s : string) : string := rstrip (lstrip s).

(** [s.split(sep)] for a separator of one character; the result is never
    empty. *)
Fixpoint split (sep : ascii) (s : string) : list string :=
  match s with
  | EmptyString => [EmptyString]
  | String c rest =>
      if Ascii.eqb c sep then EmptyString :: split sep rest
      else
        match split sep rest with
        | piece :: pieces => String c piece :: pieces
        | [] => [String c EmptyString]
        end
  end.

(** The recipients [send_email] computes from [EMAIL_TO]; [None] when
    [EMAIL_TO] is neither a string nor a list. *)
Definition recipients_of (EMAIL_TO : Value) : option (list string) :=
  match EMAIL_TO with
  | VStr s =>
      Some (map strip
              (filter (fun email => Py.truthy (strip email)) (split "," s)))
  | VList items =>
      Some (flat_map (fun email =>
                        match email with
                        | VStr e => if Py.truthy e then [strip e] else []
                        | _ => []
                        end) items)
  | _ => None
  end.

(** The two ways out. *)
Inductive Transport : Type :=
| SendGrid
| Smtp.

(** A message handed to a transport. *)
Record Handed : Type := mkHanded {
  via : Transport;
  to_emails : list string;
  subject_line : string;
  html : string
}.

Section SendEmail.
Context {World : Type}.

(** The module constants, read from the configuration at import. *)
Variables EMAIL_FROM EMAIL_TO SENDGRID_API_KEY : Value.
Variables SMTP_HOST SMTP_USER SMTP_PASSWORD : Value.
Variable EMAIL_SUBJECT_PREFIX : string.

(** [target_date.strftime('%Y-%m-%d')] *)
Variable strftime : Z -> string.

(** [os.path.isdir(template_dir_path)], [os.path.isfile(template_path)] *)
Variables isdir isfile : World -> bool.

(** [env.get_template(TEMPLATE_NAME)] and [template.render(context)]: the
    HTML, or an exception. *)
Variable render :
  Z -> string -> list (string * string) -> bool -> World -> Outcome string.

(** [_send_with_sendgrid] and [_send_with_smtp], taken as they come: what
    they return or raise, and what they do to the world. *)
Variables _send_with_sendgrid _send_with_smtp :
  list string -> string -> string -> option string -> World ->
  Outcome bool * World.

Definition send_email (target_date : Z) (today_paper_url : string)
  (past_papers : list (string * string)) (thumbnail_path : option string)
  (dry_run : bool) (world : World) : Outcome bool * World * list Handed :=
  if negb (Config.truthy EMAIL_FROM) || negb (Config.truthy EMAIL_TO)
  then (Returned false, world, [])
  else
    match recipients_of EMAIL_TO with
    | None => (Returned false, world, [])
    | Some [] => (Returned false, world, [])
    | Some recipients =>
        let subject :=
          (EMAIL_SUBJECT_PREFIX ++ " - " ++ strftime target_date)%string in
        if negb (isdir world) then (Returned false, world, [])
        else if negb (isfile world) then (Returned false, world, [])
        else
          match render target_date today_paper_url past_papers
                  (match thumbnail_path with Some _ => true | None => false end)
                  world with
          | Thrown _ => (Returned false, world, [])
          | Returned html_content =>
              if dry_run then (Returned true, world, [])
              else if Config.truthy SENDGRID_API_KEY then
                let '(sent, world') :=
                  _send_with_sendgrid recipients subject html_content
                    thumbnail_path world in
                (sent, world',
                 [mkHanded SendGrid recipients subject html_content])
              else if Config.truthy SMTP_HOST && Config.truthy SMTP_USER
                      && Config.truthy SMTP_PASSWORD then
                let '(sent, world') :=
                  _send_with_smtp recipients subject html_content
                    thumbnail_path world in
                (sent, world',
                 [mkHanded Smtp recipients subject html_content])
              else (Returned false, world, [])
          end
    end.

End SendEmail.

(** An address [send_email] can use: not empty, free of commas, without
    white space at either end. *)
Fixpoint has_char (c : ascii) (s : string) : bool :=
  match s with
  | EmptyString => false
  | String c' rest => Ascii.eqb c' c || has_char c rest
  end.

Definition clean (recipient : string) : bool :=
  Py.truthy recipient && negb (has_char "," recipient)
  && String.eqb (strip recipient) recipient.

End Email.

(* ===================================================================== *)
(** ** Vocabulary of the further properties *)
(* ===================================================================== *)

(** What [cleanup_old_files] asks of the store, or logs in a dry run, for
    a file it purges. *)
Definition purge_request (dry_run : bool) (filename : string) : Event :=
  if dry_run then LogWouldDelete filename else DeleteObject filename.

(** [file_date < cutoff_date] for a file whose date parses. *)
Definition expired_name (strptime : string -> option Z) (cutoff_date : Z)
  (filename : string) : bool :=
  match file_date_of strptime filename with
  | Some file_date => file_date <? cutoff_date
  | None => false
  end.

(** The placeholder URL of a dry run. *)
Definition simulated_url (s3_key : string) : string :=
  ("http://example.com/presigned-url/" ++ s3_key ++ "?simulated=true")%string.

(** Most recent first, by date string. *)
Definition not_before (later earlier : string * string) : Prop :=
  String.leb (fst earlier) (fst later) = true.

(** Further buckets and clients. *)
Module Cases.

(** A store whose signing service is down. *)
Definition unsigning : Client MemStore.Bucket :=
  mkClient MemStore.Bucket (MemStore.list_page 4 MemStore.no_fault)
    (fun _ key _ =>
       if String.eqb key "2024-06-09_newspaper.html"
       then Thrown ClientError else MemStore.sign Scenario.week key 3600)
    MemStore.delete_one MemStore.delete_many.

(** A store that refuses to delete one file of the week bucket. *)
Definition stubborn : MemStore.Bucket :=
  MemStore.mkBucket (MemStore.objects Scenario.week) []
    [Some ClientError; None].

(** A store that answers a truncated first page without a token. *)
Definition tokenless : Client MemStore.Bucket :=
  mkClient MemStore.Bucket
    (fun st _ _ =>
       Returned (mkListResponse (Some (MemStore.objects st)) true None))
    MemStore.sign MemStore.delete_one MemStore.delete_many.

(** A store that answers an empty but truncated first page. *)
Definition hollow : Client MemStore.Bucket :=
  mkClient MemStore.Bucket
    (fun st _ _ => Returned (mkListResponse None true (Some "next"%string)))
    MemStore.sign MemStore.delete_one MemStore.delete_many.

(** An environment in which the first attempt to create a client fails
    and the later ones succeed: the environment counts the attempts. *)
Definition connect (attempts : nat)
  : Outcome (Client MemStore.Bucket) * nat :=
  match attempts with
  | O => (Thrown NoCredentialsError, 1%nat)
  | S _ => (Returned Scenario.paged, S attempts)
  end.

(** 2001 expired objects and a store whose second bulk delete fails with
    an error that is no [ClientError]. *)
Definition interrupted : MemStore.Bucket :=
  MemStore.mkBucket (Scenario.expired_objects 2001) []
    [None; Some OtherError].

(** A YAML document that sets the retention and nothing else. *)
Definition yaml_retention : list (string * Value) :=
  [("general", VDict [("retention_days", VInt 30)])]%string.

(** A world without side effects for [send_email]: the template is there
    and renders, both transports accept. *)
Definition rendered : Z -> string -> list (string * string) -> bool -> unit ->
                      Outcome string :=
  fun _ _ _ _ _ => Returned "<html></html>"%string.

Definition accepting : list string -> string -> string -> option string ->
                       unit -> Outcome bool * unit :=
  fun _ _ _ _ world => (Returned true, world).

Definition send_email (EMAIL_TO SENDGRID_API_KEY : Value) (dry_run : bool)
  : Outcome bool * unit * list Email.Handed :=
  Email.send_email (VStr "press@example.org") EMAIL_TO SENDGRID_API_KEY
    (VStr "relay.example.org") (VStr "press") (VStr "example")
    "Daily Newspaper" DefaultFormat.strftime
    (fun _ => true) (fun _ => true) rendered accepting accepting
    Scenario.target_date "https://example.org/today.pdf" [] None dry_run tt.

End Cases.

(* ===================================================================== *)
(** ** Facts about the Python primitives *)
(* ===================================================================== *)

Section SortFacts.
Context {A K : Type} (ltb : K -> K -> bool) (key : A -> K).

Lemma insert_desc_perm (x : A) (l : list A) :
  Permutation (x :: l) (Py.insert_desc ltb key x l).
Proof.
  induction l as [|y l IH]; simpl.
  - apply Permutation_refl.
  - destruct (ltb (key x) (key y)).
    + eapply perm_trans; [apply perm_swap|]. now apply perm_skip.
    + apply Permutation_refl.
Qed.

Lemma sort_desc_perm (l : list A) : Permutation l (Py.sort_desc ltb key l).
Proof.
  induction l as [|x l IH]; simpl.
  - constructor.
  - eapply perm_trans; [apply perm_skip, IH|]. apply insert_desc_perm.
Qed.

Lemma sort_desc_length (l : list A) :
  List.length (Py.sort_desc ltb key l) = List.length l.
Proof. symmetry. apply Permutation_length, sort_desc_perm. Qed.

Lemma sort_desc_In (x : A) (l : list A) :
  In x (Py.sort_desc ltb key l) <-> In x l.
Proof.
  split; intros H.
  - eapply Permutation_in; [apply Permutation_sym, sort_desc_perm|exact H].
  - eapply Permutation_in; [apply sort_desc_perm|exact H].
Qed.

End SortFacts.

Lemma slice_1000 {A : Type} (files : list A) (i : nat) :
  Py.slice files i (i + 1000) = firstn 1000 (skipn i files).
Proof. unfold Py.slice. f_equal. lia. Qed.

Lemma range_from_batches {A : Type} (files : list A) :
  forall fuel start,
    (List.length files - start <= fuel)%nat ->
    List.concat (map (fun i => Py.slice files i (i + 1000))
              (Py.range_from fuel start (List.length files) 1000))
    = skipn start files.
Proof.
  induction fuel as [|fuel IH]; intros start Hfuel; simpl.
  - symmetry. apply skipn_all2. lia.
  - destruct (Nat.ltb_spec start (List.length files)) as [Hlt|Hge].
    + simpl. rewrite IH by lia. rewrite slice_1000.
      transitivity (firstn 1000 (skipn start files)
                    ++ skipn 1000 (skipn start files));
        [|apply firstn_skipn].
      f_equal. rewrite skipn_skipn. f_equal. lia.
    + symmetry. apply skipn_all2. lia.
Qed.

Lemma batches_of_concat {A : Type} (files : list A) :
  List.concat (batches_of files) = files.
Proof.
  unfold batches_of, Py.range.
  rewrite range_from_batches by lia. reflexivity.
Qed.

Lemma batches_of_bounded {A : Type} (files : list A) :
  Forall (fun batch => (List.length batch <= 1000)%nat) (batches_of files).
Proof.
  unfold batches_of. apply Forall_forall. intros batch Hin.
  apply in_map_iff in Hin. destruct Hin as [i [<- _]].
  rewrite slice_1000. apply firstn_le_length.
Qed.

Lemma range_from_length :
  forall fuel start stop,
    (stop - start <= fuel)%nat ->
    List.length (Py.range_from fuel start stop 1000)
    = ((stop - start + 999) / 1000)%nat.
Proof.
  induction fuel as [|fuel IH]; intros start stop Hfuel;
    cbn [Py.range_from List.length].
  - replace (stop - start)%nat with 0%nat by lia. reflexivity.
  - destruct (Nat.ltb_spec start stop) as [Hlt|Hge]; cbn [List.length].
    + rewrite IH by lia.
      destruct (Nat.le_gt_cases (stop - start) 1000) as [Hs|Hs].
      * replace (stop - (start + 1000))%nat with 0%nat by lia.
        change ((0 + 999) / 1000)%nat with 0%nat.
        apply (Nat.div_unique _ _ 1%nat (stop - start - 1)%nat); lia.
      * replace (stop - start + 999)%nat
          with ((stop - (start + 1000) + 999) + 1 * 1000)%nat by lia.
        rewrite Nat.div_add by lia. lia.
    + replace (stop - start)%nat with 0%nat by lia. reflexivity.
Qed.

Lemma batches_of_length {A : Type} (files : list A) :
  List.length (batches_of files) = ((List.length files + 999) / 1000)%nat.
Proof.
  unfold batches_of, Py.range. rewrite length_map.
  rewrite range_from_length by lia. f_equal. lia.
Qed.

(* ===================================================================== *)
(** ** Listing: what the store serves and what the module returns *)
(* ===================================================================== *)

Lemma flat_map_map {A B C : Type} (f : B -> list C) (g : A -> B)
  (l : list A) :
  flat_map f (map g l) = flat_map (fun x => f (g x)) l.
Proof.
  induction l as [|x l IH]; cbn [map flat_map]; [|rewrite IH]; reflexivity.
Qed.

Section ListingFacts.
Context {Store : Type}.
Variable c : Client Store.

Ltac step_call :=
  unfold bind, call_list_objects_v2, subscript, ret, raise, abort.

Lemma paginate_reads (prefix : option string) :
  forall fuel token previous st,
    store_after (paginate fuel c prefix token previous st) = st
    /\ forallb is_listing (events (paginate fuel c prefix token previous st))
       = true.
Proof.
  induction fuel as [|fuel IH]; intros token previous st.
  - split; reflexivity.
  - cbn [paginate]. step_call.
    destruct (list_objects_v2 c st prefix token) as [page|e];
      [|split; reflexivity].
    destruct (IsTruncated page); cbn [negb]; [|split; reflexivity].
    destruct (NextContinuationToken page) as [next|]; [|split; reflexivity].
    destruct (String.eqb next EmptyString); [split; reflexivity|].
    destruct (match previous with Some p => String.eqb p next | None => false end);
      [split; reflexivity|].
    destruct (IH (Some next) (Some next) st) as [Hst Hev].
    destruct (paginate fuel c prefix (Some next) (Some next) st)
      as [[r st'] evs].
    unfold store_after, events in *. cbn [fst snd] in *.
    destruct r; cbn [fst snd app forallb is_listing andb];
      rewrite ?app_nil_r; split; assumption.
Qed.

Lemma paginate_serves (prefix : option string) (st : Store) :
  forall served token ending fuel,
    serves c st prefix token served ending ->
    (match ending with
     | Complete => List.length served
     | Fails _ _ => S (List.length served)
     end <= fuel)%nat ->
    paginate fuel c prefix token token st
    = (match ending with
       | Complete => Val (map snd served)
       | Fails _ e => Raise e
       end, st, requests_of prefix served ending).
Proof.
  intros served token ending fuel Hs. revert fuel.
  induction Hs as [token response Hcall Htr
                  |token e Hcall
                  |token response next rest ending Hcall Htr Hnext Hne Hfresh Hs IH];
    intros fuel Hfuel.
  - destruct fuel as [|fuel]; [cbn in Hfuel; lia|].
    cbn [paginate]. step_call. rewrite Hcall, Htr. reflexivity.
  - destruct fuel as [|fuel]; [lia|].
    cbn [paginate]. step_call. rewrite Hcall. reflexivity.
  - destruct fuel as [|fuel]; [destruct ending; cbn in Hfuel; lia|].
    cbn [paginate]. step_call. rewrite Hcall, Htr, Hnext. cbn [negb].
    destruct (String.eqb_spec next EmptyString) as [Heq|_]; [contradiction|].
    assert (Hprev : match token with
                    | Some p => String.eqb p next
                    | None => false
                    end = false).
    { destruct token as [p|]; [|reflexivity].
      destruct (String.eqb_spec p next); [subst; contradiction|reflexivity]. }
    rewrite Hprev.
    rewrite IH by (destruct ending; cbn in Hfuel |- *; lia).
    destruct ending; cbn [app]; rewrite ?app_nil_r; reflexivity.
Qed.

Lemma serves_nil_inv (st : Store) (prefix token : option string)
  (ending : Ending) :
  serves c st prefix token [] ending ->
  exists e, ending = Fails token e
            /\ list_objects_v2 c st prefix token = Thrown e.
Proof. intros H. inversion H; subst. eauto. Qed.

Lemma serves_cons_inv (st : Store) (prefix token t : option string)
  (r : ListResponse) (rest : list (option string * ListResponse))
  (ending : Ending) :
  serves c st prefix token ((t, r) :: rest) ending ->
  t = token
  /\ list_objects_v2 c st prefix token = Returned r
  /\ ((IsTruncated r = false /\ rest = [] /\ ending = Complete)
      \/ (IsTruncated r = true
          /\ exists next,
               NextContinuationToken r = Some next
               /\ serves c st prefix (Some next) rest ending)).
Proof.
  intros H. inversion H; subst; repeat split; eauto.
Qed.

Lemma loop_reads :
  forall fuel response files st,
    store_after (list_storage_files_loop fuel c response files st) = st
    /\ forallb is_listing
         (events (list_storage_files_loop fuel c response files st)) = true.
Proof.
  induction fuel as [|fuel IH]; intros response files st;
    (destruct (IsTruncated response) eqn:Htr;
     [|cbn; rewrite Htr; split; reflexivity]).
  - cbn. rewrite Htr. split; reflexivity.
  - cbn [list_storage_files_loop]. rewrite Htr. step_call.
    destruct (NextContinuationToken response) as [token|];
      [|split; reflexivity].
    destruct (list_objects_v2 c st None (Some token)) as [response'|e];
      [|split; reflexivity].
    destruct (Contents response') as [contents|]; [|split; reflexivity].
    destruct (IH response' (files ++ map Key contents) st) as [Hst Hev].
    destruct (list_storage_files_loop fuel c response'
                (files ++ map Key contents) st) as [[r st'] evs].
    unfold store_after, events in *. cbn [fst snd] in *.
    destruct r; cbn [fst snd app forallb is_listing andb];
      rewrite ?app_nil_r; split; assumption.
Qed.

Lemma loop_serves (st : Store) :
  forall rest token response ending fuel files,
    serves c st None token ((token, response) :: rest) ending ->
    Forall has_contents rest ->
    (S (List.length rest) <= fuel)%nat ->
    list_storage_files_loop fuel c response files st
    = (match ending with
       | Complete => Val (files ++ map Key (objects_of rest))
       | Fails _ e => Raise e
       end, st, requests_of None rest ending).
Proof.
  induction rest as [|[t' r'] rest IH];
    intros token response ending fuel files Hs Hc Hfuel;
    apply serves_cons_inv in Hs;
    destruct Hs as [_ [_ [[Htr [Hrest Hend]]|[Htr [next [Hnext Hs]]]]]];
    try discriminate;
    (destruct fuel as [|fuel]; [cbn in Hfuel; lia|]).
  - subst. cbn [list_storage_files_loop]. rewrite Htr.
    unfold ret. cbn. rewrite app_nil_r. reflexivity.
  - apply serves_nil_inv in Hs. destruct Hs as [e [-> Hcall]].
    cbn [list_storage_files_loop]. rewrite Htr, Hnext. step_call.
    rewrite Hcall. reflexivity.
  - pose proof (serves_cons_inv _ _ _ _ _ _ _ Hs) as [-> [Hcall _]].
    inversion Hc as [|p l Hp Hl]; subst.
    unfold has_contents in Hp. cbn [snd] in Hp.
    destruct (Contents r') as [contents|] eqn:Hcont; [|contradiction].
    cbn [list_storage_files_loop]. rewrite Htr, Hnext. step_call.
    rewrite Hcall, Hcont.
    rewrite (IH (Some next) r' ending fuel (files ++ map Key contents))
      by (try assumption; cbn in Hfuel; lia).
    unfold objects_of, requests_of. cbn [flat_map map fst snd app].
    unfold page_contents. rewrite Hcont.
    rewrite map_app, app_assoc. destruct ending; reflexivity.
Qed.

Lemma list_storage_files_reads_some :
  forall fuel st,
    store_after (list_storage_files (Some c) fuel st) = st
    /\ forallb is_listing (events (list_storage_files (Some c) fuel st)) = true
    /\ forall e, result (list_storage_files (Some c) fuel st) <> Raise e.
Proof.
  intros fuel st. unfold list_storage_files.
  unfold try_except, bind, call_list_objects_v2, ret.
  destruct (list_objects_v2 c st None None) as [response|e];
    [|repeat split; discriminate].
  destruct (Contents response) as [contents|]; [|repeat split; discriminate].
  destruct (loop_reads fuel response (map Key contents) st) as [Hst Hev].
  destruct (list_storage_files_loop fuel c response (map Key contents) st)
    as [[r st'] evs].
  unfold store_after, events, result in *. cbn [fst snd] in *.
  destruct r; cbn [fst snd app forallb is_listing andb];
    rewrite ?app_nil_r; repeat split; try assumption; discriminate.
Qed.

(** [list_storage_files] against a store that serves its pages. *)
Lemma list_storage_files_serves (st : Store) :
  forall served ending fuel,
    serves c st None None served ending ->
    Forall has_contents served ->
    (List.length served <= fuel)%nat ->
    list_storage_files (Some c) fuel st
    = (Val (match ending with
            | Complete => Some (map Key (objects_of served))
            | Fails _ _ => None
            end), st, requests_of None served ending).
Proof.
  intros served ending fuel Hs Hc Hfuel. unfold list_storage_files.
  destruct served as [|[t r] rest].
  - apply serves_nil_inv in Hs. destruct Hs as [e [-> Hcall]].
    unfold try_except, bind, call_list_objects_v2, ret. rewrite Hcall.
    reflexivity.
  - pose proof (serves_cons_inv _ _ _ _ _ _ _ Hs) as [-> [Hcall _]].
    inversion Hc as [|p l Hp Hl]; subst.
    unfold has_contents in Hp. cbn [snd] in Hp.
    destruct (Contents r) as [contents|] eqn:Hcont; [|contradiction].
    unfold try_except, bind, call_list_objects_v2, ret.
    rewrite Hcall, Hcont.
    rewrite (loop_serves st rest None r ending fuel (map Key contents))
      by (try assumption; cbn in Hfuel; lia).
    unfold objects_of, requests_of. cbn [flat_map map fst snd app].
    unfold page_contents. rewrite Hcont, map_app.
    destruct ending; cbn [app]; rewrite ?app_nil_r; reflexivity.
Qed.

(** [list_archive_files] against a store that serves its pages. *)
Lemma list_archive_files_serves (now : Z) (prefix : string) (st : Store) :
  forall served ending fuel,
    serves c st (Some prefix) None served ending ->
    (S (List.length served) <= fuel)%nat ->
    list_archive_files (Some c) now fuel prefix false st
    = (Val (match ending with
            | Complete => objects_of served
            | Fails _ _ => []
            end), st, requests_of (Some prefix) served ending).
Proof.
  intros served ending fuel Hs Hfuel. unfold list_archive_files.
  unfold try_except, bind, ret.
  rewrite (paginate_serves (Some prefix) st served None ending fuel Hs)
    by (destruct ending; lia).
  unfold objects_of.
  destruct ending; cbn [app]; rewrite ?flat_map_map, ?app_nil_r; reflexivity.
Qed.

Lemma explore_serves (prefix : option string) (st : Store) :
  forall fuel token served ending,
    explore fuel c st prefix token = Some (served, ending) ->
    serves c st prefix token served ending.
Proof.
  induction fuel as [|fuel IH]; intros token served ending H;
    cbn [explore] in H; [discriminate|].
  destruct (list_objects_v2 c st prefix token) as [response|e] eqn:Hcall.
  - destruct (IsTruncated response) eqn:Htr.
    + destruct (NextContinuationToken response) as [next|] eqn:Hnext;
        [|discriminate].
      destruct (String.eqb_spec next EmptyString) as [|Hne];
        [discriminate|].
      cbn [orb] in H. destruct (token_eqb token next) eqn:Hfresh;
        [discriminate|].
      destruct (explore fuel c st prefix (Some next)) as [[rest en]|] eqn:Hrest;
        [|discriminate].
      inversion H; subst. eapply serves_more; eauto.
      intros ->. cbn in Hfresh. rewrite String.eqb_refl in Hfresh.
      discriminate.
    + inversion H; subst. apply serves_last; assumption.
  - inversion H; subst. apply serves_fails. assumption.
Qed.

End ListingFacts.

Lemma list_storage_files_reads {Store : Type}
  (client : option (Client Store)) (fuel : nat) (st : Store) :
  store_after (list_storage_files client fuel st) = st
  /\ forallb is_listing (events (list_storage_files client fuel st)) = true
  /\ forall e, result (list_storage_files client fuel st) <> Raise e.
Proof.
  destruct client as [c|].
  - apply list_storage_files_reads_some.
  - repeat split; discriminate.
Qed.

(* ===================================================================== *)
(** ** Bulk deletion: what the store answers and what the module returns *)
(* ===================================================================== *)

Lemma marked_expired (cutoff_date : Z)
  (served : list (option string * ListResponse)) :
  flat_map (marked_for_deletion cutoff_date) (map snd served)
  = expired_keys cutoff_date (objects_of served).
Proof.
  unfold expired_keys, objects_of.
  induction served as [|p served IH]; cbn [map flat_map]; [reflexivity|].
  rewrite IH, filter_app, map_app. reflexivity.
Qed.

Lemma would_delete_run {Store : Type} (files : list string) (st : Store) :
  fold_right (fun key m => bind (emit (LogWouldDelete key)) (fun _ => m))
    (ret tt) files st
  = (Val tt, st, map LogWouldDelete files).
Proof.
  induction files as [|key files IH]; cbn [fold_right map]; [reflexivity|].
  unfold bind at 1. unfold emit at 1. rewrite IH. reflexivity.
Qed.

Section DeleteFacts.
Context {Store : Type}.
Variable c : Client Store.

Lemma delete_batches_answers (files : list string) :
  forall starts deleted_count st responses st',
    answers c st (map (fun i => Py.slice files i (i + 1000)) starts)
      responses st' ->
    delete_batches c files starts deleted_count st
    = (Val (deleted_count + total_deleted responses)%nat, st',
       map DeleteObjects (map (fun i => Py.slice files i (i + 1000)) starts)).
Proof.
  induction starts as [|i starts IH]; intros n st responses st' Ha;
    cbn [map] in Ha; inversion Ha; subst.
  - cbn. rewrite Nat.add_0_r. reflexivity.
  - cbn [delete_batches map]. unfold call_delete_objects.
    match goal with H : delete_objects _ _ _ = _ |- _ => rewrite H end.
    erewrite IH by eassumption.
    unfold total_deleted, list_sum. cbn [map fold_right app].
    rewrite Nat.add_assoc. reflexivity.
Qed.

Lemma delete_batches_stops (files : list string) :
  forall before i after deleted_count st responses st1 st2 e,
    answers c st (map (fun i => Py.slice files i (i + 1000)) before)
      responses st1 ->
    delete_objects c st1 (Py.slice files i (i + 1000)) = (Thrown e, st2) ->
    delete_batches c files (before ++ i :: after) deleted_count st
    = (if is_ClientError e
       then Val (deleted_count + total_deleted responses)%nat
       else Raise e,
       st2,
       map DeleteObjects
         (map (fun i => Py.slice files i (i + 1000)) (before ++ [i]))).
Proof.
  induction before as [|j before IH];
    intros i after n st responses st1 st2 e Ha Hthrow;
    cbn [map] in Ha; inversion Ha; subst.
  - cbn [app delete_batches map]. unfold call_delete_objects.
    rewrite Hthrow. unfold total_deleted, list_sum. cbn [map fold_right].
    rewrite Nat.add_0_r. destruct (is_ClientError e); reflexivity.
  - cbn [app delete_batches map]. unfold call_delete_objects.
    match goal with H : delete_objects _ _ _ = _ |- _ => rewrite H end.
    erewrite IH by eassumption.
    unfold total_deleted, list_sum. cbn [map fold_right app].
    rewrite Nat.add_assoc. reflexivity.
Qed.

Lemma respond_answers :
  forall batches st responses st',
    respond c st batches = Some (responses, st') ->
    answers c st batches responses st'.
Proof.
  induction batches as [|batch batches IH]; intros st responses st' H;
    cbn [respond] in H.
  - inversion H; subst. constructor.
  - destruct (delete_objects c st batch) as [[response|e] st1] eqn:Hcall;
      [|discriminate].
    destruct (respond c st1 batches) as [[rs st2]|] eqn:Hrest; [|discriminate].
    inversion H; subst. econstructor; eauto.
Qed.

Lemma answers_app :
  forall before st responses st1 after responses' st2,
    answers c st before responses st1 ->
    answers c st1 after responses' st2 ->
    answers c st (before ++ after) (responses ++ responses') st2.
Proof.
  induction before as [|batch before IH];
    intros st responses st1 after responses' st2 H1 H2;
    inversion H1; subst; cbn [app]; [exact H2|].
  econstructor; eauto.
Qed.

Lemma batches_split (files : list string)
  (before after : list (list string)) (batch : list string) :
  batches_of files = before ++ batch :: after ->
  exists starts_before i starts_after,
    Py.range 0 (List.length files) 1000
    = starts_before ++ i :: starts_after
    /\ map (fun i => Py.slice files i (i + 1000)) starts_before = before
    /\ Py.slice files i (i + 1000) = batch.
Proof.
  unfold batches_of. intros H.
  apply map_eq_app in H. destruct H as [l1 [l2 [Hl [H1 H2]]]].
  apply map_eq_cons in H2. destruct H2 as [i [l3 [-> [Hi _]]]].
  exists l1, i, l3. auto.
Qed.

Variable now : Z.
Variable fuel : nat.
Variable retention_days : Z.
Variable prefix : string.
Variable st : Store.
Variable cutoff_date : Z.
Variable served : list (option string * ListResponse).

Hypothesis cutoff_ok : Py.datetime_sub now retention_days = Some cutoff_date.

(** A dry run over a complete listing. *)
Lemma delete_old_files_dry_run :
  serves c st (Some prefix) None served Complete ->
  (List.length served <= fuel)%nat ->
  delete_old_files (Some c) now fuel retention_days prefix true st
  = (Val (List.length (expired_keys cutoff_date (objects_of served))), st,
     requests_of (Some prefix) served Complete
     ++ map LogWouldDelete (expired_keys cutoff_date (objects_of served))).
Proof using cutoff_ok.
  intros Hs Hfuel. unfold delete_old_files.
  rewrite cutoff_ok. unfold checked.
  unfold bind at 1. unfold ret at 1. cbn [app].
  unfold try_except. unfold bind at 1.
  rewrite (paginate_serves c (Some prefix) st served None Complete fuel Hs Hfuel).
  rewrite marked_expired.
  destruct (expired_keys cutoff_date (objects_of served)) as [|key keys].
  - reflexivity.
  - unfold bind at 1. rewrite would_delete_run. unfold ret.
    cbn [app]. rewrite !app_nil_r. reflexivity.
Qed.

(** Any run over a listing that fails. *)
Lemma delete_old_files_listing_fails (dry_run : bool) (token : option string)
  (e : Exception) :
  serves c st (Some prefix) None served (Fails token e) ->
  (S (List.length served) <= fuel)%nat ->
  delete_old_files (Some c) now fuel retention_days prefix dry_run st
  = (Val 0%nat, st, requests_of (Some prefix) served (Fails token e)).
Proof using cutoff_ok.
  intros Hs Hfuel. unfold delete_old_files.
  rewrite cutoff_ok. unfold checked.
  unfold bind at 1. unfold ret at 1. cbn [app].
  unfold try_except. unfold bind at 1.
  rewrite (paginate_serves c (Some prefix) st served None _ fuel Hs Hfuel).
  unfold ret. rewrite app_nil_r. reflexivity.
Qed.

(** A run over a complete listing with nothing expired. *)
Lemma delete_old_files_nothing_expired (dry_run : bool) :
  serves c st (Some prefix) None served Complete ->
  (List.length served <= fuel)%nat ->
  expired_keys cutoff_date (objects_of served) = [] ->
  delete_old_files (Some c) now fuel retention_days prefix dry_run st
  = (Val 0%nat, st, requests_of (Some prefix) served Complete).
Proof using cutoff_ok.
  intros Hs Hfuel Hnone. unfold delete_old_files.
  rewrite cutoff_ok. unfold checked.
  unfold bind at 1. unfold ret at 1. cbn [app].
  unfold try_except. unfold bind at 1.
  rewrite (paginate_serves c (Some prefix) st served None Complete fuel Hs Hfuel).
  rewrite marked_expired, Hnone. unfold ret. rewrite app_nil_r. reflexivity.
Qed.

(** A real run in which the store answers every bulk-delete request. *)
Lemma delete_old_files_real_answers (responses : list DeleteResponse)
  (st' : Store) :
  serves c st (Some prefix) None served Complete ->
  (List.length served <= fuel)%nat ->
  answers c st (batches_of (expired_keys cutoff_date (objects_of served)))
    responses st' ->
  delete_old_files (Some c) now fuel retention_days prefix false st
  = (Val (total_deleted responses), st',
     requests_of (Some prefix) served Complete
     ++ map DeleteObjects
          (batches_of (expired_keys cutoff_date (objects_of served)))).
Proof using cutoff_ok.
  intros Hs Hfuel Ha. unfold delete_old_files.
  rewrite cutoff_ok. unfold checked.
  unfold bind at 1. unfold ret at 1. cbn [app].
  unfold try_except. unfold bind at 1.
  rewrite (paginate_serves c (Some prefix) st served None Complete fuel Hs Hfuel).
  rewrite marked_expired.
  destruct (expired_keys cutoff_date (objects_of served)) as [|key keys] eqn:Hk.
  - inversion Ha; subst. unfold ret. reflexivity.
  - rewrite (delete_batches_answers (key :: keys) _ 0%nat st responses st' Ha).
    reflexivity.
Qed.

(** A real run in which one bulk-delete request raises. *)
Lemma delete_old_files_real_stops (before after : list (list string))
  (batch : list string) (responses : list DeleteResponse)
  (st1 st2 : Store) (e : Exception) :
  serves c st (Some prefix) None served Complete ->
  (List.length served <= fuel)%nat ->
  batches_of (expired_keys cutoff_date (objects_of served))
  = before ++ batch :: after ->
  answers c st before responses st1 ->
  delete_objects c st1 batch = (Thrown e, st2) ->
  delete_old_files (Some c) now fuel retention_days prefix false st
  = (Val (if is_ClientError e then total_deleted responses else 0%nat), st2,
     requests_of (Some prefix) served Complete
     ++ map DeleteObjects (before ++ [batch])).
Proof using cutoff_ok.
  intros Hs Hfuel Hsplit Ha Hthrow. unfold delete_old_files.
  rewrite cutoff_ok. unfold checked.
  unfold bind at 1. unfold ret at 1. cbn [app].
  unfold try_except. unfold bind at 1.
  rewrite (paginate_serves c (Some prefix) st served None Complete fuel Hs Hfuel).
  rewrite marked_expired.
  destruct (batches_split _ _ _ _ Hsplit) as [sb [i [sa [Hr [Hb Hi]]]]].
  destruct (expired_keys cutoff_date (objects_of served)) as [|key keys] eqn:Hk.
  - destruct before; discriminate.
  - rewrite Hr. subst before batch.
    rewrite (delete_batches_stops (key :: keys) sb i sa 0%nat st responses
               st1 st2 e Ha Hthrow).
    rewrite map_app. cbn [map].
    destruct (is_ClientError e); unfold ret; cbn [app];
      rewrite ?app_nil_r; reflexivity.
Qed.

End DeleteFacts.

(* ===================================================================== *)
(** ** The loops of main.py *)
(* ===================================================================== *)

Lemma try_except_bind_val {Store A B : Type} (m : M Store A)
  (k : A -> M Store B) (h : Exception -> M Store B) (st st1 : Store)
  (a : A) (evs1 : list Event) :
  m st = (Val a, st1, evs1) ->
  try_except (bind m k) h st
  = (result (try_except (k a) h st1),
     store_after (try_except (k a) h st1),
     evs1 ++ events (try_except (k a) h st1)).
Proof.
  intros Hm. unfold try_except, bind, result, store_after, events.
  rewrite Hm. destruct (k a st1) as [[r st2] evs2].
  destruct r; cbn [fst snd]; try reflexivity.
  destruct (h e st2) as [[r3 st3] evs3]. cbn [fst snd].
  rewrite app_assoc. reflexivity.
Qed.

Lemma try_except_bind_abort {Store A B : Type} (m : M Store A)
  (k : A -> M Store B) (h : Exception -> M Store B) (st st1 : Store)
  (evs1 : list Event) :
  m st = (Abort, st1, evs1) ->
  try_except (bind m k) h st = (Abort, st1, evs1).
Proof.
  intros Hm. unfold try_except, bind. rewrite Hm. reflexivity.
Qed.

Section MainFacts.
Context {Store : Type}.
Variable client : option (Client Store).
Variable strftime : Z -> string.


Lemma add_link_run (cutoff_date target_date file_date : Z) (filename : string)
  (links : list (string * string)) (st : Store) :
  add_link client strftime cutoff_date target_date file_date filename links st
  = (Val (if in_window cutoff_date target_date file_date
          then links ++ link_for client strftime st (file_date, filename)
          else links),
     st,
     if in_window cutoff_date target_date file_date
     then url_requests client filename else []).
Proof.
  unfold add_link, link_for, url_of, url_requests.
  destruct (in_window cutoff_date target_date file_date); [|reflexivity].
  unfold get_file_url, generate_presigned_url. cbn [snd fst].
  destruct client as [c|].
  - unfold try_except, bind, call_generate_presigned_url, ret.
    destruct (S3.generate_presigned_url c st filename 3600) as [u|e].
    + destruct (Py.truthy u); cbn [app]; rewrite ?app_nil_r; reflexivity.
    + cbn [app]. rewrite ?app_nil_r. reflexivity.
  - unfold try_except, bind, ret. cbn [app]. rewrite app_nil_r. reflexivity.
Qed.

Lemma link_for_length (st : Store) (dated : Z * string) :
  (List.length (link_for client strftime st dated) <= 1)%nat.
Proof. unfold link_for. destruct (url_of client st (snd dated)); cbn; lia. Qed.

(** The second loop always returns, leaves the store alone, never holds
    more than [days] links unless it started with more, only asks for URLs
    of files in the window, and only adds links of such files. *)
Lemma gather_links_run (days cutoff_date target_date : Z) (st : Store) :
  forall dated_files links,
  exists links' evs,
    gather_links client strftime days cutoff_date target_date dated_files links st
    = (Val links', st, evs)
    /\ (Z.of_nat (List.length links) < days ->
        Z.of_nat (List.length links') <= days)
    /\ (forall ev, In ev evs ->
          exists p, In p (windowed cutoff_date target_date dated_files)
                    /\ ev = GeneratePresignedUrl (snd p) 3600)
    /\ (forall link, In link links' ->
          In link links
          \/ exists p, In p (windowed cutoff_date target_date dated_files)
                       /\ In link (link_for client strftime st p)).
Proof.
  induction dated_files as [|[file_date filename] rest IH]; intros links.
  - exists links, []. cbn. repeat split; try lia; tauto.
  - cbn [gather_links]. unfold bind at 1. rewrite add_link_run.
    unfold windowed. cbn [filter fst].
    set (links1 := if in_window cutoff_date target_date file_date
                   then links ++ link_for client strftime st (file_date, filename) else links).
    set (evs1 := if in_window cutoff_date target_date file_date
                 then url_requests client filename else []).
    assert (Hlen : (List.length links1 <= S (List.length links))%nat).
    { unfold links1. destruct (in_window _ _ _); [|lia].
      rewrite length_app.
      pose proof (link_for_length st (file_date, filename)). lia. }
    assert (Hevs : forall ev, In ev evs1 ->
              in_window cutoff_date target_date file_date = true
              /\ ev = GeneratePresignedUrl filename 3600).
    { unfold evs1, url_requests. intros ev Hin.
      destruct (in_window _ _ _); [|destruct Hin].
      destruct client; [|destruct Hin].
      destruct Hin as [<-|[]]. split; reflexivity. }
    assert (Hlinks : forall link, In link links1 ->
              In link links
              \/ (in_window cutoff_date target_date file_date = true
                  /\ In link (link_for client strftime st (file_date, filename)))).
    { unfold links1. intros link Hin.
      destruct (in_window _ _ _); [|left; exact Hin].
      apply in_app_or in Hin. destruct Hin; [left|right]; auto. }
    destruct (Z.leb_spec days (Z.of_nat (List.length links1))) as [Hstop|Hgo].
    + exists links1, (evs1 ++ []). unfold ret. repeat split.
      * lia.
      * intros ev Hin. rewrite app_nil_r in Hin.
        destruct (Hevs ev Hin) as [Hw ->]. rewrite Hw.
        exists (file_date, filename). split; [left|]; reflexivity.
      * intros link Hin. destruct (Hlinks link Hin) as [H|[Hw H]];
          [left; exact H|right].
        rewrite Hw. exists (file_date, filename). split; [left; reflexivity|exact H].
    + destruct (IH links1) as [links' [evs [Hrun [Hcap [Hsel Hprov]]]]].
      exists links', (evs1 ++ evs). rewrite Hrun. repeat split.
      * lia.
      * intros ev Hin. apply in_app_or in Hin. destruct Hin as [Hin|Hin].
        -- destruct (Hevs ev Hin) as [Hw ->]. rewrite Hw.
           exists (file_date, filename). split; [left|]; reflexivity.
        -- destruct (Hsel ev Hin) as [p [Hp ->]]. exists p. split; [|reflexivity].
           destruct (in_window cutoff_date target_date file_date);
             [right|]; exact Hp.
      * intros link Hin. destruct (Hprov link Hin) as [H|[p [Hp H]]].
        -- destruct (Hlinks link H) as [H'|[Hw H']]; [left; exact H'|right].
           rewrite Hw. exists (file_date, filename).
           split; [left; reflexivity|exact H'].
        -- right. exists p. split; [|exact H].
           destruct (in_window cutoff_date target_date file_date);
             [right|]; exact Hp.
Qed.

(** When the window holds no more files than the cap leaves room for, the
    loop visits every file of the window. *)
Lemma gather_links_under_cap (days cutoff_date target_date : Z) (st : Store) :
  forall dated_files links,
    Z.of_nat (List.length links)
    + Z.of_nat (List.length (windowed cutoff_date target_date dated_files))
    <= days ->
    gather_links client strftime days cutoff_date target_date dated_files links st
    = (Val (links
            ++ flat_map (link_for client strftime st)
                 (windowed cutoff_date target_date dated_files)),
       st,
       flat_map (fun p => url_requests client (snd p))
         (windowed cutoff_date target_date dated_files)).
Proof.
  induction dated_files as [|[file_date filename] rest IH]; intros links Hcap.
  - cbn. rewrite app_nil_r. reflexivity.
  - cbn [gather_links]. unfold bind at 1. rewrite add_link_run.
    unfold windowed in *. cbn [filter fst] in *.
    pose proof (link_for_length st (file_date, filename)) as Hone.
    destruct (in_window cutoff_date target_date file_date) eqn:Hw;
      cbn [List.length flat_map snd] in *.
    + destruct (Z.leb_spec days
                  (Z.of_nat (List.length
                               (links ++ link_for client strftime st (file_date, filename)))))
        as [Hstop|Hgo].
      * rewrite length_app in Hstop.
        destruct (filter (fun p => in_window cutoff_date target_date (fst p)) rest);
          [|cbn [List.length] in Hcap; lia].
        unfold ret. cbn [flat_map]. rewrite !app_nil_r. reflexivity.
      * rewrite IH by (rewrite length_app; lia).
        rewrite <- app_assoc. reflexivity.
    + destruct (Z.leb_spec days (Z.of_nat (List.length links))) as [Hstop|Hgo].
      * destruct (filter (fun p => in_window cutoff_date target_date (fst p)) rest);
          [|cbn [List.length] in Hcap; lia].
        unfold ret. cbn [flat_map]. rewrite !app_nil_r. reflexivity.
      * rewrite IH by lia. reflexivity.
Qed.

(** When every URL asked for is usable, each request yields one link. *)
Lemma gather_links_counts (days cutoff_date target_date : Z) (st : Store) :
  forall dated_files links links' st' evs,
    gather_links client strftime days cutoff_date target_date dated_files
      links st = (Val links', st', evs) ->
    (forall key expires_in,
       In (GeneratePresignedUrl key expires_in) evs ->
       url_of client st key <> None) ->
    List.length links' = (List.length links + List.length evs)%nat.
Proof.
  induction dated_files as [|[file_date filename] rest IH];
    intros links links' st' evs Hrun Hok.
  - cbn in Hrun. inversion Hrun; subst. cbn. lia.
  - cbn [gather_links] in Hrun. unfold bind at 1 in Hrun.
    rewrite add_link_run in Hrun.
    set (links1 := if in_window cutoff_date target_date file_date
                   then links ++ link_for client strftime st (file_date, filename)
                   else links) in *.
    set (evs1 := if in_window cutoff_date target_date file_date
                 then url_requests client filename else []) in *.
    assert (Hone : forall evs2,
              (forall key expires_in,
                 In (GeneratePresignedUrl key expires_in) (evs1 ++ evs2) ->
                 url_of client st key <> None) ->
              List.length links1
              = (List.length links + List.length evs1)%nat).
    { intros evs2 H. unfold links1, evs1 in *.
      destruct (in_window cutoff_date target_date file_date); [|cbn; lia].
      rewrite length_app. f_equal. unfold link_for, url_requests in *.
      cbn [snd fst] in *. destruct client as [c|] eqn:Hc.
      - specialize (H filename 3600 (or_introl eq_refl)).
        destruct (url_of (Some c) st filename); [reflexivity|contradiction].
      - reflexivity. }
    destruct (days <=? Z.of_nat (List.length links1)).
    + unfold ret in Hrun. inversion Hrun; subst.
      rewrite length_app. cbn [List.length]. rewrite (Hone [] Hok). lia.
    + destruct (gather_links client strftime days cutoff_date target_date
                  rest links1 st) as [[r st2] evs2] eqn:Hrest.
      inversion Hrun; subst.
      rewrite (IH links1 links' st' evs2 Hrest)
        by (intros key ex Hin; apply (Hok key ex), in_or_app; right; exact Hin).
      rewrite length_app, (Hone evs2 Hok). lia.
Qed.

End MainFacts.

Lemma filter_perm {A : Type} (f : A -> bool) (l l' : list A) :
  Permutation l l' -> Permutation (filter f l) (filter f l').
Proof.
  induction 1 as [|x l l' _ IH|x y l|l l' l'' _ IH1 _ IH2]; cbn [filter].
  - constructor.
  - destruct (f x); [apply perm_skip|]; exact IH.
  - destruct (f x), (f y); try apply Permutation_refl. apply perm_swap.
  - eapply perm_trans; eassumption.
Qed.

Section MainRuns.
Context {Store : Type}.
Variable client : option (Client Store).
Variable strptime : string -> option Z.

Lemma collect_dated_files_In (file_date : Z) (filename : string) :
  forall all_files,
    In (file_date, filename) (collect_dated_files strptime all_files)
    <-> In filename all_files
        /\ file_date_of strptime filename = Some file_date
        /\ is_newspaper filename = true.
Proof.
  induction all_files as [|f rest IH]; cbn [collect_dated_files In].
  - tauto.
  - destruct (file_date_of strptime f) as [d|] eqn:Hd.
    + destruct (is_newspaper f) eqn:Hn; cbn [In]; rewrite IH; split.
      * intros [Heq|H]; [inversion Heq; subst; auto|tauto].
      * intros [[->|H] [Hp Hnews]]; [left|right; auto].
        rewrite Hd in Hp. inversion Hp. reflexivity.
      * tauto.
      * intros [[->|H] [Hp Hnews]]; [congruence|auto].
    + rewrite IH. split; [tauto|].
      intros [[->|H] [Hp Hnews]]; [congruence|auto].
Qed.

Lemma collect_dated_files_skip (filename : string) :
  file_date_of strptime filename = None ->
  forall before after,
    collect_dated_files strptime (before ++ filename :: after)
    = collect_dated_files strptime (before ++ after).
Proof.
  intros Hnone. induction before as [|f before IH]; intros after;
    cbn [app collect_dated_files].
  - rewrite Hnone. reflexivity.
  - rewrite IH. reflexivity.
Qed.

Lemma delete_from_storage_run (filename : string) (dry_run : bool)
  (st : Store) :
  exists deleted st' evs,
    delete_from_storage client filename dry_run st = (Val deleted, st', evs)
    /\ (dry_run = true -> st' = st)
    /\ (forall ev, In ev evs ->
          ev = if dry_run then LogWouldDelete filename
               else DeleteObject filename)
    /\ (client <> None ->
        In (if dry_run then LogWouldDelete filename
            else DeleteObject filename) evs).
Proof.
  unfold delete_from_storage. destruct client as [c|].
  - destruct dry_run.
    + exists true, st, [LogWouldDelete filename]. cbn.
      repeat split; auto. intros ev [<-|[]]. reflexivity.
    + unfold try_except, bind, call_delete_object, ret.
      destruct (delete_object c st filename) as [[u|e] st'].
      * exists true, st', [DeleteObject filename]. cbn.
        repeat split; auto; try discriminate. intros ev [<-|[]]. reflexivity.
      * exists false, st', [DeleteObject filename]. cbn.
        repeat split; auto; try discriminate. intros ev [<-|[]]. reflexivity.
  - exists false, st, []. cbn. repeat split; auto; intros; contradiction.
Qed.

(** The loop of [cleanup_old_files] always returns; it asks for the
    deletion of exactly the files dated before the cutoff, and in a dry
    run leaves the store as it was. *)
Lemma cleanup_loop_run (cutoff_date : Z) (dry_run : bool) :
  forall all_files deleted_count st,
  exists count st' evs,
    cleanup_loop client strptime cutoff_date dry_run all_files deleted_count st
    = (Val count, st', evs)
    /\ (dry_run = true -> st' = st)
    /\ (forall ev, In ev evs ->
          exists filename,
            In filename all_files
            /\ expired_by_name strptime cutoff_date filename
            /\ ev = if dry_run then LogWouldDelete filename
                    else DeleteObject filename)
    /\ (client <> None ->
        forall filename,
          In filename all_files ->
          expired_by_name strptime cutoff_date filename ->
          In (if dry_run then LogWouldDelete filename
              else DeleteObject filename) evs).
Proof.
  induction all_files as [|f rest IH]; intros n st.
  - exists n, st, []. cbn. repeat split; auto; intros; contradiction.
  - cbn [cleanup_loop].
    assert (Hskip :
      (forall d, file_date_of strptime f = Some d -> ~ d < cutoff_date) ->
      exists count st' evs,
        cleanup_loop client strptime cutoff_date dry_run rest n st
        = (Val count, st', evs)
        /\ (dry_run = true -> st' = st)
        /\ (forall ev, In ev evs ->
              exists filename,
                In filename (f :: rest)
                /\ expired_by_name strptime cutoff_date filename
                /\ ev = if dry_run then LogWouldDelete filename
                        else DeleteObject filename)
        /\ (client <> None ->
            forall filename,
              In filename (f :: rest) ->
              expired_by_name strptime cutoff_date filename ->
              In (if dry_run then LogWouldDelete filename
                  else DeleteObject filename) evs)).
    { intros Hnot. destruct (IH n st) as [count [st' [evs [Hrun [Hdry [Hsnd Hcpl]]]]]].
      exists count, st', evs. repeat split; auto.
      - intros ev Hin. destruct (Hsnd ev Hin) as [k [Hk H]].
        exists k. split; [right; exact Hk|exact H].
      - intros Hc k [<-|Hk] Hexp; [|auto].
        destruct Hexp as [d [Hd Hlt]]. exfalso. exact (Hnot d Hd Hlt). }
    destruct (file_date_of strptime f) as [d|] eqn:Hd;
      [|apply Hskip; discriminate].
    destruct (Z.ltb_spec d cutoff_date) as [Hlt|Hge];
      [|apply Hskip; intros d' Heq; inversion Heq; subst; lia].
    clear Hskip. unfold bind.
    destruct (delete_from_storage_run f dry_run st)
      as [deleted [st1 [evs1 [Hdel [Hdry1 [Hsnd1 Hcpl1]]]]]].
    rewrite Hdel.
    destruct (IH (if deleted then S n else n) st1)
      as [count [st' [evs [Hrun [Hdry [Hsnd Hcpl]]]]]].
    rewrite Hrun. exists count, st', (evs1 ++ evs). repeat split.
    + intros Ht. rewrite (Hdry Ht). auto.
    + intros ev Hin. apply in_app_or in Hin. destruct Hin as [Hin|Hin].
      * exists f. split; [left; reflexivity|]. split; [exists d; auto|auto].
      * destruct (Hsnd ev Hin) as [k [Hk H]].
        exists k. split; [right; exact Hk|exact H].
    + intros Hc k [<-|Hk] Hexp; apply in_or_app; [left|right]; auto.
Qed.

Lemma cleanup_loop_skip (cutoff_date : Z) (dry_run : bool)
  (filename : string) :
  file_date_of strptime filename = None ->
  forall before after deleted_count st,
    cleanup_loop client strptime cutoff_date dry_run
      (before ++ filename :: after) deleted_count st
    = cleanup_loop client strptime cutoff_date dry_run
        (before ++ after) deleted_count st.
Proof.
  intros Hnone. induction before as [|f before IH]; intros after n st;
    cbn [app cleanup_loop].
  - rewrite Hnone. reflexivity.
  - destruct (file_date_of strptime f) as [d|]; [|apply IH].
    destruct (d <? cutoff_date); [|apply IH].
    unfold bind. destruct (delete_from_storage client f dry_run st)
      as [[[deleted| |] st1] evs1]; try reflexivity.
    rewrite IH. reflexivity.
Qed.

End MainRuns.

Lemma date_sub_Some (d days cutoff_date : Z) :
  Py.date_sub d days = Some cutoff_date -> cutoff_date = d - days.
Proof.
  unfold Py.date_sub, Py.timedelta.
  destruct ((- Py.MAX_DELTA_DAYS <=? days) && (days <=? Py.MAX_DELTA_DAYS));
    [|discriminate].
  destruct ((Py.MINORDINAL <=? d - days) && (d - days <=? Py.MAXORDINAL));
    [|discriminate].
  intros H. inversion H. reflexivity.
Qed.

Section Operations.
Context {Store : Type}.
Variable client : option (Client Store).
Variable strptime : string -> option Z.
Variable strftime : Z -> string.
Variable RETENTION_DAYS : Z.

Lemma windowed_In (files : list string) (cutoff_date target_date : Z)
  (p : Z * string) :
  In p (windowed cutoff_date target_date (dated_files_of strptime files))
  <-> in_current strptime files cutoff_date target_date (fst p) (snd p).
Proof.
  clear strftime RETENTION_DAYS.
  unfold windowed, dated_files_of, in_current, in_window.
  rewrite filter_In, sort_desc_In. destruct p as [d k]. cbn [fst snd].
  rewrite collect_dated_files_In, andb_true_iff, !Z.leb_le. tauto.
Qed.

Lemma windowed_length (files : list string) (cutoff_date target_date : Z) :
  List.length (windowed cutoff_date target_date (dated_files_of strptime files))
  = List.length (windowed cutoff_date target_date
                   (collect_dated_files strptime files)).
Proof.
  apply Permutation_length, filter_perm, Permutation_sym, sort_desc_perm.
Qed.

(** What [past_papers_of] yields once the listing is known: it returns,
    leaves the store alone, holds at most [days] links, asks only for URLs
    of files the window selects, and every link is the URL of such a
    file. *)
Lemma past_papers_spec (days target_date : Z)
  (all_files : option (list string)) (st : Store) :
  exists links evs,
    try_except
      (past_papers_of client strptime strftime days target_date all_files)
      (fun _ => ret []) st
    = (Val links, st, evs)
    /\ Z.of_nat (List.length links) <= Z.max 0 days
    /\ (forall ev, In ev evs ->
          exists files file_date filename,
            all_files = Some files
            /\ in_current strptime files (target_date - (days - 1)) target_date
                 file_date filename
            /\ ev = GeneratePresignedUrl filename 3600)
    /\ (forall link, In link links ->
          exists files file_date filename u,
            all_files = Some files
            /\ in_current strptime files (target_date - (days - 1)) target_date
                 file_date filename
            /\ url_of client st filename = Some u
            /\ link = (strftime file_date, u)).
Proof.
  assert (Hempty : exists links evs,
            (Val (@nil (string * string)), st, @nil Event) = (Val links, st, evs)
            /\ Z.of_nat (List.length links) <= Z.max 0 days
            /\ (forall ev, In ev evs ->
                  exists files file_date filename,
                    all_files = Some files
                    /\ in_current strptime files (target_date - (days - 1)) target_date
                         file_date filename
                    /\ ev = GeneratePresignedUrl filename 3600)
            /\ (forall link, In link links ->
                  exists files file_date filename u,
                    all_files = Some files
                    /\ in_current strptime files (target_date - (days - 1)) target_date
                         file_date filename
                    /\ url_of client st filename = Some u
                    /\ link = (strftime file_date, u))).
  { exists [], []. cbn. repeat split; try lia; intros; contradiction. }
  unfold past_papers_of.
  destruct all_files as [[|f files]|]; try exact Hempty.
  unfold try_except, bind, checked.
  destruct (Py.date_sub target_date (days - 1)) as [cutoff_date|] eqn:Hcut;
    [|exact Hempty].
  apply date_sub_Some in Hcut. subst cutoff_date. clear Hempty.
  unfold ret at 1, raise. cbn [app].
  destruct (gather_links_run client strftime days (target_date - (days - 1))
              target_date st
              (Py.sort_desc Z.ltb fst (collect_dated_files strptime (f :: files)))
              [])
    as [links [evs [Hrun [Hcap [Hsel Hprov]]]]].
  rewrite Hrun. unfold ret.
  exists (Py.sort_desc String.ltb fst links), (evs ++ []).
  rewrite app_nil_r. repeat split.
  - rewrite sort_desc_length. cbn [List.length] in Hcap.
    destruct (Z.ltb_spec 0 days) as [Hpos|Hneg]; [specialize (Hcap Hpos); lia|].
    destruct links as [|link links]; [cbn; lia|].
    destruct (Hprov link (or_introl eq_refl)) as [[]|[p [Hp _]]].
    apply (windowed_In (f :: files)) in Hp.
    destruct Hp as [_ [_ [_ Hw]]]. lia.
  - intros ev Hin. destruct (Hsel ev Hin) as [p [Hp ->]].
    apply (windowed_In (f :: files)) in Hp.
    exists (f :: files), (fst p), (snd p). auto.
  - intros link Hin. apply sort_desc_In in Hin.
    destruct (Hprov link Hin) as [[]|[p [Hp Hl]]].
    apply (windowed_In (f :: files)) in Hp.
    unfold link_for in Hl.
    destruct (url_of client st (snd p)) as [u|] eqn:Hu; [|destruct Hl].
    destruct Hl as [<-|[]].
    exists (f :: files), (fst p), (snd p), u. auto.
Qed.

(** The operation is its listing followed by [past_papers_of]. *)
Lemma get_past_papers_split (fuel : nat) (target_date : Z) (days : option Z)
  (st : Store) :
  (exists evs0,
     list_storage_files client fuel st = (Abort, st, evs0)
     /\ forallb is_listing evs0 = true
     /\ get_past_papers_from_storage client strptime strftime RETENTION_DAYS
          fuel target_date days st = (Abort, st, evs0))
  \/ (exists all_files evs0,
        list_storage_files client fuel st = (Val all_files, st, evs0)
        /\ forallb is_listing evs0 = true
        /\ get_past_papers_from_storage client strptime strftime
             RETENTION_DAYS fuel target_date days st
           = (result (try_except
                        (past_papers_of client strptime strftime
                           (or_default RETENTION_DAYS days) target_date
                           all_files)
                        (fun _ => ret []) st),
              store_after (try_except
                        (past_papers_of client strptime strftime
                           (or_default RETENTION_DAYS days) target_date
                           all_files)
                        (fun _ => ret []) st),
              evs0 ++ events (try_except
                        (past_papers_of client strptime strftime
                           (or_default RETENTION_DAYS days) target_date
                           all_files)
                        (fun _ => ret []) st))).
Proof.
  destruct (list_storage_files_reads client fuel st) as [Hst [Hev Hnr]].
  destruct (list_storage_files client fuel st) as [[r st0] evs0] eqn:Hlist.
  unfold store_after, events, result in Hst, Hev, Hnr. cbn [fst snd] in *.
  subst st0. unfold get_past_papers_from_storage.
  destruct r as [all_files|e|].
  - right. exists all_files, evs0. repeat split; auto.
    apply try_except_bind_val. exact Hlist.
  - exfalso. exact (Hnr e eq_refl).
  - left. exists evs0. split; [reflexivity|]. split; [exact Hev|].
    apply try_except_bind_abort. exact Hlist.
Qed.

(** What [cleanup_of] does once the listing is known. *)
Lemma cleanup_spec (days_to_keep target_date : Z) (dry_run : bool)
  (all_files : option (list string)) (st : Store) :
  exists st' evs,
    try_except
      (cleanup_of client strptime days_to_keep target_date dry_run all_files)
      (fun _ => ret tt) st
    = (Val tt, st', evs)
    /\ (dry_run = true -> st' = st)
    /\ (forall ev, In ev evs ->
          exists files filename,
            all_files = Some files
            /\ In filename files
            /\ expired_by_name strptime (target_date - days_to_keep) filename
            /\ ev = if dry_run then LogWouldDelete filename
                    else DeleteObject filename).
Proof.
  assert (Hempty : exists st' evs,
            (Val tt, st, @nil Event) = (Val tt, st', evs)
            /\ (dry_run = true -> st' = st)
            /\ (forall ev, In ev evs ->
                  exists files filename,
                    all_files = Some files
                    /\ In filename files
                    /\ expired_by_name strptime (target_date - days_to_keep)
                         filename
                    /\ ev = if dry_run then LogWouldDelete filename
                            else DeleteObject filename)).
  { exists st, []. repeat split; auto. intros ev []. }
  unfold cleanup_of.
  destruct all_files as [[|f files]|]; try exact Hempty.
  unfold try_except, bind, checked.
  destruct (Py.date_sub target_date days_to_keep) as [cutoff_date|] eqn:Hcut;
    [|exact Hempty].
  apply date_sub_Some in Hcut. subst cutoff_date. clear Hempty.
  unfold ret at 1, raise. cbn [app].
  destruct (cleanup_loop_run client strptime (target_date - days_to_keep)
              dry_run (f :: files) 0%nat st)
    as [count [st' [evs [Hrun [Hdry [Hsnd _]]]]]].
  rewrite Hrun. unfold ret. exists st', (evs ++ []).
  rewrite app_nil_r. repeat split; auto.
  intros ev Hin. destruct (Hsnd ev Hin) as [k [Hk [Hexp ->]]].
  exists (f :: files), k. auto.
Qed.

Lemma cleanup_split (fuel : nat) (target_date : Z) (days_to_keep : option Z)
  (dry_run : bool) (st : Store) :
  (exists evs0,
     list_storage_files client fuel st = (Abort, st, evs0)
     /\ forallb is_listing evs0 = true
     /\ cleanup_old_files client strptime RETENTION_DAYS fuel target_date
          days_to_keep dry_run st = (Abort, st, evs0))
  \/ (exists all_files evs0,
        list_storage_files client fuel st = (Val all_files, st, evs0)
        /\ forallb is_listing evs0 = true
        /\ cleanup_old_files client strptime RETENTION_DAYS fuel target_date
             days_to_keep dry_run st
           = (result (try_except
                        (cleanup_of client strptime
                           (or_default RETENTION_DAYS days_to_keep)
                           target_date dry_run all_files)
                        (fun _ => ret tt) st),
              store_after (try_except
                        (cleanup_of client strptime
                           (or_default RETENTION_DAYS days_to_keep)
                           target_date dry_run all_files)
                        (fun _ => ret tt) st),
              evs0 ++ events (try_except
                        (cleanup_of client strptime
                           (or_default RETENTION_DAYS days_to_keep)
                           target_date dry_run all_files)
                        (fun _ => ret tt) st))).
Proof.
  destruct (list_storage_files_reads client fuel st) as [Hst [Hev Hnr]].
  destruct (list_storage_files client fuel st) as [[r st0] evs0] eqn:Hlist.
  unfold store_after, events, result in Hst, Hev, Hnr. cbn [fst snd] in *.
  subst st0. unfold cleanup_old_files.
  destruct r as [all_files|e|].
  - right. exists all_files, evs0. repeat split; auto.
    apply try_except_bind_val. exact Hlist.
  - exfalso. exact (Hnr e eq_refl).
  - left. exists evs0. split; [reflexivity|]. split; [exact Hev|].
    apply try_except_bind_abort. exact Hlist.
Qed.

Lemma listing_event_inv (evs : list Event) (ev : Event) :
  forallb is_listing evs = true -> In ev evs -> is_listing ev = true.
Proof.
  intros Hall Hin. rewrite forallb_forall in Hall. auto.
Qed.

(** Under the cap, [past_papers_of] visits the whole window. *)
Lemma past_papers_under_cap (days target_date cutoff_date : Z)
  (files : list string) (st : Store) :
  files <> [] ->
  Py.date_sub target_date (days - 1) = Some cutoff_date ->
  Z.of_nat (List.length (windowed cutoff_date target_date
                           (collect_dated_files strptime files))) <= days ->
  try_except
    (past_papers_of client strptime strftime days target_date (Some files))
    (fun _ => ret []) st
  = (Val (Py.sort_desc String.ltb fst
            (flat_map (link_for client strftime st)
               (windowed cutoff_date target_date
                  (dated_files_of strptime files)))),
     st,
     flat_map (fun p => url_requests client (snd p))
       (windowed cutoff_date target_date (dated_files_of strptime files))).
Proof.
  intros Hne Hcut Hcap. unfold past_papers_of.
  destruct files as [|f files]; [contradiction|].
  unfold try_except, bind, checked. rewrite Hcut.
  unfold ret at 1. cbn [app].
  fold (dated_files_of strptime (f :: files)).
  rewrite gather_links_under_cap
    by (rewrite windowed_length; cbn [List.length]; lia).
  unfold ret. cbn [app]. rewrite app_nil_r. reflexivity.
Qed.

Lemma past_papers_of_run (days target_date cutoff_date : Z)
  (files : list string) (st : Store) (links : list (string * string))
  (evs : list Event) :
  files <> [] ->
  Py.date_sub target_date (days - 1) = Some cutoff_date ->
  gather_links client strftime days cutoff_date target_date
    (dated_files_of strptime files) [] st = (Val links, st, evs) ->
  try_except
    (past_papers_of client strptime strftime days target_date (Some files))
    (fun _ => ret []) st
  = (Val (Py.sort_desc String.ltb fst links), st, evs).
Proof.
  intros Hne Hcut Hrun. unfold past_papers_of.
  destruct files as [|f files]; [contradiction|].
  unfold try_except, bind, checked. rewrite Hcut.
  unfold ret at 1. cbn [app].
  fold (dated_files_of strptime (f :: files)). rewrite Hrun.
  unfold ret. cbn [app]. rewrite app_nil_r. reflexivity.
Qed.

Lemma past_papers_of_nothing (days target_date : Z)
  (all_files : option (list string)) (st : Store) :
  match all_files with
  | Some (_ :: _) => Py.date_sub target_date (days - 1) = None
  | _ => True
  end ->
  try_except
    (past_papers_of client strptime strftime days target_date all_files)
    (fun _ => ret []) st
  = (Val [], st, []).
Proof.
  unfold past_papers_of. destruct all_files as [[|f files]|];
    try reflexivity.
  intros Hcut. unfold try_except, bind, checked. rewrite Hcut. reflexivity.
Qed.

(** When every URL asked for is usable, [past_papers_of] returns as many
    links as it made requests. *)
Lemma past_papers_counts (days target_date : Z)
  (all_files : option (list string)) (st : Store) :
  (forall key expires_in,
     In (GeneratePresignedUrl key expires_in)
       (events (try_except
                  (past_papers_of client strptime strftime days target_date
                     all_files)
                  (fun _ => ret []) st)) ->
     url_of client st key <> None) ->
  forall links,
    result (try_except
              (past_papers_of client strptime strftime days target_date
                 all_files)
              (fun _ => ret []) st) = Val links ->
    List.length links
    = List.length (events (try_except
                             (past_papers_of client strptime strftime days
                                target_date all_files)
                             (fun _ => ret []) st)).
Proof.
  assert (Hnothing :
    try_except
      (past_papers_of client strptime strftime days target_date all_files)
      (fun _ => ret []) st = (Val [], st, []) ->
    (forall key expires_in,
       In (GeneratePresignedUrl key expires_in)
         (events (try_except
                    (past_papers_of client strptime strftime days target_date
                       all_files)
                    (fun _ => ret []) st)) ->
       url_of client st key <> None) ->
    forall links,
      result (try_except
                (past_papers_of client strptime strftime days target_date
                   all_files)
                (fun _ => ret []) st) = Val links ->
      List.length links
      = List.length (events (try_except
                               (past_papers_of client strptime strftime days
                                  target_date all_files)
                               (fun _ => ret []) st))).
  { intros -> _ links H. inversion H. reflexivity. }
  destruct all_files as [[|f files]|];
    try (apply Hnothing, past_papers_of_nothing; exact I).
  destruct (Py.date_sub target_date (days - 1)) as [cutoff_date|] eqn:Hcut;
    [|apply Hnothing, past_papers_of_nothing; exact Hcut].
  clear Hnothing.
  destruct (gather_links_run client strftime days cutoff_date target_date st
              (dated_files_of strptime (f :: files)) [])
    as [links' [evs [Hrun _]]].
  rewrite (past_papers_of_run days target_date cutoff_date (f :: files) st
             links' evs) by (try discriminate; assumption).
  unfold result, events. cbn [fst snd].
  intros Hok links H. inversion H; subst.
  rewrite sort_desc_length.
  apply (gather_links_counts client strftime _ _ _ _ _ _ _ _ _ Hrun Hok).
Qed.

End Operations.

(* ===================================================================== *)
(** ** The retention windows *)
(* ===================================================================== *)

(** C1. For a retention window of at least one day, a file whose date
    parses to exactly [target_date - days] is in the one-day gap of both
    operations: [get_past_papers_from_storage] never asks for its URL (the
    current window starts at [target_date - (days - 1)]), and
    [cleanup_old_files], dry run or not, never asks for its deletion (it
    purges dates strictly before [target_date - days]). The two cutoffs
    are one day apart. *)
Theorem gap_day_neither_current_nor_expired {Store : Type}
  (client : option (Client Store)) (strptime : string -> option Z)
  (strftime : Z -> string) (RETENTION_DAYS : Z) (fuel : nat)
  (target_date : Z) (days : option Z) (dry_run : bool) (st : Store)
  (filename : string) :
  1 <= or_default RETENTION_DAYS days ->
  file_date_of strptime filename
  = Some (target_date - or_default RETENTION_DAYS days) ->
  ~ In (GeneratePresignedUrl filename 3600)
      (events (get_past_papers_from_storage client strptime strftime
                 RETENTION_DAYS fuel target_date days st))
  /\ ~ In (DeleteObject filename)
         (events (cleanup_old_files client strptime RETENTION_DAYS fuel
                    target_date days dry_run st))
  /\ ~ In (LogWouldDelete filename)
         (events (cleanup_old_files client strptime RETENTION_DAYS fuel
                    target_date days dry_run st))
  /\ (forall current_cutoff purge_cutoff,
        Py.date_sub target_date (or_default RETENTION_DAYS days - 1)
        = Some current_cutoff ->
        Py.date_sub target_date (or_default RETENTION_DAYS days)
        = Some purge_cutoff ->
        current_cutoff = purge_cutoff + 1).
Proof.
  intros Hdays Hdate.
  assert (Hcurrent :
    ~ In (GeneratePresignedUrl filename 3600)
        (events (get_past_papers_from_storage client strptime strftime
                   RETENTION_DAYS fuel target_date days st))).
  { intros Hin.
    destruct (get_past_papers_split client strptime strftime RETENTION_DAYS
                fuel target_date days st)
      as [[evs0 [_ [Hl Hrun]]]|[all_files [evs0 [_ [Hl Hrun]]]]];
      rewrite Hrun in Hin; unfold events in Hin; cbn [snd] in Hin.
    - apply (listing_event_inv _ _ Hl) in Hin. discriminate.
    - apply in_app_or in Hin. destruct Hin as [Hin|Hin].
      + apply (listing_event_inv _ _ Hl) in Hin. discriminate.
      + destruct (past_papers_spec client strptime strftime
                    (or_default RETENTION_DAYS days) target_date all_files st)
          as [links [evs [Hpp [_ [Hsel _]]]]].
        rewrite Hpp in Hin. cbn [snd] in Hin.
        destruct (Hsel _ Hin) as [files [d [k [_ [[_ [Hd [_ Hw]]] Heq]]]]].
        inversion Heq; subst k. rewrite Hdate in Hd. inversion Hd. lia. }
  assert (Hpurge : forall ev,
    ev = DeleteObject filename \/ ev = LogWouldDelete filename ->
    ~ In ev (events (cleanup_old_files client strptime RETENTION_DAYS fuel
                       target_date days dry_run st))).
  { intros ev Hev Hin.
    destruct (cleanup_split client strptime RETENTION_DAYS fuel target_date
                days dry_run st)
      as [[evs0 [_ [Hl Hrun]]]|[all_files [evs0 [_ [Hl Hrun]]]]];
      rewrite Hrun in Hin; unfold events in Hin; cbn [snd] in Hin.
    - apply (listing_event_inv _ _ Hl) in Hin.
      destruct Hev; subst ev; discriminate.
    - apply in_app_or in Hin. destruct Hin as [Hin|Hin].
      + apply (listing_event_inv _ _ Hl) in Hin.
        destruct Hev; subst ev; discriminate.
      + destruct (cleanup_spec client strptime
                    (or_default RETENTION_DAYS days) target_date dry_run
                    all_files st)
          as [st' [evs [Hc [_ Hsnd]]]].
        rewrite Hc in Hin. cbn [snd] in Hin.
        destruct (Hsnd _ Hin) as [files [k [_ [_ [[d [Hd Hlt]] Heq]]]]].
        assert (k = filename)
          by (destruct Hev; subst ev; destruct dry_run; congruence).
        subst k. rewrite Hdate in Hd. inversion Hd. lia. }
  repeat split.
  - exact Hcurrent.
  - apply Hpurge. left. reflexivity.
  - apply Hpurge. right. reflexivity.
  - intros c1 c2 H1 H2. apply date_sub_Some in H1, H2. lia.
Qed.

(** The gap day of the week bucket: 2024-06-07 for a window of three days
    ending on 2024-06-10. *)
Lemma gap_day_neither_current_nor_expired_witness :
  ~ In (GeneratePresignedUrl "2024-06-07_newspaper.pdf" 3600)
      (events (Scenario.get_past_papers 3 Scenario.week))
  /\ ~ In (DeleteObject "2024-06-07_newspaper.pdf")
         (events (Scenario.cleanup 3 false Scenario.week))
  /\ ~ In (LogWouldDelete "2024-06-07_newspaper.pdf")
         (events (Scenario.cleanup 3 false Scenario.week))
  /\ (forall current_cutoff purge_cutoff,
        Py.date_sub Scenario.target_date (3 - 1) = Some current_cutoff ->
        Py.date_sub Scenario.target_date 3 = Some purge_cutoff ->
        current_cutoff = purge_cutoff + 1).
Proof.
  apply (gap_day_neither_current_nor_expired Scenario.client
           DefaultFormat.strptime DefaultFormat.strftime 7 10
           Scenario.target_date (Some 3) false Scenario.week
           "2024-06-07_newspaper.pdf").
  - vm_compute. discriminate.
  - reflexivity.
Defined.

(** C5. A key whose date does not parse is never asked a URL for and is
    never proposed for deletion, in a real or a dry run; the parse failure
    does not escape either operation as an exception; and when the listing
    holds other keys, both operations do with it exactly what they do with
    the listing without that key: every remaining key is processed. *)
Theorem unparseable_key_is_skipped {Store : Type}
  (client : option (Client Store)) (strptime : string -> option Z)
  (strftime : Z -> string) (RETENTION_DAYS : Z) (filename : string) :
  file_date_of strptime filename = None ->
  (forall fuel target_date days st,
      ~ In (GeneratePresignedUrl filename 3600)
          (events (get_past_papers_from_storage client strptime strftime
                     RETENTION_DAYS fuel target_date days st))
      /\ forall e,
           result (get_past_papers_from_storage client strptime strftime
                     RETENTION_DAYS fuel target_date days st) <> Raise e)
  /\ (forall fuel target_date days dry_run st,
        ~ In (DeleteObject filename)
            (events (cleanup_old_files client strptime RETENTION_DAYS fuel
                       target_date days dry_run st))
        /\ ~ In (LogWouldDelete filename)
               (events (cleanup_old_files client strptime RETENTION_DAYS fuel
                          target_date days dry_run st))
        /\ forall e,
             result (cleanup_old_files client strptime RETENTION_DAYS fuel
                       target_date days dry_run st) <> Raise e)
  /\ (forall before after days target_date st,
        before ++ after <> [] ->
        past_papers_of client strptime strftime days target_date
          (Some (before ++ filename :: after)) st
        = past_papers_of client strptime strftime days target_date
            (Some (before ++ after)) st)
  /\ (forall before after days target_date dry_run st,
        before ++ after <> [] ->
        cleanup_of client strptime days target_date dry_run
          (Some (before ++ filename :: after)) st
        = cleanup_of client strptime days target_date dry_run
            (Some (before ++ after)) st).
Proof.
  intros Hnone. repeat apply conj.
  - intros fuel target_date days st.
    destruct (get_past_papers_split client strptime strftime RETENTION_DAYS
                fuel target_date days st)
      as [[evs0 [_ [Hl Hrun]]]|[all_files [evs0 [_ [Hl Hrun]]]]];
      rewrite Hrun; unfold events, result; cbn [fst snd].
    + split; [|discriminate].
      intros Hin. apply (listing_event_inv _ _ Hl) in Hin. discriminate.
    + destruct (past_papers_spec client strptime strftime
                  (or_default RETENTION_DAYS days) target_date all_files st)
        as [links [evs [Hpp [_ [Hsel _]]]]].
      rewrite Hpp. cbn [fst snd]. split; [|discriminate].
      intros Hin. apply in_app_or in Hin. destruct Hin as [Hin|Hin].
      * apply (listing_event_inv _ _ Hl) in Hin. discriminate.
      * destruct (Hsel _ Hin) as [files [d [k [_ [[_ [Hd _]] Heq]]]]].
        inversion Heq; subst k. congruence.
  - intros fuel target_date days dry_run st.
    assert (Hboth : forall ev,
      ev = DeleteObject filename \/ ev = LogWouldDelete filename ->
      ~ In ev (events (cleanup_old_files client strptime RETENTION_DAYS fuel
                         target_date days dry_run st))).
    { intros ev Hev Hin.
      destruct (cleanup_split client strptime RETENTION_DAYS fuel target_date
                  days dry_run st)
        as [[evs0 [_ [Hl Hrun]]]|[all_files [evs0 [_ [Hl Hrun]]]]];
        rewrite Hrun in Hin; unfold events in Hin; cbn [snd] in Hin.
      - apply (listing_event_inv _ _ Hl) in Hin.
        destruct Hev; subst ev; discriminate.
      - apply in_app_or in Hin. destruct Hin as [Hin|Hin].
        + apply (listing_event_inv _ _ Hl) in Hin.
          destruct Hev; subst ev; discriminate.
        + destruct (cleanup_spec client strptime
                      (or_default RETENTION_DAYS days) target_date dry_run
                      all_files st)
            as [st' [evs [Hc [_ Hsnd]]]].
          rewrite Hc in Hin. cbn [snd] in Hin.
          destruct (Hsnd _ Hin) as [files [k [_ [_ [[d [Hd _]] Heq]]]]].
          assert (k = filename)
            by (destruct Hev; subst ev; destruct dry_run; congruence).
          subst k. congruence. }
    split; [apply Hboth; left; reflexivity|].
    split; [apply Hboth; right; reflexivity|].
    intros e.
    destruct (cleanup_split client strptime RETENTION_DAYS fuel target_date
                days dry_run st)
      as [[evs0 [_ [_ Hrun]]]|[all_files [evs0 [_ [_ Hrun]]]]];
      rewrite Hrun; unfold result; cbn [fst]; [discriminate|].
    destruct (cleanup_spec client strptime (or_default RETENTION_DAYS days)
                target_date dry_run all_files st) as [st' [evs [Hc _]]].
    rewrite Hc. discriminate.
  - intros before after days target_date st Hrest.
    unfold past_papers_of.
    destruct (before ++ filename :: after) as [|f1 l1] eqn:E1;
      [destruct before; discriminate|].
    destruct (before ++ after) as [|f2 l2] eqn:E2; [contradiction|].
    rewrite <- E1, <- E2, (collect_dated_files_skip strptime filename Hnone).
    reflexivity.
  - intros before after days target_date dry_run st Hrest.
    unfold cleanup_of.
    destruct (before ++ filename :: after) as [|f1 l1] eqn:E1;
      [destruct before; discriminate|].
    destruct (before ++ after) as [|f2 l2] eqn:E2; [contradiction|].
    rewrite <- E1, <- E2. unfold bind.
    destruct (checked (Py.date_sub target_date days) st) as [[[cutoff| |] st1] evs1];
      try reflexivity.
    rewrite (cleanup_loop_skip client strptime cutoff dry_run filename Hnone).
    reflexivity.
Qed.

(** The stray file of the week bucket. *)
Lemma unparseable_key_is_skipped_witness :
  ~ In (GeneratePresignedUrl "notes.txt" 3600)
      (events (Scenario.get_past_papers 3 Scenario.week))
  /\ ~ In (DeleteObject "notes.txt")
         (events (Scenario.cleanup 3 false Scenario.week))
  /\ ~ In (LogWouldDelete "notes.txt")
         (events (Scenario.cleanup 3 true Scenario.week)).
Proof.
  destruct (unparseable_key_is_skipped Scenario.client DefaultFormat.strptime
              DefaultFormat.strftime 7 "notes.txt" eq_refl)
    as [Hcurrent [Hpurge _]].
  split; [exact (proj1 (Hcurrent 10%nat Scenario.target_date (Some 3)
                          Scenario.week))|].
  split.
  - exact (proj1 (Hpurge 10%nat Scenario.target_date (Some 3) false
                    Scenario.week)).
  - exact (proj1 (proj2 (Hpurge 10%nat Scenario.target_date (Some 3) true
                           Scenario.week))).
Defined.

(** C10. Whenever its listing returns, [get_past_papers_from_storage]
    returns at most [days] links (none for a negative [days]); when every
    URL it asks for is usable it asks for exactly as many URLs as it
    returns links, so it stops at the cap. Links are counted one by one:
    with two documents for one date and [days = 2], both links carry that
    date and the day before is not covered. *)
Theorem links_capped_by_days :
  (forall (Store : Type) (client : option (Client Store))
          (strptime : string -> option Z) (strftime : Z -> string)
          (RETENTION_DAYS : Z) (fuel : nat) (target_date : Z)
          (days : option Z) (st : Store),
      result (list_storage_files client fuel st) <> Abort ->
      exists links,
        result (get_past_papers_from_storage client strptime strftime
                  RETENTION_DAYS fuel target_date days st) = Val links
        /\ Z.of_nat (List.length links)
           <= Z.max 0 (or_default RETENTION_DAYS days)
        /\ ((forall key expires_in,
               In (GeneratePresignedUrl key expires_in)
                 (events (get_past_papers_from_storage client strptime
                            strftime RETENTION_DAYS fuel target_date days st)) ->
               url_of client st key <> None) ->
            List.length links
            = List.length
                (filter is_presign
                   (events (get_past_papers_from_storage client strptime
                              strftime RETENTION_DAYS fuel target_date days
                              st)))))
  /\ (exists links,
        result (Scenario.get_past_papers 2 Scenario.same_day) = Val links
        /\ List.length links = 2%nat
        /\ map fst links = ["2024-06-10"; "2024-06-10"]%string).
Proof.
  split.
  - intros Store client strptime strftime RETENTION_DAYS fuel target_date
      days st Hlist.
    destruct (get_past_papers_split client strptime strftime RETENTION_DAYS
                fuel target_date days st)
      as [[evs0 [Habort _]]|[all_files [evs0 [_ [Hl Hrun]]]]].
    + rewrite Habort in Hlist. exfalso. apply Hlist. reflexivity.
    + rewrite Hrun. unfold result at 1, events. cbn [fst snd].
      pose proof (past_papers_counts client strptime strftime
                    (or_default RETENTION_DAYS days) target_date all_files st)
        as Hcount.
      destruct (past_papers_spec client strptime strftime
                  (or_default RETENTION_DAYS days) target_date all_files st)
        as [links [evs [Hpp [Hcap [Hsel _]]]]].
      rewrite Hpp in *. unfold result, events in *. cbn [fst snd] in *.
      exists links. split; [reflexivity|]. split; [exact Hcap|].
      intros Hok. rewrite filter_app, length_app.
      assert (H0 : filter is_presign evs0 = []).
      { clear - Hl. induction evs0 as [|ev evs0 IH]; [reflexivity|].
        cbn [forallb] in Hl. apply andb_true_iff in Hl. destruct Hl as [H1 H2].
        destruct ev; try discriminate. cbn. auto. }
      assert (H1 : filter is_presign evs = evs).
      { clear - Hsel. induction evs as [|ev evs IH]; [reflexivity|].
        destruct (Hsel ev (or_introl eq_refl)) as [? [? [? [_ [_ ->]]]]].
        cbn. f_equal. apply IH. intros ev' Hin. apply Hsel. right. exact Hin. }
      rewrite H0, H1. cbn [List.length].
      apply Hcount; [|reflexivity].
      intros key ex Hin. apply (Hok key ex), in_or_app. right. exact Hin.
  - eexists. split; [vm_compute; reflexivity|]. split; reflexivity.
Qed.

(** The week bucket with a window of three days. *)
Lemma links_capped_by_days_witness :
  exists links,
    result (Scenario.get_past_papers 3 Scenario.week) = Val links
    /\ Z.of_nat (List.length links) <= Z.max 0 3.
Proof.
  destruct (proj1 links_capped_by_days MemStore.Bucket Scenario.client
              DefaultFormat.strptime DefaultFormat.strftime 7 10%nat
              Scenario.target_date (Some 3) Scenario.week)
    as [links [Hrun [Hcap _]]].
  - vm_compute. discriminate.
  - exists links. split; [exact Hrun|exact Hcap].
Defined.

(** The second loop asks for the URLs of an initial segment of the window,
    in the order of the list, and leaves a file of the window out only
    once [days] links are gathered. *)
Lemma gather_links_prefix {Store : Type} (client : option (Client Store))
  (strftime : Z -> string) (days cutoff_date target_date : Z) (st : Store) :
  forall dated_files links,
  exists asked rest,
    windowed cutoff_date target_date dated_files = asked ++ rest
    /\ gather_links client strftime days cutoff_date target_date dated_files
         links st
       = (Val (links ++ flat_map (link_for client strftime st) asked), st,
          flat_map (fun p => url_requests client (snd p)) asked)
    /\ (rest <> [] ->
        days <= Z.of_nat (List.length
                            (links
                             ++ flat_map (link_for client strftime st) asked))).
Proof.
  induction dated_files as [|[file_date filename] rest0 IH]; intros links.
  - exists [], []. cbn. rewrite app_nil_r.
    split; [reflexivity|]. split; [reflexivity|]. congruence.
  - cbn [gather_links]. unfold bind at 1. rewrite add_link_run.
    unfold windowed. cbn [filter fst].
    fold (windowed cutoff_date target_date rest0).
    destruct (in_window cutoff_date target_date file_date) eqn:Hw.
    + destruct (Z.leb_spec days
                  (Z.of_nat (List.length
                               (links ++ link_for client strftime st
                                           (file_date, filename)))))
        as [Hstop|Hgo].
      * exists [(file_date, filename)], (windowed cutoff_date target_date rest0).
        unfold ret. cbn [flat_map snd app]. rewrite !app_nil_r.
        split; [reflexivity|]. split; [reflexivity|]. intros _. exact Hstop.
      * destruct (IH (links ++ link_for client strftime st
                                 (file_date, filename)))
          as [asked [rest [Hsplit [Hrun Hleft]]]].
        exists ((file_date, filename) :: asked), rest.
        rewrite Hrun, Hsplit. cbn [flat_map snd app].
        rewrite <- !app_assoc in *.
        split; [reflexivity|]. split; [reflexivity|]. exact Hleft.
    + destruct (Z.leb_spec days (Z.of_nat (List.length links)))
        as [Hstop|Hgo].
      * exists [], (windowed cutoff_date target_date rest0).
        unfold ret. cbn [flat_map app]. rewrite !app_nil_r.
        split; [reflexivity|]. split; [reflexivity|]. intros _. exact Hstop.
      * destruct (IH links) as [asked [rest [Hsplit [Hrun Hleft]]]].
        exists asked, rest. rewrite Hrun, Hsplit. cbn [app].
        split; [reflexivity|]. split; [reflexivity|]. exact Hleft.
Qed.

(** C2, as stated, fails: with two documents for the reference date and
    [days = 1], both dates lie in the window, yet the cap ends the loop
    after the first link and the second document is not selected. *)
Lemma same_day_document_left_out :
  result (list_storage_files Scenario.client 10 Scenario.same_day)
  = Val (Some ["2024-06-09_newspaper.pdf"; "2024-06-10_newspaper.html";
               "2024-06-10_newspaper.pdf"]%string)
  /\ file_date_of DefaultFormat.strptime "2024-06-10_newspaper.pdf"
     = Some Scenario.target_date
  /\ is_newspaper "2024-06-10_newspaper.pdf" = true
  /\ Scenario.target_date - (1 - 1) <= Scenario.target_date
     <= Scenario.target_date
  /\ ~ In (GeneratePresignedUrl "2024-06-10_newspaper.pdf" 3600)
         (events (Scenario.get_past_papers 1 Scenario.same_day)).
Proof.
  repeat split; try reflexivity; try (vm_compute; discriminate).
  vm_compute. intros [H|[H|[]]]; discriminate.
Qed.

(** C2, amended. A parsed document of the listing is selected (its URL is
    asked for) only if its date lies in the closed interval from
    [target_date - (days - 1)] to [target_date], so a future-dated one
    never is. When that lower bound is a date and the window holds no
    more documents than [days], every document dated in the interval is
    selected. In general the documents selected are an initial segment of
    the documents of the interval, taken most recent first: the run asks
    for their URLs in that order and returns their links, and a document
    of the interval is left out only once [days] links are gathered from
    those before it. *)
Theorem current_is_window_within_cap {Store : Type}
  (client : option (Client Store)) (strptime : string -> option Z)
  (strftime : Z -> string) (RETENTION_DAYS : Z) (fuel : nat)
  (target_date : Z) (days : option Z) (st : Store)
  (files : list string) (evs0 : list Event)
  (filename : string) (file_date : Z) :
  list_storage_files client fuel st = (Val (Some files), st, evs0) ->
  In filename files ->
  file_date_of strptime filename = Some file_date ->
  is_newspaper filename = true ->
  (In (GeneratePresignedUrl filename 3600)
     (events (get_past_papers_from_storage client strptime strftime
                RETENTION_DAYS fuel target_date days st)) ->
   target_date - (or_default RETENTION_DAYS days - 1) <= file_date
   <= target_date)
  /\ (forall cutoff_date,
        Py.date_sub target_date (or_default RETENTION_DAYS days - 1)
        = Some cutoff_date ->
        Z.of_nat (List.length
                    (windowed cutoff_date target_date
                       (collect_dated_files strptime files)))
        <= or_default RETENTION_DAYS days ->
        cutoff_date <= file_date <= target_date ->
        In (GeneratePresignedUrl filename 3600)
          (events (get_past_papers_from_storage client strptime strftime
                     RETENTION_DAYS fuel target_date days st)))
  /\ (forall cutoff_date,
        Py.date_sub target_date (or_default RETENTION_DAYS days - 1)
        = Some cutoff_date ->
        exists asked rest,
          windowed cutoff_date target_date (dated_files_of strptime files)
          = asked ++ rest
          /\ get_past_papers_from_storage client strptime strftime
               RETENTION_DAYS fuel target_date days st
             = (Val (Py.sort_desc String.ltb fst
                       (flat_map (link_for client strftime st) asked)),
                st,
                evs0 ++ flat_map (fun p => url_requests client (snd p)) asked)
          /\ (rest <> [] ->
              or_default RETENTION_DAYS days
              <= Z.of_nat (List.length
                             (flat_map (link_for client strftime st) asked)))).
Proof.
  intros Hlist Hin Hdate Hnews.
  destruct (get_past_papers_split client strptime strftime RETENTION_DAYS
              fuel target_date days st)
    as [[evs [Habort _]]|[all_files [evs [Hl' [Hl Hrun]]]]];
    [rewrite Habort in Hlist; discriminate|].
  rewrite Hlist in Hl'. inversion Hl'; subst all_files evs. clear Hl'.
  assert (Hne : files <> []) by (intros ->; destruct Hin).
  split; [|split].
  3: {
    intros cutoff_date Hcut.
    destruct (gather_links_prefix client strftime
                (or_default RETENTION_DAYS days) cutoff_date target_date st
                (dated_files_of strptime files) [])
      as [asked [rest [Hsplit [Hloop Hleft]]]].
    exists asked, rest. split; [exact Hsplit|]. split; [|exact Hleft].
    rewrite Hrun.
    rewrite (past_papers_of_run client strptime strftime _ _ _ _ st _ _
               Hne Hcut Hloop).
    reflexivity. }
  all: rewrite Hrun; unfold events; cbn [snd].
  - intros Hev. apply in_app_or in Hev. destruct Hev as [Hev|Hev].
    + apply (listing_event_inv _ _ Hl) in Hev. discriminate.
    + destruct (past_papers_spec client strptime strftime
                  (or_default RETENTION_DAYS days) target_date (Some files) st)
        as [links [evs [Hpp [_ [Hsel _]]]]].
      rewrite Hpp in Hev. cbn [events snd] in Hev.
      destruct (Hsel _ Hev) as [files' [d [k [_ [[_ [Hd [_ Hw]]] Heq]]]]].
      inversion Heq; subst k. rewrite Hdate in Hd. inversion Hd; subst d.
      exact Hw.
  - intros cutoff_date Hcut Hcap Hw. apply in_or_app. right.
    rewrite (past_papers_under_cap client strptime strftime _ _ _ _ st
               Hne Hcut Hcap).
    unfold events. cbn [snd]. apply in_flat_map.
    exists (file_date, filename). split.
    + apply windowed_In. cbn [fst snd]. unfold in_current. auto.
    + unfold url_requests. cbn [snd].
      destruct client as [c|]; [left; reflexivity|].
      cbn in Hlist. discriminate.
Qed.

(** The week bucket, three days: the document of 2024-06-08 is selected. *)
Lemma current_is_window_within_cap_witness :
  In (GeneratePresignedUrl "2024-06-08_newspaper.pdf" 3600)
    (events (Scenario.get_past_papers 3 Scenario.week)).
Proof.
  refine (proj1 (proj2 (current_is_window_within_cap Scenario.client
                          DefaultFormat.strptime DefaultFormat.strftime 7
                          10%nat Scenario.target_date (Some 3) Scenario.week
                          (map Key (MemStore.objects Scenario.week))
                          (events (list_storage_files Scenario.client 10
                                     Scenario.week))
                          "2024-06-08_newspaper.pdf" 739045 _ _ _ _))
            739045 _ _ _).
  - vm_compute. reflexivity.
  - vm_compute. tauto.
  - reflexivity.
  - reflexivity.
  - reflexivity.
  - vm_compute. discriminate.
  - unfold Scenario.target_date. lia.
Defined.

Lemma link_dates {Store : Type} (client : option (Client Store))
  (strftime : Z -> string) (st : Store) (dated_files : list (Z * string)) :
  (forall p, In p dated_files -> url_of client st (snd p) <> None) ->
  map fst (flat_map (link_for client strftime st) dated_files)
  = map strftime (map fst dated_files).
Proof.
  induction dated_files as [|p rest IH]; intros Hok; [reflexivity|].
  cbn [flat_map map]. rewrite map_app, IH
    by (intros q Hq; apply Hok; right; exact Hq).
  unfold link_for. specialize (Hok p (or_introl eq_refl)).
  destruct (url_of client st (snd p)); [reflexivity|contradiction].
Qed.

Lemma window_dates_length (target_date days : Z) :
  List.length (window_dates target_date days) = Z.to_nat days.
Proof. unfold window_dates. rewrite length_map, length_seq. reflexivity. Qed.

Lemma window_dates_In (target_date days d : Z) :
  target_date - (days - 1) <= d <= target_date ->
  In d (window_dates target_date days).
Proof.
  intros Hd. unfold window_dates. apply in_map_iff.
  exists (Z.to_nat (target_date - d)). split; [lia|].
  apply in_seq. lia.
Qed.

(** C9, as stated, fails: in this bucket both dates of a two-day window
    have a document, yet the two links returned are those of the two
    documents of the later date; the earlier date is not covered. *)
Lemma duplicates_crowd_out_a_date :
  in_current DefaultFormat.strptime
    (map Key (MemStore.objects Scenario.same_day))
    (Scenario.target_date - (2 - 1)) Scenario.target_date
    739046 "2024-06-09_newspaper.pdf"
  /\ in_current DefaultFormat.strptime
       (map Key (MemStore.objects Scenario.same_day))
       (Scenario.target_date - (2 - 1)) Scenario.target_date
       739047 "2024-06-10_newspaper.pdf"
  /\ exists links,
       result (Scenario.get_past_papers 2 Scenario.same_day) = Val links
       /\ map fst links = ["2024-06-10"; "2024-06-10"]%string
       /\ ~ In (DefaultFormat.strftime 739046) (map fst links).
Proof.
  unfold in_current, Scenario.target_date.
  repeat split; try reflexivity; try lia; try (vm_compute; tauto).
  eexists. split; [vm_compute; reflexivity|]. split; [reflexivity|].
  vm_compute. intros [H|[H|[]]]; discriminate.
Qed.

(** C9, amended. With [days = 0] the result is empty. With [days >= 0],
    when the documents dated in the window have pairwise distinct dates,
    are at least [days] in number and each gets a usable URL, the dates of
    the links returned are exactly the [days] dates of the window, each
    once. *)
Theorem one_document_per_date_fills_window {Store : Type}
  (client : option (Client Store)) (strptime : string -> option Z)
  (strftime : Z -> string) (RETENTION_DAYS : Z) (fuel : nat)
  (target_date : Z) (days : option Z) (st : Store)
  (all_files : option (list string)) (evs0 : list Event) :
  list_storage_files client fuel st = (Val all_files, st, evs0) ->
  (or_default RETENTION_DAYS days = 0 ->
   result (get_past_papers_from_storage client strptime strftime
             RETENTION_DAYS fuel target_date days st) = Val [])
  /\ (forall files cutoff_date,
        all_files = Some files ->
        0 <= or_default RETENTION_DAYS days ->
        Py.date_sub target_date (or_default RETENTION_DAYS days - 1)
        = Some cutoff_date ->
        NoDup (map fst (windowed cutoff_date target_date
                          (collect_dated_files strptime files))) ->
        or_default RETENTION_DAYS days
        <= Z.of_nat (List.length
                       (windowed cutoff_date target_date
                          (collect_dated_files strptime files))) ->
        (forall p,
           In p (windowed cutoff_date target_date
                   (collect_dated_files strptime files)) ->
           url_of client st (snd p) <> None) ->
        exists links,
          result (get_past_papers_from_storage client strptime strftime
                    RETENTION_DAYS fuel target_date days st) = Val links
          /\ Permutation (map fst links)
               (map strftime
                  (window_dates target_date
                     (or_default RETENTION_DAYS days)))).
Proof.
  intros Hlist.
  destruct (get_past_papers_split client strptime strftime RETENTION_DAYS
              fuel target_date days st)
    as [[evs [Habort _]]|[all_files' [evs [Hl' [_ Hrun]]]]];
    [rewrite Habort in Hlist; discriminate|].
  rewrite Hlist in Hl'. inversion Hl'; subst all_files' evs. clear Hl'.
  rewrite Hrun. unfold result at 1 3. cbn [fst].
  set (d := or_default RETENTION_DAYS days) in *. split.
  - intros Hzero.
    destruct (past_papers_spec client strptime strftime d target_date
                all_files st) as [links [evs [Hpp [Hcap _]]]].
    rewrite Hpp. cbn [result fst]. f_equal.
    destruct links; [reflexivity|cbn [List.length] in Hcap; lia].
  - intros files cutoff_date -> Hpos Hcut Hnodup Hmany Hurls.
    pose proof (date_sub_Some _ _ _ Hcut) as Hc.
    set (window := windowed cutoff_date target_date
                     (collect_dated_files strptime files)) in *.
    assert (Hincl : incl (map fst window) (window_dates target_date d)).
    { intros fd Hfd. apply in_map_iff in Hfd. destruct Hfd as [p [<- Hp]].
      apply window_dates_In. unfold window, windowed in Hp.
      apply filter_In in Hp. destruct Hp as [_ Hw]. unfold in_window in Hw.
      apply andb_true_iff in Hw. rewrite !Z.leb_le in Hw. lia. }
    assert (Hlen : List.length window = Z.to_nat d).
    { pose proof (NoDup_incl_length Hnodup Hincl) as Hle.
      rewrite length_map, window_dates_length in Hle. lia. }
    assert (Hperm : Permutation
                      (windowed cutoff_date target_date
                         (dated_files_of strptime files)) window).
    { apply filter_perm, Permutation_sym, sort_desc_perm. }
    destruct files as [|f files].
    + unfold window in Hlen. cbn in Hlen.
      replace d with 0 by lia. exists []. split; [reflexivity|constructor].
    + rewrite (past_papers_under_cap client strptime strftime d target_date
                 cutoff_date (f :: files) st)
        by (try discriminate; try assumption; fold window; lia).
      eexists. split; [reflexivity|].
      eapply perm_trans;
        [apply Permutation_map, Permutation_sym, sort_desc_perm|].
      rewrite link_dates
        by (intros p Hp; apply Hurls;
            eapply Permutation_in; [exact Hperm|exact Hp]).
      apply Permutation_map.
      eapply perm_trans; [apply Permutation_map; exact Hperm|].
      apply NoDup_Permutation_bis; try assumption.
      rewrite length_map, window_dates_length. lia.
Qed.

(** The week bucket holds one document for each of the three days up to
    2024-06-10. *)
Lemma one_document_per_date_fills_window_witness :
  exists links,
    result (Scenario.get_past_papers 3 Scenario.week) = Val links
    /\ Permutation (map fst links)
         (map DefaultFormat.strftime (window_dates Scenario.target_date 3)).
Proof.
  refine (proj2 (one_document_per_date_fills_window Scenario.client
                   DefaultFormat.strptime DefaultFormat.strftime 7 10%nat
                   Scenario.target_date (Some 3) Scenario.week
                   (Some (map Key (MemStore.objects Scenario.week)))
                   (events (list_storage_files Scenario.client 10
                              Scenario.week)) _)
            (map Key (MemStore.objects Scenario.week)) 739045
            eq_refl _ eq_refl _ _ _).
  - vm_compute. reflexivity.
  - vm_compute. discriminate.
  - vm_compute. repeat constructor; cbn; intuition discriminate.
  - vm_compute. discriminate.
  - vm_compute. intros p [<-|[<-|[<-|[]]]]; discriminate.
Defined.

(* ===================================================================== *)
(** ** Dry runs, listing failures, pagination and batches *)
(* ===================================================================== *)

Lemma listing_harmless (evs : list Event) :
  forallb is_listing evs = true -> forallb harmless evs = true.
Proof.
  rewrite !forallb_forall. intros H ev Hin. specialize (H ev Hin).
  destruct ev; try discriminate. reflexivity.
Qed.

Lemma would_delete_harmless (keys : list string) :
  forallb harmless (map LogWouldDelete keys) = true.
Proof. induction keys as [|k keys IH]; [reflexivity|exact IH]. Qed.

Lemma delete_old_files_dry_run_any {Store : Type}
  (client : option (Client Store)) (now : Z) (fuel : nat)
  (retention_days : Z) (prefix : string) (st : Store) :
  exists r evs,
    delete_old_files client now fuel retention_days prefix true st
    = (r, st, evs)
    /\ forallb harmless evs = true.
Proof.
  unfold delete_old_files. destruct client as [c|];
    [|eexists; eexists; split; reflexivity].
  unfold checked.
  destruct (Py.datetime_sub now retention_days) as [cutoff_date|];
    [|eexists; eexists; split; reflexivity].
  unfold bind at 1. unfold ret at 1. cbn [app].
  unfold try_except. unfold bind at 1.
  destruct (paginate_reads c (Some prefix) fuel None None st) as [Hst Hev].
  destruct (paginate fuel c (Some prefix) None None st) as [[r st1] evs1].
  unfold store_after, events in *. cbn [fst snd] in *. subst st1.
  apply listing_harmless in Hev.
  destruct r as [pages|e|].
  - destruct (flat_map (marked_for_deletion cutoff_date) pages)
      as [|key keys].
    + unfold ret. eexists; eexists; split; [reflexivity|].
      rewrite app_nil_r. exact Hev.
    + unfold bind at 1. rewrite would_delete_run. unfold ret.
      eexists; eexists; split; [reflexivity|].
      rewrite !app_nil_r, forallb_app, Hev.
      apply (would_delete_harmless (key :: keys)).
  - unfold ret. eexists; eexists; split; [reflexivity|].
    rewrite app_nil_r. exact Hev.
  - eexists; eexists; split; [reflexivity|exact Hev].
Qed.

Lemma delete_old_files_dry_frame {Store : Type}
  (client : option (Client Store)) (now : Z) (fuel : nat)
  (retention_days : Z) (prefix : string) (st : Store) :
  store_after (delete_old_files client now fuel retention_days prefix true st)
  = st
  /\ forallb harmless
       (events (delete_old_files client now fuel retention_days prefix true
                  st)) = true.
Proof.
  destruct (delete_old_files_dry_run_any client now fuel retention_days
              prefix st) as [r [evs [Hrun Hev]]].
  rewrite Hrun. split; [reflexivity|exact Hev].
Qed.

Lemma cleanup_dry_frame {Store : Type} (client : option (Client Store))
  (strptime : string -> option Z) (RETENTION_DAYS : Z) (fuel : nat)
  (target_date : Z) (days_to_keep : option Z) (st : Store) :
  store_after (cleanup_old_files client strptime RETENTION_DAYS fuel
                 target_date days_to_keep true st) = st
  /\ forallb harmless
       (events (cleanup_old_files client strptime RETENTION_DAYS fuel
                  target_date days_to_keep true st)) = true.
Proof.
  destruct (cleanup_split client strptime RETENTION_DAYS fuel target_date
              days_to_keep true st)
    as [[evs0 [_ [Hl Hrun]]]|[all_files [evs0 [_ [Hl Hrun]]]]];
    rewrite Hrun; unfold store_after, events; cbn [fst snd].
  - split; [reflexivity|apply listing_harmless; exact Hl].
  - destruct (cleanup_spec client strptime
                (or_default RETENTION_DAYS days_to_keep) target_date true
                all_files st) as [st' [evs [Hc [Hdry Hsnd]]]].
    rewrite Hc. cbn [fst snd]. split; [apply Hdry; reflexivity|].
    rewrite forallb_app, (listing_harmless _ Hl). cbn [andb].
    apply forallb_forall. intros ev Hin.
    destruct (Hsnd ev Hin) as [files [k [_ [_ [_ ->]]]]]. reflexivity.
Qed.

(** C6, as stated, fails: the purge returns one count and no report. For
    the archive bucket a dry run returns 3, the number of expired keys, in
    the place where the real run returns 3 as the number it deleted; the
    dry run reports no [deleted = 0], though the store still holds its
    five objects while the real run leaves two. *)
Lemma dry_run_returns_the_expired_count :
  result (Scenario.purge Scenario.paged true Scenario.archive) = Val 3%nat
  /\ store_after (Scenario.purge Scenario.paged true Scenario.archive)
     = Scenario.archive
  /\ List.length (MemStore.objects Scenario.archive) = 5%nat
  /\ result (Scenario.purge Scenario.paged false Scenario.archive) = Val 3%nat
  /\ List.length
       (MemStore.objects
          (store_after (Scenario.purge Scenario.paged false Scenario.archive)))
     = 2%nat.
Proof. repeat split; vm_compute; reflexivity. Qed.

(** C6, amended. A dry run of [delete_old_files] over a complete listing
    issues no delete request and leaves the store as it was; the one value
    it returns is the number of expired keys, each of which it only logs.
    That value stands where a real run, against a store that answers its
    requests, returns the number it deleted: there is no separate deleted
    count and no error list. No dry run of [delete_old_files] or of
    [cleanup_old_files], whatever the store answers, changes the store or
    issues a delete request. *)
Theorem dry_run_purges_nothing {Store : Type} (c : Client Store) (now : Z)
  (fuel : nat) (retention_days : Z) (prefix : string) (st : Store)
  (cutoff_date : Z) (served : list (option string * ListResponse)) :
  Py.datetime_sub now retention_days = Some cutoff_date ->
  serves c st (Some prefix) None served Complete ->
  (List.length served <= fuel)%nat ->
  delete_old_files (Some c) now fuel retention_days prefix true st
  = (Val (List.length (expired_keys cutoff_date (objects_of served))), st,
     requests_of (Some prefix) served Complete
     ++ map LogWouldDelete (expired_keys cutoff_date (objects_of served)))
  /\ (forall client' now' fuel' days' prefix' (st' : Store),
        store_after (delete_old_files client' now' fuel' days' prefix' true st')
        = st'
        /\ forallb harmless
             (events (delete_old_files client' now' fuel' days' prefix' true
                        st')) = true)
  /\ (forall client' strptime RETENTION_DAYS fuel' target_date days'
             (st' : Store),
        store_after (cleanup_old_files client' strptime RETENTION_DAYS fuel'
                       target_date days' true st') = st'
        /\ forallb harmless
             (events (cleanup_old_files client' strptime RETENTION_DAYS fuel'
                        target_date days' true st')) = true)
  /\ (forall responses st',
        answers c st (batches_of (expired_keys cutoff_date (objects_of served)))
          responses st' ->
        result (delete_old_files (Some c) now fuel retention_days prefix false
                  st)
        = Val (total_deleted responses)).
Proof.
  intros Hcut Hs Hfuel. split; [|split; [|split]].
  - apply delete_old_files_dry_run; assumption.
  - intros. apply delete_old_files_dry_frame.
  - intros. apply cleanup_dry_frame.
  - intros responses st' Ha.
    erewrite delete_old_files_real_answers by eassumption. reflexivity.
Qed.

(** A dry run over the archive bucket: three of its five objects are
    expired. *)
Lemma dry_run_purges_nothing_witness :
  Scenario.purge Scenario.paged true Scenario.archive
  = (Val 3%nat, Scenario.archive,
     [ListObjectsV2 (Some "archive/") None;
      ListObjectsV2 (Some "archive/") (Some "archive/c.pdf");
      ListObjectsV2 (Some "archive/") (Some "archive/e.pdf");
      LogWouldDelete "archive/a.pdf"; LogWouldDelete "archive/b.pdf";
      LogWouldDelete "archive/d.pdf"]%string).
Proof.
  refine (proj1 (dry_run_purges_nothing Scenario.paged Scenario.now 10%nat 7
                   "archive/" Scenario.archive (Scenario.now - 7 * Py.US_PER_DAY)
                   (match explore 10 Scenario.paged Scenario.archive
                            (Some "archive/"%string) None with
                    | Some (served, _) => served
                    | None => []
                    end) _ _ _)).
  - vm_compute. reflexivity.
  - apply (explore_serves _ _ _ 10%nat). vm_compute. reflexivity.
  - vm_compute. lia.
Defined.

(** C3, as stated, fails: a purge whose listing request is refused and a
    purge of a bucket holding nothing expired return the same value, 0. *)
Lemma listing_failure_looks_like_nothing_to_purge :
  list_objects_v2 Scenario.unreachable Scenario.archive
    (Some "archive/"%string) None = Thrown ClientError
  /\ result (Scenario.purge Scenario.unreachable false Scenario.archive)
     = Val 0%nat
  /\ result (Scenario.purge Scenario.paged false Scenario.only_fresh)
     = Val 0%nat.
Proof. repeat split; vm_compute; reflexivity. Qed.

(** C3, amended. When the listing fails, on its first page or on a later
    one, [delete_old_files] issues no delete request, leaves the store as
    it was and returns 0, the value it also returns when a complete
    listing holds nothing expired. *)
Theorem listing_failure_returns_zero {Store : Type} (c : Client Store)
  (now : Z) (fuel : nat) (retention_days : Z) (prefix : string)
  (dry_run : bool) (st : Store) (cutoff_date : Z)
  (served : list (option string * ListResponse)) (token : option string)
  (e : Exception) :
  Py.datetime_sub now retention_days = Some cutoff_date ->
  serves c st (Some prefix) None served (Fails token e) ->
  (S (List.length served) <= fuel)%nat ->
  delete_old_files (Some c) now fuel retention_days prefix dry_run st
  = (Val 0%nat, st, requests_of (Some prefix) served (Fails token e))
  /\ (forall (c0 : Client Store) st0 served0,
        serves c0 st0 (Some prefix) None served0 Complete ->
        (List.length served0 <= fuel)%nat ->
        expired_keys cutoff_date (objects_of served0) = [] ->
        delete_old_files (Some c0) now fuel retention_days prefix dry_run st0
        = (Val 0%nat, st0, requests_of (Some prefix) served0 Complete)).
Proof.
  intros Hcut Hs Hfuel. split.
  - eapply delete_old_files_listing_fails; eassumption.
  - intros c0 st0 served0 Hs0 Hfuel0 Hnone.
    eapply delete_old_files_nothing_expired; eassumption.
Qed.

(** A listing of the archive bucket that fails on its second page. *)
Lemma listing_failure_returns_zero_witness :
  Scenario.purge Scenario.flaky false Scenario.archive
  = (Val 0%nat, Scenario.archive,
     [ListObjectsV2 (Some "archive/") None;
      ListObjectsV2 (Some "archive/") (Some "archive/c.pdf")]%string).
Proof.
  refine (proj1 (listing_failure_returns_zero Scenario.flaky Scenario.now
                   10%nat 7 "archive/" false Scenario.archive
                   (Scenario.now - 7 * Py.US_PER_DAY)
                   (match explore 10 Scenario.flaky Scenario.archive
                            (Some "archive/"%string) None with
                    | Some (served, _) => served
                    | None => []
                    end)
                   (Some "archive/c.pdf"%string) ClientError _ _ _)).
  - vm_compute. reflexivity.
  - apply (explore_serves _ _ _ 10%nat). vm_compute. reflexivity.
  - vm_compute. lia.
Defined.

(** C7, as stated, fails for [list_archive_files]: when the request for
    the second page is refused it returns the empty list, the value it
    returns for an empty bucket, and no error. *)
Lemma failed_archive_listing_returns_empty :
  list_objects_v2 Scenario.flaky Scenario.archive (Some "archive/"%string)
    (Some "archive/c.pdf"%string) = Thrown ClientError
  /\ list_archive_files (Some Scenario.flaky) Scenario.now 10 "archive/"
       false Scenario.archive
     = (Val [], Scenario.archive,
        [ListObjectsV2 (Some "archive/") None;
         ListObjectsV2 (Some "archive/") (Some "archive/c.pdf")]%string)
  /\ result (list_archive_files (Some Scenario.paged) Scenario.now 10
               "archive/" false Scenario.empty) = Val [].
Proof. repeat split; vm_compute; reflexivity. Qed.

(** C7, amended. Against a store that serves its pages, every page
    carrying its contents, [list_storage_files] follows the continuation
    tokens and returns the keys of all pages, in the order served, each
    once; [list_archive_files] does so for the objects under a prefix.
    When a request fails, neither returns a partial enumeration:
    [list_storage_files] returns [None], [list_archive_files] the empty
    list. *)
Theorem enumeration_over_pages {Store : Type} (c : Client Store) (now : Z)
  (fuel : nat) (prefix : string) (st : Store)
  (served_all served : list (option string * ListResponse))
  (ending_all ending : Ending) :
  serves c st None None served_all ending_all ->
  Forall has_contents served_all ->
  (List.length served_all <= fuel)%nat ->
  serves c st (Some prefix) None served ending ->
  (S (List.length served) <= fuel)%nat ->
  list_storage_files (Some c) fuel st
  = (Val (match ending_all with
          | Complete => Some (map Key (objects_of served_all))
          | Fails _ _ => None
          end), st, requests_of None served_all ending_all)
  /\ list_archive_files (Some c) now fuel prefix false st
     = (Val (match ending with
             | Complete => objects_of served
             | Fails _ _ => []
             end), st, requests_of (Some prefix) served ending).
Proof.
  intros Hall Hcont Hfuel_all Hs Hfuel. split.
  - apply list_storage_files_serves; assumption.
  - apply list_archive_files_serves; assumption.
Qed.

(** The archive bucket, two objects a page: three pages. *)
Lemma enumeration_over_pages_witness :
  list_storage_files (Some Scenario.paged) 10 Scenario.archive
  = (Val (Some ["archive/a.pdf"; "archive/b.pdf"; "archive/c.pdf";
                "archive/d.pdf"; "archive/e.pdf"]%string),
     Scenario.archive,
     [ListObjectsV2 None None; ListObjectsV2 None (Some "archive/c.pdf");
      ListObjectsV2 None (Some "archive/e.pdf")]%string)
  /\ list_archive_files (Some Scenario.paged) Scenario.now 10 "archive/"
       false Scenario.archive
     = (Val (MemStore.objects Scenario.archive), Scenario.archive,
        [ListObjectsV2 (Some "archive/") None;
         ListObjectsV2 (Some "archive/") (Some "archive/c.pdf");
         ListObjectsV2 (Some "archive/") (Some "archive/e.pdf")]%string).
Proof.
  refine (enumeration_over_pages Scenario.paged Scenario.now 10%nat
            "archive/" Scenario.archive
            (match explore 10 Scenario.paged Scenario.archive None None with
             | Some (served, _) => served
             | None => []
             end)
            (match explore 10 Scenario.paged Scenario.archive
                     (Some "archive/"%string) None with
             | Some (served, _) => served
             | None => []
             end)
            Complete Complete _ _ _ _ _).
  - apply (explore_serves _ _ _ 10%nat). vm_compute. reflexivity.
  - vm_compute. repeat constructor; discriminate.
  - vm_compute. lia.
  - apply (explore_serves _ _ _ 10%nat). vm_compute. reflexivity.
  - vm_compute. lia.
Defined.

Lemma range_2500 : Py.range 0 2500 1000 = [0; 1000; 2000]%nat.
Proof. vm_compute. reflexivity. Qed.

Lemma batches_of_2500 {A : Type} (files : list A) :
  List.length files = 2500%nat ->
  map (@List.length A) (batches_of files) = [1000; 1000; 500]%nat.
Proof.
  intros Hlen. unfold batches_of. rewrite Hlen, range_2500.
  cbn [map]. rewrite !slice_1000, !length_firstn, !length_skipn, Hlen.
  repeat f_equal; lia.
Qed.

(** C8, as stated, fails when a bulk-delete call raises: with 2001
    expired keys there are three batches, the second call fails with an
    error that is no [ClientError], and the third batch is never
    requested: two requests, not three, and the purge returns 0 although
    the first request deleted 1000 keys. *)
Lemma raising_call_cuts_the_requests_short :
  List.length (batches_of (map Key (MemStore.objects Cases.interrupted)))
  = 3%nat
  /\ result (Scenario.purge_all Scenario.bulk false Cases.interrupted)
     = Val 0%nat
  /\ map (fun ev => match ev with
                    | DeleteObjects batch => List.length batch
                    | _ => 0%nat
                    end)
       (filter is_mutation
          (events (Scenario.purge_all Scenario.bulk false Cases.interrupted)))
     = [1000; 1000]%nat
  /\ List.length
       (MemStore.objects
          (store_after
             (Scenario.purge_all Scenario.bulk false Cases.interrupted)))
     = 1001%nat.
Proof. repeat split; vm_compute; reflexivity. Qed.

(** C8, amended. A real purge over a complete listing cuts the expired
    keys, in order, into [ceil(n / 1000)] batches of at most 1000 keys
    (1000, 1000 and 500 for 2500 keys). Against a store that answers
    every bulk-delete request it issues one request per batch, in order,
    and returns the sum of the deleted counts of all the responses,
    whatever per-key errors they carry. A request that raises is the
    last one: the batches after it are never requested, and the purge
    returns the count of the answered batches for a [ClientError], 0 for
    any other exception. *)
Theorem bulk_delete_in_batches {Store : Type} (c : Client Store) (now : Z)
  (fuel : nat) (retention_days : Z) (prefix : string) (st : Store)
  (cutoff_date : Z) (served : list (option string * ListResponse)) :
  Py.datetime_sub now retention_days = Some cutoff_date ->
  serves c st (Some prefix) None served Complete ->
  (List.length served <= fuel)%nat ->
  (forall responses st',
      answers c st (batches_of (expired_keys cutoff_date (objects_of served)))
        responses st' ->
      delete_old_files (Some c) now fuel retention_days prefix false st
      = (Val (total_deleted responses), st',
         requests_of (Some prefix) served Complete
         ++ map DeleteObjects
              (batches_of (expired_keys cutoff_date (objects_of served)))))
  /\ (forall before batch after responses st1 e st2,
        batches_of (expired_keys cutoff_date (objects_of served))
        = before ++ batch :: after ->
        answers c st before responses st1 ->
        delete_objects c st1 batch = (Thrown e, st2) ->
        delete_old_files (Some c) now fuel retention_days prefix false st
        = (Val (if is_ClientError e then total_deleted responses else 0%nat),
           st2,
           requests_of (Some prefix) served Complete
           ++ map DeleteObjects (before ++ [batch])))
  /\ List.length (batches_of (expired_keys cutoff_date (objects_of served)))
     = ((List.length (expired_keys cutoff_date (objects_of served)) + 999)
        / 1000)%nat
  /\ Forall (fun batch => (List.length batch <= 1000)%nat)
       (batches_of (expired_keys cutoff_date (objects_of served)))
  /\ List.concat (batches_of (expired_keys cutoff_date (objects_of served)))
     = expired_keys cutoff_date (objects_of served)
  /\ (List.length (expired_keys cutoff_date (objects_of served)) = 2500%nat ->
      map (@List.length string)
        (batches_of (expired_keys cutoff_date (objects_of served)))
      = [1000; 1000; 500]%nat).
Proof.
  intros Hcut Hs Hfuel. repeat apply conj.
  - intros responses st' Ha.
    eapply delete_old_files_real_answers; eassumption.
  - intros before batch after responses st1 e st2 Hsplit Ha Hcall.
    eapply delete_old_files_real_stops; eassumption.
  - apply batches_of_length.
  - apply batches_of_bounded.
  - apply batches_of_concat.
  - apply batches_of_2500.
Qed.

(** 1001 expired keys, one of them refused by the store: two requests,
    and 1000 keys deleted in all. *)
Lemma bulk_delete_in_batches_witness :
  result (Scenario.purge_all Scenario.bulk false Scenario.guarded)
  = Val 1000%nat
  /\ map (fun ev => match ev with
                    | DeleteObjects batch => List.length batch
                    | _ => 0%nat
                    end)
       (filter is_mutation
          (events (Scenario.purge_all Scenario.bulk false Scenario.guarded)))
     = [1000; 1]%nat.
Proof.
  pose (served :=
          match explore 10 Scenario.bulk Scenario.guarded (Some ""%string)
                  None with
          | Some (served, _) => served
          | None => []
          end).
  pose (cutoff := Scenario.now - 7 * Py.US_PER_DAY).
  pose (answer :=
          match respond Scenario.bulk Scenario.guarded
                  (batches_of (expired_keys cutoff (objects_of served))) with
          | Some a => a
          | None => ([], Scenario.guarded)
          end).
  destruct (bulk_delete_in_batches Scenario.bulk Scenario.now 10%nat 7 ""
              Scenario.guarded cutoff served)
    as [Hrun _].
  - vm_compute. reflexivity.
  - apply (explore_serves _ _ _ 10%nat). vm_compute. reflexivity.
  - vm_compute. lia.
  - unfold Scenario.purge_all. rewrite (Hrun (fst answer) (snd answer)).
    + split; vm_compute; reflexivity.
    + apply respond_answers. vm_compute. reflexivity.
Defined.

(** C4, as stated, fails for a bulk-delete call that itself fails: with
    1001 expired keys there are two batches, the store refuses the first
    call with a [ClientError], and the second batch is never issued; the
    purge returns 0 and the store still holds every object. *)
Lemma refused_batch_ends_the_purge :
  List.length (batches_of (map Key (MemStore.objects Scenario.refusing)))
  = 2%nat
  /\ result (Scenario.purge_all Scenario.bulk false Scenario.refusing)
     = Val 0%nat
  /\ map (fun ev => match ev with
                    | DeleteObjects batch => List.length batch
                    | _ => 0%nat
                    end)
       (filter is_mutation
          (events (Scenario.purge_all Scenario.bulk false Scenario.refusing)))
     = [1000]%nat
  /\ List.length
       (MemStore.objects
          (store_after
             (Scenario.purge_all Scenario.bulk false Scenario.refusing)))
     = 1001%nat.
Proof. repeat split; vm_compute; reflexivity. Qed.

(** C4, amended. In a real purge over a complete listing, a batch the
    store answers, whatever per-key errors the response carries, does not
    end the purge: when the later batches are answered too, all of them
    are issued and the deleted counts of all responses are summed. A batch
    whose call raises ends it: no later batch is issued, and the purge
    returns the count of the earlier batches for a [ClientError], 0 for
    any other exception. *)
Theorem batch_failure_accounting {Store : Type} (c : Client Store) (now : Z)
  (fuel : nat) (retention_days : Z) (prefix : string) (st : Store)
  (cutoff_date : Z) (served : list (option string * ListResponse))
  (before after : list (list string)) (batch : list string)
  (responses : list DeleteResponse) (st1 : Store) :
  Py.datetime_sub now retention_days = Some cutoff_date ->
  serves c st (Some prefix) None served Complete ->
  (List.length served <= fuel)%nat ->
  batches_of (expired_keys cutoff_date (objects_of served))
  = before ++ batch :: after ->
  answers c st before responses st1 ->
  (forall response st2 responses' st3,
      delete_objects c st1 batch = (Returned response, st2) ->
      answers c st2 after responses' st3 ->
      delete_old_files (Some c) now fuel retention_days prefix false st
      = (Val (total_deleted (responses ++ response :: responses')), st3,
         requests_of (Some prefix) served Complete
         ++ map DeleteObjects (before ++ batch :: after)))
  /\ (forall e st2,
        delete_objects c st1 batch = (Thrown e, st2) ->
        delete_old_files (Some c) now fuel retention_days prefix false st
        = (Val (if is_ClientError e then total_deleted responses else 0%nat),
           st2,
           requests_of (Some prefix) served Complete
           ++ map DeleteObjects (before ++ [batch]))).
Proof.
  intros Hcut Hs Hfuel Hsplit Ha. split.
  - intros response st2 responses' st3 Hcall Hrest.
    rewrite <- Hsplit.
    eapply delete_old_files_real_answers; try eassumption.
    rewrite Hsplit. eapply answers_app; [exact Ha|].
    econstructor; eassumption.
  - intros e st2 Hcall.
    eapply delete_old_files_real_stops; eassumption.
Qed.

(** The archive bucket with one key the store refuses to delete: the
    response carries an error for it, the two other keys are deleted. *)
Lemma batch_failure_accounting_witness :
  result (Scenario.purge Scenario.paged false Scenario.guarded_archive)
  = Val 2%nat.
Proof.
  pose (served :=
          match explore 10 Scenario.paged Scenario.guarded_archive
                  (Some "archive/"%string) None with
          | Some (served, _) => served
          | None => []
          end).
  pose (cutoff := Scenario.now - 7 * Py.US_PER_DAY).
  pose (batch := ["archive/a.pdf"; "archive/b.pdf"; "archive/d.pdf"]%string).
  destruct (batch_failure_accounting Scenario.paged Scenario.now 10%nat 7
              "archive/" Scenario.guarded_archive cutoff served [] [] batch
              [] Scenario.guarded_archive)
    as [Hanswered _].
  - vm_compute. reflexivity.
  - apply (explore_serves _ _ _ 10%nat). vm_compute. reflexivity.
  - vm_compute. lia.
  - vm_compute. reflexivity.
  - constructor.
  - pose (response :=
            match fst (MemStore.delete_many Scenario.guarded_archive batch) with
            | Returned r => r
            | Thrown _ => mkDeleteResponse None None
            end).
    unfold Scenario.purge.
    rewrite (Hanswered response
               (snd (MemStore.delete_many Scenario.guarded_archive batch)) []
               (snd (MemStore.delete_many Scenario.guarded_archive batch))).
    + vm_compute. reflexivity.
    + vm_compute. reflexivity.
    + constructor.
Defined.

(* ===================================================================== *)
(** ** Further properties of main.py *)
(* ===================================================================== *)

Lemma url_of_truthy {Store : Type} (client : option (Client Store))
  (st : Store) (key u : string) :
  url_of client st key = Some u -> u <> EmptyString.
Proof.
  unfold url_of. destruct client as [c|]; [|discriminate].
  destruct (S3.generate_presigned_url c st key 3600) as [v|e]; [|discriminate].
  unfold Py.truthy. destruct (String.eqb_spec v EmptyString); cbn [negb];
    [discriminate|].
  intros H. inversion H; subst. assumption.
Qed.

(** X1. For one reference date and one retention window, whatever the
    window, no file is both linked and purged: a file whose URL
    [get_past_papers_from_storage] asks for is never proposed for deletion
    by [cleanup_old_files], in a real or a dry run, on the same or on a
    later state of the store. *)
Theorem linked_file_is_never_purged {Store : Type}
  (client : option (Client Store)) (strptime : string -> option Z)
  (strftime : Z -> string) (RETENTION_DAYS : Z) (fuel fuel' : nat)
  (target_date : Z) (days : option Z) (dry_run : bool) (st st' : Store)
  (filename : string) :
  In (GeneratePresignedUrl filename 3600)
    (events (get_past_papers_from_storage client strptime strftime
               RETENTION_DAYS fuel target_date days st)) ->
  ~ In (purge_request dry_run filename)
      (events (cleanup_old_files client strptime RETENTION_DAYS fuel'
                 target_date days dry_run st')).
Proof.
  intros Hlinked Hpurged.
  assert (Hcurrent : exists d,
            file_date_of strptime filename = Some d
            /\ target_date - (or_default RETENTION_DAYS days - 1) <= d).
  { destruct (get_past_papers_split client strptime strftime RETENTION_DAYS
                fuel target_date days st)
      as [[evs0 [_ [Hl Hrun]]]|[all_files [evs0 [_ [Hl Hrun]]]]];
      rewrite Hrun in Hlinked; unfold events in Hlinked; cbn [snd] in Hlinked.
    - apply (listing_event_inv _ _ Hl) in Hlinked. discriminate.
    - apply in_app_or in Hlinked. destruct Hlinked as [Hin|Hin].
      + apply (listing_event_inv _ _ Hl) in Hin. discriminate.
      + destruct (past_papers_spec client strptime strftime
                    (or_default RETENTION_DAYS days) target_date all_files st)
          as [links [evs [Hpp [_ [Hsel _]]]]].
        rewrite Hpp in Hin. cbn [snd] in Hin.
        destruct (Hsel _ Hin) as [files [d [k [_ [[_ [Hd [_ Hw]]] Heq]]]]].
        inversion Heq; subst k. exists d. split; [exact Hd|lia]. }
  destruct Hcurrent as [d [Hd Hlow]].
  destruct (cleanup_split client strptime RETENTION_DAYS fuel' target_date
              days dry_run st')
    as [[evs0 [_ [Hl Hrun]]]|[all_files [evs0 [_ [Hl Hrun]]]]];
    rewrite Hrun in Hpurged; unfold events in Hpurged; cbn [snd] in Hpurged.
  - apply (listing_event_inv _ _ Hl) in Hpurged.
    destruct dry_run; discriminate.
  - apply in_app_or in Hpurged. destruct Hpurged as [Hin|Hin].
    + apply (listing_event_inv _ _ Hl) in Hin. destruct dry_run; discriminate.
    + destruct (cleanup_spec client strptime (or_default RETENTION_DAYS days)
                  target_date dry_run all_files st')
        as [st2 [evs [Hc [_ Hsnd]]]].
      rewrite Hc in Hin. cbn [snd] in Hin.
      destruct (Hsnd _ Hin) as [files [k [_ [_ [[d' [Hd' Hlt]] Heq]]]]].
      assert (k = filename)
        by (unfold purge_request in Heq; destruct dry_run; congruence).
      subst k. rewrite Hd in Hd'. inversion Hd'. lia.
Qed.

(** The document of 2024-06-08 is linked for a window of three days, and
    not purged. *)
Lemma linked_file_is_never_purged_witness :
  ~ In (DeleteObject "2024-06-08_newspaper.pdf")
      (events (Scenario.cleanup 3 false Scenario.week)).
Proof.
  apply (linked_file_is_never_purged Scenario.client DefaultFormat.strptime
           DefaultFormat.strftime 7 10%nat 10%nat Scenario.target_date
           (Some 3) false Scenario.week Scenario.week
           "2024-06-08_newspaper.pdf").
  vm_compute. tauto.
Defined.

(** X3. Only newspaper files are linked: a key that lacks "newspaper" or
    ends in neither ".pdf" nor ".html" (a thumbnail, say) is never asked a
    URL for, whatever its date. *)
Theorem only_newspapers_are_linked {Store : Type}
  (client : option (Client Store)) (strptime : string -> option Z)
  (strftime : Z -> string) (RETENTION_DAYS : Z) (fuel : nat)
  (target_date : Z) (days : option Z) (st : Store) (filename : string) :
  is_newspaper filename = false ->
  ~ In (GeneratePresignedUrl filename 3600)
      (events (get_past_papers_from_storage client strptime strftime
                 RETENTION_DAYS fuel target_date days st)).
Proof.
  intros Hkind Hin.
  destruct (get_past_papers_split client strptime strftime RETENTION_DAYS
              fuel target_date days st)
    as [[evs0 [_ [Hl Hrun]]]|[all_files [evs0 [_ [Hl Hrun]]]]];
    rewrite Hrun in Hin; unfold events in Hin; cbn [snd] in Hin.
  - apply (listing_event_inv _ _ Hl) in Hin. discriminate.
  - apply in_app_or in Hin. destruct Hin as [Hin|Hin].
    + apply (listing_event_inv _ _ Hl) in Hin. discriminate.
    + destruct (past_papers_spec client strptime strftime
                  (or_default RETENTION_DAYS days) target_date all_files st)
        as [links [evs [Hpp [_ [Hsel _]]]]].
      rewrite Hpp in Hin. cbn [snd] in Hin.
      destruct (Hsel _ Hin) as [files [d [k [_ [[_ [_ [Hn _]]] Heq]]]]].
      inversion Heq; subst k. congruence.
Qed.

(** The thumbnail of 2024-06-08, a date of the window. *)
Lemma only_newspapers_are_linked_witness :
  ~ In (GeneratePresignedUrl "2024-06-08_thumbnail.jpg" 3600)
      (events (Scenario.get_past_papers 3 Scenario.week)).
Proof.
  apply (only_newspapers_are_linked Scenario.client DefaultFormat.strptime
           DefaultFormat.strftime 7 10%nat Scenario.target_date (Some 3)
           Scenario.week "2024-06-08_thumbnail.jpg").
  reflexivity.
Defined.

(** X4. Every link [get_past_papers_from_storage] returns pairs the
    formatted date of a newspaper file of the listing, dated in the
    window, with the non-empty URL the store signed for that file. *)
Theorem links_come_from_the_window {Store : Type}
  (client : option (Client Store)) (strptime : string -> option Z)
  (strftime : Z -> string) (RETENTION_DAYS : Z) (fuel : nat)
  (target_date : Z) (days : option Z) (st : Store)
  (all_files : option (list string)) (evs0 : list Event)
  (links : list (string * string)) (link : string * string) :
  list_storage_files client fuel st = (Val all_files, st, evs0) ->
  result (get_past_papers_from_storage client strptime strftime
            RETENTION_DAYS fuel target_date days st) = Val links ->
  In link links ->
  exists files file_date filename u,
    all_files = Some files
    /\ in_current strptime files
         (target_date - (or_default RETENTION_DAYS days - 1)) target_date
         file_date filename
    /\ url_of client st filename = Some u
    /\ u <> EmptyString
    /\ link = (strftime file_date, u).
Proof.
  intros Hlist Hres Hin.
  destruct (get_past_papers_split client strptime strftime RETENTION_DAYS
              fuel target_date days st)
    as [[evs [Habort _]]|[all_files' [evs [Hl' [_ Hrun]]]]];
    [rewrite Habort in Hlist; discriminate|].
  rewrite Hlist in Hl'. inversion Hl'; subst all_files' evs. clear Hl'.
  rewrite Hrun in Hres. unfold result at 1 in Hres. cbn [fst] in Hres.
  destruct (past_papers_spec client strptime strftime
              (or_default RETENTION_DAYS days) target_date all_files st)
    as [links' [evs [Hpp [_ [_ Hprov]]]]].
  rewrite Hpp in Hres. cbn [result fst] in Hres. inversion Hres; subst links'.
  destruct (Hprov link Hin) as [files [d [k [u [Hf [Hcur [Hu Heq]]]]]]].
  exists files, d, k, u. repeat split; try assumption;
    try (destruct Hcur as [? [? [? ?]]]; assumption || lia).
  eapply url_of_truthy. exact Hu.
Qed.

(** The first link for the week bucket. *)
Lemma links_come_from_the_window_witness :
  exists files file_date filename u,
    Some (map Key (MemStore.objects Scenario.week)) = Some files
    /\ in_current DefaultFormat.strptime files
         (Scenario.target_date - (3 - 1)) Scenario.target_date
         file_date filename
    /\ url_of Scenario.client Scenario.week filename = Some u
    /\ u <> EmptyString
    /\ ("2024-06-10"%string,
        "https://bucket.example/2024-06-10_newspaper.pdf?X-Amz-Signature=0"%string)
       = (DefaultFormat.strftime file_date, u).
Proof.
  refine (links_come_from_the_window Scenario.client DefaultFormat.strptime
            DefaultFormat.strftime 7 10%nat Scenario.target_date (Some 3)
            Scenario.week (Some (map Key (MemStore.objects Scenario.week)))
            (events (list_storage_files Scenario.client 10 Scenario.week))
            _ _ _ _ _).
  - vm_compute. reflexivity.
  - vm_compute. reflexivity.
  - left. reflexivity.
Defined.

Lemma delete_from_storage_request {Store : Type} (c : Client Store)
  (filename : string) (dry_run : bool) (st : Store) :
  exists deleted st',
    delete_from_storage (Some c) filename dry_run st
    = (Val deleted, st', [purge_request dry_run filename]).
Proof.
  unfold delete_from_storage, purge_request. destruct dry_run.
  - exists true, st. reflexivity.
  - unfold try_except, bind, call_delete_object, ret.
    destruct (delete_object c st filename) as [[u|e] st'].
    + exists true, st'. reflexivity.
    + exists false, st'. reflexivity.
Qed.

Lemma cleanup_loop_requests {Store : Type} (c : Client Store)
  (strptime : string -> option Z) (cutoff_date : Z) (dry_run : bool) :
  forall all_files deleted_count (st : Store),
  exists count st',
    cleanup_loop (Some c) strptime cutoff_date dry_run all_files
      deleted_count st
    = (Val count, st',
       map (purge_request dry_run)
         (filter (expired_name strptime cutoff_date) all_files)).
Proof.
  induction all_files as [|f rest IH]; intros n st.
  - exists n, st. reflexivity.
  - cbn [cleanup_loop filter]. unfold expired_name at 1.
    destruct (file_date_of strptime f) as [d|]; [|apply IH].
    destruct (d <? cutoff_date); [|apply IH].
    unfold bind.
    destruct (delete_from_storage_request c f dry_run st)
      as [deleted [st1 Hdel]].
    rewrite Hdel.
    destruct (IH (if deleted then S n else n) st1) as [count [st' Hrest]].
    rewrite Hrest. exists count, st'. reflexivity.
Qed.

(** X2. Once the listing is known and the cutoff is a date,
    [cleanup_old_files] returns, and what it asks of the store after the
    listing is exactly one deletion (one log line in a dry run) for each
    file of the listing dated before the cutoff, in listing order,
    whatever its kind and however the earlier deletions ended: a deletion
    that fails does not stop the loop. *)
Theorem cleanup_requests_every_expired_file {Store : Type}
  (c : Client Store) (strptime : string -> option Z) (RETENTION_DAYS : Z)
  (fuel : nat) (target_date : Z) (days_to_keep : option Z) (dry_run : bool)
  (st : Store) (files : list string) (evs0 : list Event) (cutoff_date : Z) :
  list_storage_files (Some c) fuel st = (Val (Some files), st, evs0) ->
  Py.date_sub target_date (or_default RETENTION_DAYS days_to_keep)
  = Some cutoff_date ->
  result (cleanup_old_files (Some c) strptime RETENTION_DAYS fuel
            target_date days_to_keep dry_run st) = Val tt
  /\ events (cleanup_old_files (Some c) strptime RETENTION_DAYS fuel
               target_date days_to_keep dry_run st)
     = evs0 ++ map (purge_request dry_run)
                 (filter (expired_name strptime cutoff_date) files).
Proof.
  intros Hlist Hcut.
  destruct (cleanup_split (Some c) strptime RETENTION_DAYS fuel target_date
              days_to_keep dry_run st)
    as [[evs [Habort _]]|[all_files [evs [Hl' [_ Hrun]]]]];
    [rewrite Habort in Hlist; discriminate|].
  rewrite Hlist in Hl'. inversion Hl'; subst all_files evs. clear Hl'.
  rewrite Hrun. unfold result at 1, events at 1. cbn [fst snd].
  assert (Hbody : exists st',
    try_except
      (cleanup_of (Some c) strptime (or_default RETENTION_DAYS days_to_keep)
         target_date dry_run (Some files))
      (fun _ => ret tt) st
    = (Val tt, st',
       map (purge_request dry_run)
         (filter (expired_name strptime cutoff_date) files))).
  { unfold cleanup_of. destruct files as [|f files];
      [exists st; reflexivity|].
    unfold try_except, bind, checked. rewrite Hcut.
    unfold ret at 1. cbn [app].
    destruct (cleanup_loop_requests c strptime cutoff_date dry_run
                (f :: files) 0%nat st) as [count [st' Hloop]].
    rewrite Hloop. unfold ret. cbn [app]. rewrite app_nil_r.
    exists st'. reflexivity. }
  destruct Hbody as [st' Hbody].
  rewrite Hbody. split; reflexivity.
Qed.

(** The week bucket on a store that refuses the first deletion: both
    expired files are asked for. *)
Lemma cleanup_requests_every_expired_file_witness :
  events (cleanup_old_files Scenario.client DefaultFormat.strptime 7 10
            Scenario.target_date (Some 3) false Cases.stubborn)
  = [ListObjectsV2 None None;
     ListObjectsV2 None (Some "2024-06-08_thumbnail.jpg");
     ListObjectsV2 None (Some "notes.txt");
     DeleteObject "2024-06-05_newspaper.pdf";
     DeleteObject "2024-06-06_newspaper.pdf"]%string.
Proof.
  refine (proj2 (cleanup_requests_every_expired_file
                   (MemStore.client 4 MemStore.no_fault)
                   DefaultFormat.strptime 7 10%nat Scenario.target_date
                   (Some 3) false Cases.stubborn
                   (map Key (MemStore.objects Cases.stubborn))
                   (events (list_storage_files Scenario.client 10
                              Cases.stubborn))
                   739044 _ _)).
  - vm_compute. reflexivity.
  - reflexivity.
Defined.

(** X5. A URL that cannot be issued costs only its own link. When the
    window holds no more documents than [days], every document of the
    window whose URL the store signs (non-empty) has its link in the
    result, whatever happens to the URL requests of the other files. *)
Theorem usable_links_survive_failures {Store : Type}
  (client : option (Client Store)) (strptime : string -> option Z)
  (strftime : Z -> string) (RETENTION_DAYS : Z) (fuel : nat)
  (target_date : Z) (days : option Z) (st : Store) (files : list string)
  (evs0 : list Event) (cutoff_date file_date : Z) (filename u : string) :
  list_storage_files client fuel st = (Val (Some files), st, evs0) ->
  Py.date_sub target_date (or_default RETENTION_DAYS days - 1)
  = Some cutoff_date ->
  Z.of_nat (List.length (windowed cutoff_date target_date
                           (collect_dated_files strptime files)))
  <= or_default RETENTION_DAYS days ->
  in_current strptime files cutoff_date target_date file_date filename ->
  url_of client st filename = Some u ->
  exists links,
    result (get_past_papers_from_storage client strptime strftime
              RETENTION_DAYS fuel target_date days st) = Val links
    /\ In (strftime file_date, u) links.
Proof.
  intros Hlist Hcut Hcap Hcur Hu.
  destruct (get_past_papers_split client strptime strftime RETENTION_DAYS
              fuel target_date days st)
    as [[evs [Habort _]]|[all_files [evs [Hl' [_ Hrun]]]]];
    [rewrite Habort in Hlist; discriminate|].
  rewrite Hlist in Hl'. inversion Hl'; subst all_files evs. clear Hl'.
  rewrite Hrun. unfold result at 1. cbn [fst].
  assert (Hne : files <> [])
    by (destruct Hcur as [Hin _]; intros ->; destruct Hin).
  rewrite (past_papers_under_cap client strptime strftime _ _ _ _ st
             Hne Hcut Hcap).
  eexists. split; [reflexivity|].
  apply sort_desc_In, in_flat_map. exists (file_date, filename). split.
  - apply windowed_In. exact Hcur.
  - unfold link_for. cbn [fst snd]. rewrite Hu. left. reflexivity.
Qed.

(** The signing of the document of 2024-06-09 fails; the link of
    2024-06-08 is still there. *)
Lemma usable_links_survive_failures_witness :
  exists links,
    result (get_past_papers_from_storage (Some Cases.unsigning)
              DefaultFormat.strptime DefaultFormat.strftime 7 10
              Scenario.target_date (Some 3) Scenario.week) = Val links
    /\ In ("2024-06-08"%string,
           "https://bucket.example/2024-06-08_newspaper.pdf?X-Amz-Signature=0"%string)
         links.
Proof.
  refine (usable_links_survive_failures (Some Cases.unsigning)
            DefaultFormat.strptime DefaultFormat.strftime 7 10%nat
            Scenario.target_date (Some 3) Scenario.week
            (map Key (MemStore.objects Scenario.week))
            (events (list_storage_files (Some Cases.unsigning) 10
                       Scenario.week))
            739045 739045 "2024-06-08_newspaper.pdf" _ _ _ _ _ _).
  - vm_compute. reflexivity.
  - reflexivity.
  - vm_compute. discriminate.
  - unfold in_current, Scenario.target_date.
    repeat split; try reflexivity; try lia. vm_compute. tauto.
  - reflexivity.
Defined.

(** X7. When the bucket cannot be listed (no client, or a failed request)
    or is empty, [get_past_papers_from_storage] returns the empty list and
    [cleanup_old_files] returns, both having asked the store nothing but
    the listing; the two causes give the same result. *)
Theorem no_listing_no_action {Store : Type}
  (client : option (Client Store)) (strptime : string -> option Z)
  (strftime : Z -> string) (RETENTION_DAYS : Z) (fuel : nat)
  (target_date : Z) (days : option Z) (dry_run : bool) (st : Store)
  (all_files : option (list string)) (evs0 : list Event) :
  list_storage_files client fuel st = (Val all_files, st, evs0) ->
  all_files = None \/ all_files = Some [] ->
  get_past_papers_from_storage client strptime strftime RETENTION_DAYS fuel
    target_date days st = (Val [], st, evs0)
  /\ cleanup_old_files client strptime RETENTION_DAYS fuel target_date days
       dry_run st = (Val tt, st, evs0).
Proof.
  intros Hlist Hempty. split.
  - unfold get_past_papers_from_storage.
    rewrite (try_except_bind_val _ _ _ _ _ _ _ Hlist).
    destruct Hempty as [-> | ->]; cbn; rewrite app_nil_r; reflexivity.
  - unfold cleanup_old_files.
    rewrite (try_except_bind_val _ _ _ _ _ _ _ Hlist).
    destruct Hempty as [-> | ->]; cbn; rewrite app_nil_r; reflexivity.
Qed.

(** A store that refuses the listing request. *)
Lemma no_listing_no_action_witness :
  get_past_papers_from_storage (Some Scenario.unreachable)
    DefaultFormat.strptime DefaultFormat.strftime 7 10 Scenario.target_date
    (Some 3) Scenario.week
  = (Val [], Scenario.week, [ListObjectsV2 None None])
  /\ cleanup_old_files (Some Scenario.unreachable) DefaultFormat.strptime 7
       10 Scenario.target_date (Some 3) false Scenario.week
     = (Val tt, Scenario.week, [ListObjectsV2 None None]).
Proof.
  apply (no_listing_no_action (Some Scenario.unreachable)
           DefaultFormat.strptime DefaultFormat.strftime 7 10%nat
           Scenario.target_date (Some 3) false Scenario.week None).
  - reflexivity.
  - left. reflexivity.
Defined.

(** X8. A retention so large that the cutoff is no date: the two
    operations of main.py swallow the overflow (no link, no deletion, no
    exception), while [delete_old_files], which computes its cutoff
    before its [try], raises [OverflowError] without contacting the
    store. *)
Theorem retention_out_of_range {Store : Type} (c : Client Store)
  (strptime : string -> option Z) (strftime : Z -> string)
  (RETENTION_DAYS : Z) (fuel : nat) (target_date : Z) (days : option Z)
  (now : Z) (prefix : string) (dry_run : bool) (st : Store)
  (all_files : option (list string)) (evs0 : list Event) :
  list_storage_files (Some c) fuel st = (Val all_files, st, evs0) ->
  (Py.date_sub target_date (or_default RETENTION_DAYS days - 1) = None ->
   get_past_papers_from_storage (Some c) strptime strftime RETENTION_DAYS
     fuel target_date days st = (Val [], st, evs0))
  /\ (Py.date_sub target_date (or_default RETENTION_DAYS days) = None ->
      cleanup_old_files (Some c) strptime RETENTION_DAYS fuel target_date
        days dry_run st = (Val tt, st, evs0))
  /\ (Py.datetime_sub now (or_default RETENTION_DAYS days) = None ->
      delete_old_files (Some c) now fuel (or_default RETENTION_DAYS days)
        prefix dry_run st = (Raise OverflowError, st, [])).
Proof.
  intros Hlist. repeat apply conj.
  - intros Hcut. unfold get_past_papers_from_storage.
    rewrite (try_except_bind_val _ _ _ _ _ _ _ Hlist).
    rewrite past_papers_of_nothing
      by (destruct all_files as [[|? ?]|]; auto).
    cbn. rewrite app_nil_r. reflexivity.
  - intros Hcut. unfold cleanup_old_files.
    rewrite (try_except_bind_val _ _ _ _ _ _ _ Hlist).
    unfold cleanup_of.
    destruct all_files as [[|f files]|];
      try (cbn; rewrite app_nil_r; reflexivity).
    unfold try_except, bind, checked. rewrite Hcut. cbn.
    rewrite app_nil_r. reflexivity.
  - intros Hcut. unfold delete_old_files, checked, bind. rewrite Hcut.
    reflexivity.
Qed.

(** A retention of a billion days. *)
Lemma retention_out_of_range_witness :
  get_past_papers_from_storage Scenario.client DefaultFormat.strptime
    DefaultFormat.strftime 7 10 Scenario.target_date (Some 1000000000)
    Scenario.week
  = (Val [], Scenario.week,
     events (list_storage_files Scenario.client 10 Scenario.week))
  /\ delete_old_files (Some Scenario.paged) Scenario.now 10 1000000000
       "archive/" false Scenario.archive
     = (Raise OverflowError, Scenario.archive, []).
Proof.
  destruct (retention_out_of_range (MemStore.client 4 MemStore.no_fault)
              DefaultFormat.strptime DefaultFormat.strftime 7 10%nat
              Scenario.target_date (Some 1000000000) Scenario.now "archive/"
              false Scenario.week
              (Some (map Key (MemStore.objects Scenario.week)))
              (events (list_storage_files Scenario.client 10 Scenario.week)))
    as [Hpapers _].
  - vm_compute. reflexivity.
  - split; [apply Hpapers; reflexivity|].
    apply (retention_out_of_range Scenario.paged DefaultFormat.strptime
             DefaultFormat.strftime 7 10%nat Scenario.target_date
             (Some 1000000000) Scenario.now "archive/" false Scenario.archive
             (Some (map Key (MemStore.objects Scenario.archive)))
             (events (list_storage_files (Some Scenario.paged) 10
                        Scenario.archive))).
    + vm_compute. reflexivity.
    + reflexivity.
Defined.

(** The descending sort really sorts, for an order that is total and
    transitive. *)
Section SortSorted.
Context {A K : Type} (ltb : K -> K -> bool) (key : A -> K).
Variable R : A -> A -> Prop.
Hypothesis lt_after : forall x y, ltb (key x) (key y) = true -> R y x.
Hypothesis ge_before : forall x y, ltb (key x) (key y) = false -> R x y.
Hypothesis R_trans : forall x y z, R x y -> R y z -> R x z.

Lemma insert_desc_sorted (x : A) (l : list A) :
  StronglySorted R l -> StronglySorted R (Py.insert_desc ltb key x l).
Proof using lt_after ge_before R_trans.
  induction 1 as [|y l Hl IH Hy]; cbn [Py.insert_desc].
  - repeat constructor.
  - destruct (ltb (key x) (key y)) eqn:Hxy.
    + constructor; [exact IH|].
      eapply Permutation_Forall; [apply insert_desc_perm|].
      constructor; [apply lt_after; exact Hxy|exact Hy].
    + constructor; [constructor; assumption|].
      constructor; [apply ge_before; exact Hxy|].
      eapply Forall_impl; [|exact Hy].
      intros z Hz. eapply R_trans; [apply ge_before; exact Hxy|exact Hz].
Qed.

Lemma sort_desc_sorted (l : list A) :
  StronglySorted R (Py.sort_desc ltb key l).
Proof using lt_after ge_before R_trans.
  induction l as [|x l IH]; cbn [Py.sort_desc fold_right].
  - constructor.
  - apply insert_desc_sorted. exact IH.
Qed.

End SortSorted.

Lemma string_compare_trans :
  forall a b c,
    String.compare a b <> Gt -> String.compare b c <> Gt ->
    String.compare a c <> Gt.
Proof.
  induction a as [|x a IH]; intros [|y b] [|z c]; cbn [String.compare];
    try congruence.
  unfold Ascii.compare.
  destruct (N.compare_spec (N_of_ascii x) (N_of_ascii y)) as [Hxy|Hxy|Hxy];
    destruct (N.compare_spec (N_of_ascii y) (N_of_ascii z)) as [Hyz|Hyz|Hyz];
    destruct (N.compare_spec (N_of_ascii x) (N_of_ascii z)) as [Hxz|Hxz|Hxz];
    try congruence; try (exfalso; lia).
  apply IH.
Qed.

Lemma string_leb_trans (a b c : string) :
  String.leb a b = true -> String.leb b c = true -> String.leb a c = true.
Proof.
  unfold String.leb. intros Hab Hbc.
  pose proof (string_compare_trans a b c) as H.
  destruct (String.compare a b); try discriminate;
    destruct (String.compare b c); try discriminate;
    destruct (String.compare a c); try reflexivity;
    exfalso; apply H; congruence.
Qed.

Lemma string_ltb_leb (a b : string) :
  String.ltb a b = true -> String.leb a b = true.
Proof.
  unfold String.ltb, String.leb. destruct (String.compare a b); congruence.
Qed.

Lemma string_not_ltb_leb (a b : string) :
  String.ltb a b = false -> String.leb b a = true.
Proof.
  unfold String.ltb, String.leb. rewrite (String.compare_antisym a b).
  destruct (String.compare b a); cbn [CompOpp]; congruence.
Qed.

Lemma by_date_string_sorted (links : list (string * string)) :
  StronglySorted not_before (Py.sort_desc String.ltb fst links).
Proof.
  apply sort_desc_sorted; unfold not_before.
  - intros x y. apply string_ltb_leb.
  - intros x y. apply string_not_ltb_leb.
  - intros x y z Hxy Hyz. eapply string_leb_trans; eassumption.
Qed.

(** X6. Whenever its listing returns, [get_past_papers_from_storage]
    returns its links most recent first by date string: no link is
    followed, at any distance, by one with a greater date string. *)
Theorem links_most_recent_first {Store : Type}
  (client : option (Client Store)) (strptime : string -> option Z)
  (strftime : Z -> string) (RETENTION_DAYS : Z) (fuel : nat)
  (target_date : Z) (days : option Z) (st : Store) :
  result (list_storage_files client fuel st) <> Abort ->
  exists links,
    result (get_past_papers_from_storage client strptime strftime
              RETENTION_DAYS fuel target_date days st) = Val links
    /\ StronglySorted not_before links.
Proof.
  intros Hlist.
  destruct (get_past_papers_split client strptime strftime RETENTION_DAYS
              fuel target_date days st)
    as [[evs0 [Habort _]]|[all_files [evs0 [_ [_ Hrun]]]]].
  - rewrite Habort in Hlist. exfalso. apply Hlist. reflexivity.
  - rewrite Hrun. unfold result at 1. cbn [fst].
    set (d := or_default RETENTION_DAYS days).
    assert (Hnothing :
      try_except (past_papers_of client strptime strftime d target_date
                    all_files) (fun _ => ret []) st = (Val [], st, []) ->
      exists links,
        result (try_except
                  (past_papers_of client strptime strftime d target_date
                     all_files) (fun _ => ret []) st) = Val links
        /\ StronglySorted not_before links).
    { intros ->. exists []. split; [reflexivity|constructor]. }
    destruct all_files as [[|f files]|];
      try (apply Hnothing, past_papers_of_nothing; exact I).
    destruct (Py.date_sub target_date (d - 1)) as [cutoff_date|] eqn:Hcut;
      [|apply Hnothing, past_papers_of_nothing; exact Hcut].
    destruct (gather_links_run client strftime d cutoff_date target_date st
                (dated_files_of strptime (f :: files)) [])
      as [links [evs [Hgather _]]].
    rewrite (past_papers_of_run client strptime strftime d target_date
               cutoff_date (f :: files) st links evs)
      by (try discriminate; assumption).
    eexists. split; [reflexivity|apply by_date_string_sorted].
Qed.

(** The three links of the week bucket. *)
Lemma links_most_recent_first_witness :
  exists links,
    result (Scenario.get_past_papers 3 Scenario.week) = Val links
    /\ StronglySorted not_before links.
Proof.
  apply (links_most_recent_first Scenario.client DefaultFormat.strptime
           DefaultFormat.strftime 7 10%nat Scenario.target_date (Some 3)
           Scenario.week).
  vm_compute. discriminate.
Defined.

(* ===================================================================== *)
(** ** Further properties of storage.py *)
(* ===================================================================== *)

Lemma In_firstn {A : Type} (x : A) :
  forall n l, In x (firstn n l) -> In x l.
Proof.
  induction n as [|n IH]; intros [|y l] H; cbn in H; try contradiction.
  destruct H as [->|H]; [left; reflexivity|right; apply IH; exact H].
Qed.

Lemma In_skipn {A : Type} (x : A) :
  forall n l, In x (skipn n l) -> In x l.
Proof.
  induction n as [|n IH]; intros [|y l] H; cbn in H; try contradiction;
    try exact H.
  right. apply IH. exact H.
Qed.

Lemma delete_batches_requests {Store : Type} (c : Client Store)
  (files : list string) :
  forall starts deleted_count (st : Store) ev,
    In ev (events (delete_batches c files starts deleted_count st)) ->
    exists i, ev = DeleteObjects (Py.slice files i (i + 1000)).
Proof.
  induction starts as [|i starts IH]; intros n st ev Hin.
  - destruct Hin.
  - cbn [delete_batches] in Hin. unfold call_delete_objects in Hin.
    destruct (delete_objects c st (Py.slice files i (i + 1000)))
      as [[response|e] st1].
    + destruct (delete_batches c files starts (n + deleted_in response) st1)
        as [[r st2] evs2] eqn:Hrest.
      unfold events in Hin. cbn [snd app] in Hin.
      destruct Hin as [<-|Hin]; [exists i; reflexivity|].
      apply (IH (n + deleted_in response)%nat st1 ev).
      rewrite Hrest. exact Hin.
    + unfold events in Hin.
      destruct (is_ClientError e); cbn [snd] in Hin;
        destruct Hin as [<-|[]]; exists i; reflexivity.
Qed.

Lemma delete_old_files_events {Store : Type} (c : Client Store) (now : Z)
  (fuel : nat) (retention_days : Z) (prefix : string) (dry_run : bool)
  (st : Store) :
  exists evs1 evs2,
    events (delete_old_files (Some c) now fuel retention_days prefix dry_run
              st) = evs1 ++ evs2
    /\ forallb is_listing evs1 = true
    /\ (evs2 = []
        \/ (exists keys, evs2 = map LogWouldDelete keys)
        \/ (dry_run = false
            /\ exists cutoff_date pages,
                 Py.datetime_sub now retention_days = Some cutoff_date
                 /\ paginate fuel c (Some prefix) None None st
                    = (Val pages, st, evs1)
                 /\ evs2
                    = events
                        (delete_batches c
                           (flat_map (marked_for_deletion cutoff_date) pages)
                           (Py.range 0
                              (List.length
                                 (flat_map (marked_for_deletion cutoff_date)
                                    pages)) 1000) 0%nat st))).
Proof.
  unfold delete_old_files, checked.
  destruct (Py.datetime_sub now retention_days) as [cutoff_date|];
    [|exists [], []; repeat split; auto].
  unfold bind at 1. unfold ret at 1. cbn [app].
  unfold try_except. unfold bind at 1.
  destruct (paginate_reads c (Some prefix) fuel None None st) as [Hst Hev].
  destruct (paginate fuel c (Some prefix) None None st) as [[r st1] evs1]
    eqn:Hpag.
  unfold store_after, events in Hst, Hev. cbn [fst snd] in Hst, Hev.
  subst st1. exists evs1.
  destruct r as [pages|e|].
  - destruct (flat_map (marked_for_deletion cutoff_date) pages)
      as [|k0 keys] eqn:Hfiles.
    + exists []. unfold ret, events. cbn [snd]. auto.
    + destruct dry_run.
      * unfold bind at 1. rewrite would_delete_run. unfold ret, events.
        cbn [snd]. rewrite !app_nil_r.
        exists (map LogWouldDelete (k0 :: keys)).
        split; [reflexivity|]. split; [exact Hev|].
        right. left. exists (k0 :: keys). reflexivity.
      * destruct (delete_batches c (k0 :: keys)
                    (Py.range 0 (List.length (k0 :: keys)) 1000) 0%nat st)
          as [[r st2] evs2] eqn:Hbatches.
        exists evs2. split.
        -- destruct r; unfold events, ret; cbn [snd]; rewrite ?app_nil_r;
             reflexivity.
        -- split; [exact Hev|]. right. right. split; [reflexivity|].
           exists cutoff_date, pages. split; [reflexivity|].
           split; [reflexivity|]. rewrite Hfiles, Hbatches. reflexivity.
  - exists []. unfold ret, events. cbn [snd]. rewrite app_nil_r. auto.
  - exists []. unfold events. cbn [snd]. rewrite app_nil_r. auto.
Qed.

(** X9. [delete_old_files] deletes nothing it has not seen expire: a key
    appears in a bulk-delete request only in a real run, only once the
    whole listing has been read, and only if a listed object carries it
    with a last modification strictly before the cutoff. It never deletes
    keys one by one. This holds whatever the store answers. *)
Theorem only_expired_objects_are_deleted {Store : Type} (c : Client Store)
  (now : Z) (fuel : nat) (retention_days : Z) (prefix : string)
  (dry_run : bool) (st : Store) (batch : list string) (key : string) :
  In (DeleteObjects batch)
    (events (delete_old_files (Some c) now fuel retention_days prefix
               dry_run st)) ->
  In key batch ->
  dry_run = false
  /\ (forall k,
        ~ In (DeleteObject k)
            (events (delete_old_files (Some c) now fuel retention_days
                       prefix dry_run st)))
  /\ exists cutoff_date pages evs0 page obj,
       Py.datetime_sub now retention_days = Some cutoff_date
       /\ paginate fuel c (Some prefix) None None st = (Val pages, st, evs0)
       /\ In page pages
       /\ In obj (page_contents page)
       /\ Key obj = key
       /\ LastModified obj < cutoff_date.
Proof.
  destruct (delete_old_files_events c now fuel retention_days prefix dry_run
              st) as [evs1 [evs2 [Hevents [Hl Hcases]]]].
  rewrite Hevents. intros Hin Hkey.
  assert (Hlisting : forall ev, In ev evs1 -> is_listing ev = true)
    by (intros ev; apply listing_event_inv; exact Hl).
  apply in_app_or in Hin. destruct Hin as [Hin|Hin];
    [apply Hlisting in Hin; discriminate|].
  destruct Hcases as [->|[[keys ->]|[Hreal [cutoff_date [pages [Hcut [Hpag ->]]]]]]].
  - destruct Hin.
  - apply in_map_iff in Hin. destruct Hin as [? [? _]]. discriminate.
  - split; [exact Hreal|]. split.
    + intros k Hk. apply in_app_or in Hk. destruct Hk as [Hk|Hk].
      * apply Hlisting in Hk. discriminate.
      * apply delete_batches_requests in Hk. destruct Hk as [i Hi].
        discriminate.
    + apply delete_batches_requests in Hin. destruct Hin as [i Hi].
      inversion Hi; subst batch.
      unfold Py.slice in Hkey. apply In_firstn, In_skipn in Hkey.
      apply in_flat_map in Hkey. destruct Hkey as [page [Hpage Hkey]].
      unfold marked_for_deletion in Hkey. apply in_map_iff in Hkey.
      destruct Hkey as [obj [Hobj Hold]]. apply filter_In in Hold.
      destruct Hold as [Hold Hlt]. apply Z.ltb_lt in Hlt.
      exists cutoff_date, pages, evs1, page, obj. auto 10.
Qed.

(** A real purge of the archive bucket: "archive/a.pdf" is in the request,
    and it had expired. *)
Lemma only_expired_objects_are_deleted_witness :
  exists cutoff_date pages evs0 page obj,
    Py.datetime_sub Scenario.now 7 = Some cutoff_date
    /\ paginate 10 Scenario.paged (Some "archive/"%string) None None
         Scenario.archive = (Val pages, Scenario.archive, evs0)
    /\ In page pages
    /\ In obj (page_contents page)
    /\ Key obj = "archive/a.pdf"%string
    /\ LastModified obj < cutoff_date.
Proof.
  refine (proj2 (proj2 (only_expired_objects_are_deleted Scenario.paged
                          Scenario.now 10%nat 7 "archive/" false
                          Scenario.archive
                          ["archive/a.pdf"; "archive/b.pdf";
                           "archive/d.pdf"]%string
                          "archive/a.pdf" _ _))).
  - vm_compute. tauto.
  - left. reflexivity.
Defined.

Lemma list_archive_files_run {Store : Type} (client : option (Client Store))
  (now : Z) (fuel : nat) (prefix : string) (dry_run : bool) (st : Store) :
  exists r evs,
    list_archive_files client now fuel prefix dry_run st = (r, st, evs)
    /\ forallb is_listing evs = true
    /\ (forall e, r <> Raise e)
    /\ (dry_run = true -> evs = [] /\ r <> Abort).
Proof.
  unfold list_archive_files. destruct client as [c|];
    [|exists (Val []), []; repeat split; intros; discriminate].
  destruct dry_run;
    [eexists; exists []; repeat split; intros; discriminate|].
  unfold try_except, bind.
  destruct (paginate_reads c (Some prefix) fuel None None st) as [Hst Hev].
  destruct (paginate fuel c (Some prefix) None None st) as [[r st1] evs1].
  unfold store_after, events in Hst, Hev. cbn [fst snd] in Hst, Hev.
  subst st1.
  destruct r as [pages|e|]; unfold ret; eexists; eexists;
    (split; [reflexivity|]); rewrite ?app_nil_r;
    repeat split; intros; try assumption; discriminate.
Qed.

(** X11. Listing never harms and never raises: [list_storage_files] and
    [list_archive_files] leave the store as it was, ask it nothing but
    listing requests, and never end in an exception, whatever the store
    answers; a dry run of [list_archive_files] asks the store nothing. *)
Theorem listing_is_read_only {Store : Type} (client : option (Client Store))
  (now : Z) (fuel : nat) (prefix : string) (dry_run : bool) (st : Store) :
  (store_after (list_storage_files client fuel st) = st
   /\ forallb is_listing (events (list_storage_files client fuel st)) = true
   /\ forall e, result (list_storage_files client fuel st) <> Raise e)
  /\ (store_after (list_archive_files client now fuel prefix dry_run st) = st
      /\ forallb is_listing
           (events (list_archive_files client now fuel prefix dry_run st))
         = true
      /\ (forall e,
            result (list_archive_files client now fuel prefix dry_run st)
            <> Raise e)
      /\ (dry_run = true ->
          events (list_archive_files client now fuel prefix dry_run st) = []
          /\ result (list_archive_files client now fuel prefix dry_run st)
             <> Abort)).
Proof.
  split; [apply list_storage_files_reads|].
  destruct (list_archive_files_run client now fuel prefix dry_run st)
    as [r [evs [Hrun [Hev [Hr Hdry]]]]].
  rewrite Hrun. unfold store_after, events, result. cbn [fst snd].
  repeat split; try assumption; apply Hdry; assumption.
Qed.

Lemma list_storage_files_first {Store : Type} (c : Client Store)
  (fuel : nat) (st : Store) (response : ListResponse) :
  list_objects_v2 c st None None = Returned response ->
  list_storage_files (Some c) fuel st
  = match Contents response with
    | None => (Val (Some []), st, [ListObjectsV2 None None])
    | Some contents =>
        match list_storage_files_loop fuel c response (map Key contents) st
        with
        | (Val files, st1, evs) =>
            (Val (Some files), st1, ListObjectsV2 None None :: evs)
        | (Raise _, st1, evs) =>
            (Val None, st1, ListObjectsV2 None None :: evs)
        | (Abort, st1, evs) => (Abort, st1, ListObjectsV2 None None :: evs)
        end
    end.
Proof.
  intros Hcall.
  unfold list_storage_files, try_except, bind, call_list_objects_v2.
  rewrite Hcall. destruct (Contents response) as [contents|];
    [|reflexivity].
  destruct (list_storage_files_loop fuel c response (map Key contents) st)
    as [[[files|e|] st1] evs]; unfold ret; cbn [app];
    rewrite ?app_nil_r; reflexivity.
Qed.

(** X10. The edges of [list_storage_files]. A first page without contents
    ends the listing at once with the empty list, truncated or not. A
    single page that is not truncated gives its keys. A truncated page
    without a continuation token, or a later page without contents, makes
    the listing fail with [None] rather than return the keys read so
    far. *)
Theorem list_storage_files_edges {Store : Type} (c : Client Store)
  (fuel : nat) (st : Store) (response : ListResponse) :
  list_objects_v2 c st None None = Returned response ->
  (Contents response = None ->
   list_storage_files (Some c) fuel st
   = (Val (Some []), st, [ListObjectsV2 None None]))
  /\ (forall contents,
        Contents response = Some contents ->
        IsTruncated response = false ->
        list_storage_files (Some c) fuel st
        = (Val (Some (map Key contents)), st, [ListObjectsV2 None None]))
  /\ (forall contents,
        Contents response = Some contents ->
        IsTruncated response = true ->
        NextContinuationToken response = None ->
        (1 <= fuel)%nat ->
        list_storage_files (Some c) fuel st
        = (Val None, st, [ListObjectsV2 None None]))
  /\ (forall contents token response',
        Contents response = Some contents ->
        IsTruncated response = true ->
        NextContinuationToken response = Some token ->
        list_objects_v2 c st None (Some token) = Returned response' ->
        Contents response' = None ->
        (1 <= fuel)%nat ->
        list_storage_files (Some c) fuel st
        = (Val None, st,
           [ListObjectsV2 None None; ListObjectsV2 None (Some token)])).
Proof.
  intros Hcall. rewrite (list_storage_files_first c fuel st response Hcall).
  repeat apply conj.
  - intros ->. reflexivity.
  - intros contents -> Htr.
    destruct fuel; cbn [list_storage_files_loop]; rewrite Htr; reflexivity.
  - intros contents -> Htr Htok Hfuel.
    destruct fuel as [|fuel]; [lia|].
    cbn [list_storage_files_loop]. rewrite Htr, Htok. reflexivity.
  - intros contents token response' -> Htr Htok Hcall' Hcont Hfuel.
    destruct fuel as [|fuel]; [lia|].
    cbn [list_storage_files_loop]. rewrite Htr, Htok.
    unfold bind, subscript, ret, raise, call_list_objects_v2.
    rewrite Hcall', Hcont. reflexivity.
Qed.

(** A store that answers a truncated page without a token, and one that
    answers an empty truncated page. *)
Lemma list_storage_files_edges_witness :
  list_storage_files (Some Cases.tokenless) 10 Scenario.archive
  = (Val None, Scenario.archive, [ListObjectsV2 None None])
  /\ list_storage_files (Some Cases.hollow) 10 Scenario.archive
     = (Val (Some []), Scenario.archive, [ListObjectsV2 None None]).
Proof.
  split.
  - refine (proj1 (proj2 (proj2
              (list_storage_files_edges Cases.tokenless 10%nat
                 Scenario.archive
                 (mkListResponse (Some (MemStore.objects Scenario.archive))
                    true None) eq_refl)))
              (MemStore.objects Scenario.archive) eq_refl eq_refl eq_refl _).
    lia.
  - exact (proj1 (list_storage_files_edges Cases.hollow 10%nat
                    Scenario.archive
                    (mkListResponse None true (Some "next"%string)) eq_refl)
             eq_refl).
Defined.

Lemma append_cancel_l (p a b : string) :
  (p ++ a)%string = (p ++ b)%string -> a = b.
Proof.
  induction p as [|ch p IH]; cbn [String.append]; intros H; [exact H|].
  inversion H. apply IH. assumption.
Qed.

Lemma append_length (a b : string) :
  String.length (a ++ b)%string = (String.length a + String.length b)%nat.
Proof.
  induction a as [|ch a IH]; cbn [String.append String.length];
    [reflexivity|rewrite IH; reflexivity].
Qed.

Lemma append_cancel_r (s : string) :
  forall a b, (a ++ s)%string = (b ++ s)%string -> a = b.
Proof.
  induction a as [|x a IH]; intros [|y b] H; cbn [String.append] in H.
  - reflexivity.
  - exfalso. apply (f_equal String.length) in H.
    cbn [String.length] in H. rewrite append_length in H. lia.
  - exfalso. apply (f_equal String.length) in H.
    cbn [String.length] in H. rewrite append_length in H. lia.
  - inversion H. f_equal. apply IH. assumption.
Qed.

(** X12. A dry run of [generate_presigned_url] needs a client but asks it
    nothing: it returns the placeholder URL of the key, which is never
    empty (so a caller's [if url:] accepts it) and differs for different
    keys. Without a client it returns [None], dry run or not. *)
Theorem simulated_urls {Store : Type} (c : Client Store) (expiration : Z)
  (st : Store) (s3_key : string) :
  generate_presigned_url (Some c) s3_key expiration true st
  = (Val (Some (simulated_url s3_key)), st, [])
  /\ Py.truthy (simulated_url s3_key) = true
  /\ (forall other, simulated_url s3_key = simulated_url other ->
                    s3_key = other)
  /\ (forall dry_run,
        generate_presigned_url (@None (Client Store)) s3_key expiration
          dry_run st = (Val None, st, [])).
Proof.
  repeat apply conj.
  - reflexivity.
  - reflexivity.
  - unfold simulated_url. intros other H.
    apply append_cancel_l in H. apply append_cancel_r in H. exact H.
  - intros dry_run. reflexivity.
Qed.

(* ===================================================================== *)
(** ** The lazily initialised client *)
(* ===================================================================== *)

Lemma get_s3_client_settled {Store Env : Type}
  (S3_BUCKET_NAME : option string)
  (new_client : Env -> Outcome (Client Store) * Env) (c : Client Store) :
  forall n env,
    get_s3_client_times S3_BUCKET_NAME new_client n (Some c) env
    = (Some c, env).
Proof. induction n as [|n IH]; intros env; cbn; auto. Qed.

(** X13. The client is created at most once. Once [get_s3_client] has
    returned a client, the module holds it, and any number of further calls
    return that same client without creating another (the environment is
    not touched). A failed attempt is not remembered: the module still
    holds no client, so the next call tries again. With no bucket name
    configured, no attempt is made at all. *)
Theorem client_is_created_once {Store Env : Type}
  (S3_BUCKET_NAME : option string)
  (new_client : Env -> Outcome (Client Store) * Env)
  (s3_client : option (Client Store)) (env env' : Env)
  (got s3_client' : option (Client Store)) :
  get_s3_client S3_BUCKET_NAME new_client s3_client env
  = (got, s3_client', env') ->
  s3_client' = got
  /\ (forall c n,
        got = Some c ->
        get_s3_client S3_BUCKET_NAME new_client s3_client' env'
        = (Some c, Some c, env')
        /\ get_s3_client_times S3_BUCKET_NAME new_client n s3_client' env'
           = (Some c, env'))
  /\ (got = None ->
      s3_client = None
      /\ get_s3_client S3_BUCKET_NAME new_client s3_client' env'
         = get_s3_client S3_BUCKET_NAME new_client None env')
  /\ (bucket_name_missing S3_BUCKET_NAME = true ->
      s3_client = None -> got = None /\ env' = env).
Proof.
  intros Hget.
  assert (Hsame : s3_client' = got).
  { unfold get_s3_client, init_s3_client in Hget.
    destruct s3_client as [c|]; [inversion Hget; reflexivity|].
    destruct (bucket_name_missing S3_BUCKET_NAME);
      [inversion Hget; reflexivity|].
    destruct (new_client env) as [[c|e] env1]; inversion Hget; reflexivity. }
  subst s3_client'. repeat apply conj.
  - reflexivity.
  - intros c n ->. split; [reflexivity|apply get_s3_client_settled].
  - intros ->. split; [|reflexivity].
    destruct s3_client as [c|]; [|reflexivity].
    cbn in Hget. inversion Hget.
  - intros Hmissing ->. unfold get_s3_client, init_s3_client in Hget.
    rewrite Hmissing in Hget. inversion Hget. split; reflexivity.
Qed.

(** Credentials arrive after a first failed attempt: the second call
    creates the client, the following ones reuse it. *)
Lemma client_is_created_once_witness :
  get_s3_client (Some "archive-bucket"%string) Cases.connect None 0%nat
  = (None, None, 1%nat)
  /\ get_s3_client_times (Some "archive-bucket"%string) Cases.connect 5
       (Some Scenario.paged) 2%nat
     = (Some Scenario.paged, 2%nat).
Proof.
  split; [reflexivity|].
  exact (proj2 (proj1 (proj2
           (client_is_created_once (Some "archive-bucket"%string)
              Cases.connect None 1%nat 2%nat (Some Scenario.paged)
              (Some Scenario.paged) eq_refl))
           Scenario.paged 5%nat eq_refl)).
Defined.

(* ===================================================================== *)
(** ** Properties of config.py *)
(* ===================================================================== *)

Lemma dict_get_set_same (key : string) (value : Value)
  (d : list (string * Value)) :
  Config.dict_get key (Config.dict_set key value d) = Some value.
Proof.
  induction d as [|[k v] d IH]; simpl.
  - now rewrite String.eqb_refl.
  - destruct (String.eqb k key) eqn:E; simpl; rewrite E; auto.
Qed.

Lemma dict_get_set_other (key key' : string) (value : Value)
  (d : list (string * Value)) :
  key <> key' ->
  Config.dict_get key' (Config.dict_set key value d) = Config.dict_get key' d.
Proof.
  intros Hne. induction d as [|[k v] d IH]; simpl.
  - destruct (String.eqb key key') eqn:E; auto.
    apply String.eqb_eq in E. contradiction.
  - destruct (String.eqb k key) eqn:E; simpl.
    + apply String.eqb_eq in E. subst k.
      destruct (String.eqb key key') eqn:E'; auto.
      apply String.eqb_eq in E'. contradiction.
    + now rewrite IH.
Qed.

Lemma dict_get_absent (key : string) (d : list (string * Value)) :
  ~ In key (map fst d) -> Config.dict_get key d = None.
Proof.
  induction d as [|[k v] d IH]; simpl; auto.
  intros Hn. destruct (String.eqb k key) eqn:E.
  - apply String.eqb_eq in E. tauto.
  - apply IH. tauto.
Qed.

Lemma dict_get_present (key : string) (value : Value)
  (d : list (string * Value)) :
  NoDup (map fst d) -> In (key, value) d ->
  Config.dict_get key d = Some value.
Proof.
  induction d as [|[k v] d IH]; simpl; [tauto|].
  intros Hnd [Heq | Hin].
  - inversion Heq; subst. now rewrite String.eqb_refl.
  - inversion Hnd as [|? ? Hnotin Hnd']; subst.
    destruct (String.eqb k key) eqn:E.
    + apply String.eqb_eq in E. subst k. exfalso. apply Hnotin.
      change key with (fst (key, value)). now apply in_map.
    + now apply IH.
Qed.

Lemma dict_get_keys (key : string) (d : list (string * Value)) :
  Config.dict_get key d = None -> ~ In key (map fst d).
Proof.
  induction d as [|[k v] d IH]; simpl; [tauto|].
  destruct (String.eqb k key) eqn:E; [discriminate|].
  intros Hg [Heq | Hin]; [|now apply IH].
  subst k. now rewrite String.eqb_refl in E.
Qed.

Lemma merge_unfold (items target : list (string * Value)) :
  Config.merge target (VDict items) = Config.merge_items items target.
Proof.
  revert target. induction items as [|[k v] items IH]; intros target.
  - reflexivity.
  - simpl. rewrite <- IH. reflexivity.
Qed.

Lemma merge_item_get_same (target : list (string * Value)) (key : string)
  (value : Value) :
  Config.dict_get key (Config.merge_item Config.merge target key value)
  = Some match Config.dict_get key target, value with
         | Some (VDict nested), VDict items =>
             VDict (Config.merge_items items nested)
         | _, _ => value
         end.
Proof.
  unfold Config.merge_item.
  destruct (Config.dict_get key target) as [[| | | | |nested]|];
    try apply dict_get_set_same.
  destruct value; apply dict_get_set_same.
Qed.

Lemma merge_item_get_other (target : list (string * Value))
  (key key' : string) (value : Value) :
  key <> key' ->
  Config.dict_get key' (Config.merge_item Config.merge target key value)
  = Config.dict_get key' target.
Proof.
  intros Hne. unfold Config.merge_item.
  destruct (Config.dict_get key target) as [[| | | | |nested]|];
    try (now apply dict_get_set_other).
  destruct value; now apply dict_get_set_other.
Qed.

Lemma merge_items_get_absent (key : string)
  (items target : list (string * Value)) :
  Config.dict_get key items = None ->
  Config.dict_get key (Config.merge_items items target)
  = Config.dict_get key target.
Proof.
  revert target. induction items as [|[k v] items IH]; intros target; simpl;
    auto.
  destruct (String.eqb k key) eqn:E; [discriminate|].
  intros Hg. rewrite IH by assumption.
  apply merge_item_get_other. intros ->. now rewrite String.eqb_refl in E.
Qed.

Lemma merge_items_get_present (key : string) (value : Value)
  (items target : list (string * Value)) :
  NoDup (map fst items) -> In (key, value) items ->
  Config.dict_get key (Config.merge_items items target)
  = Some match Config.dict_get key target, value with
         | Some (VDict nested), VDict items' =>
             VDict (Config.merge_items items' nested)
         | _, _ => value
         end.
Proof.
  revert target. induction items as [|[k v] items IH]; intros target;
    simpl; [tauto|].
  intros Hnd [Heq | Hin]; inversion Hnd as [|? ? Hnotin Hnd']; subst.
  - inversion Heq; subst.
    rewrite merge_items_get_absent by now apply dict_get_absent.
    apply merge_item_get_same.
  - assert (Hne : k <> key).
    { intros ->. apply Hnotin. change key with (fst (key, value)).
      now apply in_map. }
    rewrite IH by assumption.
    now rewrite merge_item_get_other.
Qed.

Lemma sets_lookup (d : list (string * Value)) (path : list string)
  (value : Value) :
  Config.sets d path value -> Config.lookup (VDict d) path = Some value.
Proof.
  induction 1 as [d key value Hnd Hin Hleaf
                 |d key nested rest value Hnd Hin Hsets IH]; simpl.
  - now rewrite (dict_get_present _ _ _ Hnd Hin).
  - now rewrite (dict_get_present _ _ _ Hnd Hin).
Qed.

Lemma leaves_alone_lookup (d : list (string * Value)) (path : list string) :
  Config.leaves_alone d path -> Config.lookup (VDict d) path = None.
Proof.
  induction 1 as [d key rest Hg|d key nested rest Hnd Hin Halone IH]; simpl.
  - now rewrite Hg.
  - now rewrite (dict_get_present _ _ _ Hnd Hin).
Qed.

Lemma merge_items_sets (items : list (string * Value)) (path : list string)
  (value : Value) :
  Config.sets items path value ->
  forall target,
    Config.lookup (VDict (Config.merge_items items target)) path = Some value.
Proof.
  induction 1 as [d key value Hnd Hin Hleaf
                 |d key nested rest value Hnd Hin Hsets IH]; intros target;
    simpl; rewrite (merge_items_get_present _ _ _ target Hnd Hin).
  - destruct (Config.dict_get key target) as [[| | | | |t]|]; auto.
    destruct value; auto. discriminate.
  - destruct (Config.dict_get key target) as [[| | | | |t]|];
      try (now apply sets_lookup).
    apply IH.
Qed.

Lemma merge_items_leaves_alone (items : list (string * Value))
  (path : list string) :
  Config.leaves_alone items path ->
  forall target,
    Config.lookup (VDict (Config.merge_items items target)) path
    = Config.lookup (VDict target) path.
Proof.
  induction 1 as [d key rest Hg|d key nested rest Hnd Hin Halone IH];
    intros target; simpl.
  - now rewrite merge_items_get_absent.
  - rewrite (merge_items_get_present _ _ _ target Hnd Hin).
    pose proof (leaves_alone_lookup _ _ Halone) as Hnone.
    destruct (Config.dict_get key target) as [[| | | | |t]|];
      try (rewrite Hnone; inversion Halone; reflexivity).
    apply IH.
Qed.

Lemma set_nested_value_eq (d : list (string * Value)) (key next : string)
  (rest : list string) (value : Value) :
  Config._set_nested_value (VDict d) (key :: next :: rest) value
  = match Config.dict_get key
            match Config.dict_get key d with
            | Some _ => d
            | None => Config.dict_set key (VDict []) d
            end
    with
    | Some nested =>
        match Config._set_nested_value nested (next :: rest) value with
        | Some nested' =>
            Some (VDict (Config.dict_set key nested'
                           match Config.dict_get key d with
                           | Some _ => d
                           | None => Config.dict_set key (VDict []) d
                           end))
        | None => None
        end
    | None => None
    end.
Proof. reflexivity. Qed.

Lemma set_nested_value_step (d : list (string * Value)) (key next : string)
  (rest : list string) (value result : Value) :
  Config._set_nested_value (VDict d) (key :: next :: rest) value
  = Some result ->
  exists nested nested',
    nested = match Config.dict_get key d with
             | Some v => v
             | None => VDict []
             end
    /\ Config._set_nested_value nested (next :: rest) value = Some nested'
    /\ Config.dict_get key
         match result with VDict r => r | _ => [] end = Some nested'
    /\ (forall other, key <> other ->
          Config.dict_get other match result with VDict r => r | _ => [] end
          = Config.dict_get other d)
    /\ Config.is_dict result = true.
Proof.
  rewrite set_nested_value_eq.
  destruct (Config.dict_get key d) as [v|] eqn:Hg.
  - rewrite Hg.
    destruct (Config._set_nested_value v (next :: rest) value)
      as [nested'|] eqn:Hrec; [|discriminate].
    intros [= <-]. exists v, nested'. repeat split; auto.
    + apply dict_get_set_same.
    + intros other Hne. now apply dict_get_set_other.
  - rewrite dict_get_set_same.
    destruct (Config._set_nested_value (VDict []) (next :: rest) value)
      as [nested'|] eqn:Hrec; [|discriminate].
    intros [= <-]. exists (VDict []), nested'. repeat split; auto.
    + apply dict_get_set_same.
    + intros other Hne. now rewrite !dict_get_set_other.
Qed.

Lemma set_nested_value_round_trip (path : list string) :
  forall config_dict value result,
    Config._set_nested_value config_dict path value = Some result ->
    Config.lookup result path = Some value.
Proof.
  induction path as [|key rest IH]; intros config_dict value result;
    [discriminate|].
  destruct rest as [|next rest].
  - cbn [Config._set_nested_value]. destruct config_dict; try discriminate.
    intros [= <-]. cbn [Config.lookup]. now rewrite dict_get_set_same.
  - destruct config_dict as [| | | | |d];
      try (cbn [Config._set_nested_value]; discriminate).
    intros Hset.
    destruct (set_nested_value_step _ _ _ _ _ _ Hset)
      as (nested & nested' & _ & Hrec & Hget & _ & Hdict).
    destruct result; try discriminate.
    cbn [Config.lookup] in *. rewrite Hget. eapply IH; eauto.
Qed.

Lemma lookup_in_empty (key : string) (rest : list string) :
  Config.lookup (VDict []) (key :: rest) = None.
Proof. reflexivity. Qed.

Lemma set_nested_value_frame (common : list string) :
  forall config_dict a b rest rest' value result,
    Config._set_nested_value config_dict (common ++ a :: rest) value
    = Some result ->
    a <> b ->
    Config.lookup result (common ++ b :: rest')
    = Config.lookup config_dict (common ++ b :: rest').
Proof.
  induction common as [|c common IH];
    intros config_dict a b rest rest' value result Hset Hne.
  - cbn [app] in *. destruct rest as [|next rest].
    + cbn [Config._set_nested_value] in Hset.
      destruct config_dict; try discriminate.
      injection Hset as <-. cbn [Config.lookup].
      now rewrite dict_get_set_other.
    + destruct config_dict as [| | | | |d];
        try (cbn [Config._set_nested_value] in Hset; discriminate).
      destruct (set_nested_value_step _ _ _ _ _ _ Hset)
        as (nested & nested' & _ & _ & _ & Hother & Hdict).
      destruct result; try discriminate.
      cbn [Config.lookup]. now rewrite (Hother b Hne).
  - cbn [app] in *.
    destruct (common ++ a :: rest) as [|next tail] eqn:Htail.
    { now destruct common. }
    destruct config_dict as [| | | | |d];
      try (cbn [Config._set_nested_value] in Hset; discriminate).
    destruct (set_nested_value_step _ _ _ _ _ _ Hset)
      as (nested & nested' & Hnested & Hrec & Hget & _ & Hdict).
    destruct result; try discriminate.
    cbn [Config.lookup]. rewrite Hget.
    rewrite <- Htail in Hrec.
    rewrite (IH _ _ _ _ rest' _ _ Hrec Hne). subst nested.
    destruct (Config.dict_get c d); auto.
    destruct common; reflexivity.
Qed.

(** X14. A setting of the YAML file overrides the default. When the
    document is a mapping whose nested mappings have distinct keys and
    lead along [path] to a value that is no mapping, [load] ends normally
    and [get] then returns that value at [path], whatever the
    configuration held there before (a value, a mapping or nothing). *)
Theorem yaml_setting_overrides_default (config items : list (string * Value))
  (config_path : string) (path : list string) (value default : Value) :
  Py.truthy config_path = true ->
  Config.sets items path value ->
  exists config',
    Config.load_yaml config config_path (Config.Parsed (VDict items))
    = Some config'
    /\ Config.get config' path default = value.
Proof.
  intros Hpath Hsets. unfold Config.load_yaml. rewrite Hpath.
  assert (Htruthy : Config.truthy (VDict items) = true).
  { inversion Hsets; subst; destruct items; simpl in *; tauto. }
  rewrite Htruthy. cbn [Config._merge_config]. eexists. split; [reflexivity|].
  unfold Config.get. now rewrite (merge_items_sets _ _ _ Hsets).
Qed.

Lemma yaml_setting_overrides_default_witness :
  exists config',
    Config.load_yaml Config.defaults "config.yaml"
      (Config.Parsed (VDict Cases.yaml_retention)) = Some config'
    /\ Config.get config' ["general"; "retention_days"]%string VNone
       = VInt 30.
Proof.
  apply (yaml_setting_overrides_default Config.defaults Cases.yaml_retention
           "config.yaml" ["general"; "retention_days"]%string (VInt 30)
           VNone); [reflexivity|].
  apply Config.sets_below with (nested := [("retention_days", VInt 30)]%string).
  - repeat constructor. simpl. tauto.
  - simpl. auto.
  - apply Config.sets_here.
    + repeat constructor. simpl. tauto.
    + simpl. auto.
    + reflexivity.
Defined.

(** X15. What the YAML file does not mention keeps its value. When, along
    [path], the document runs out at some depth (the key is missing there,
    the mappings before having distinct keys), [load] ends normally and
    [get] returns at [path] what it returned before [load], default
    included: merging replaces no sibling of what the file sets. *)
Theorem unmentioned_setting_keeps_its_value
  (config items : list (string * Value)) (config_path : string)
  (path : list string) (default : Value) :
  Config.leaves_alone items path ->
  exists config',
    Config.load_yaml config config_path (Config.Parsed (VDict items))
    = Some config'
    /\ Config.get config' path default = Config.get config path default.
Proof.
  intros Halone. unfold Config.load_yaml.
  destruct (Py.truthy config_path); [|eauto].
  destruct (Config.truthy (VDict items)); [|eauto].
  cbn [Config._merge_config]. eexists. split; [reflexivity|].
  unfold Config.get. now rewrite (merge_items_leaves_alone _ _ Halone).
Qed.

Lemma unmentioned_setting_keeps_its_value_witness :
  exists config',
    Config.load_yaml Config.defaults "config.yaml"
      (Config.Parsed (VDict Cases.yaml_retention)) = Some config'
    /\ Config.get config' ["general"; "date_format"]%string VNone
       = VStr "%Y-%m-%d".
Proof.
  apply (unmentioned_setting_keeps_its_value Config.defaults
           Cases.yaml_retention "config.yaml"
           ["general"; "date_format"]%string VNone).
  apply Config.alone_below
    with (nested := [("retention_days", VInt 30)]%string).
  - repeat constructor. simpl. tauto.
  - simpl. auto.
  - apply Config.alone_here. reflexivity.
Defined.

(** X16. When [load] lets an exception out, and when it changes nothing.
    An exception leaves [load] exactly when [load_dotenv] raises one its
    handlers do not name, or a path is given and either reading the file
    raises one the handlers do not name (a file that is not UTF-8, say) or
    the document is truthy and no mapping (a list or a string): none of
    the handlers catches the [AttributeError] of [source.items()]. When
    [load_dotenv] is caught or returns, and there is no path, or the file
    raises an exception the handlers name, or the document is falsy, the
    configuration stays as it was. *)
Theorem when_load_lets_an_exception_out (config : list (string * Value))
  (dotenv : option Config.Raised) (config_path : string)
  (read : Config.YamlRead) :
  (Config.load config dotenv config_path read = None <->
   dotenv = Some Config.Unnamed
   \/ (Py.truthy config_path = true
       /\ (read = Config.ReadError Config.Unnamed
           \/ exists document,
                read = Config.Parsed document
                /\ Config.truthy document = true
                /\ Config.is_dict document = false)))
  /\ (dotenv <> Some Config.Unnamed ->
      Py.truthy config_path = false
      \/ read = Config.ReadError Config.Named
      \/ (exists document,
            read = Config.Parsed document
            /\ Config.truthy document = false) ->
      Config.load config dotenv config_path read = Some config).
Proof.
  assert (Hyaml :
            Config.load_yaml config config_path read = None <->
            Py.truthy config_path = true
            /\ (read = Config.ReadError Config.Unnamed
                \/ exists document,
                     read = Config.Parsed document
                     /\ Config.truthy document = true
                     /\ Config.is_dict document = false)).
  { unfold Config.load_yaml. split.
    - destruct (Py.truthy config_path); [|discriminate].
      destruct read as [document|[|]]; try discriminate.
      + destruct (Config.truthy document) eqn:Ht; [|discriminate].
        destruct document; try discriminate; intros _;
          (split; [reflexivity|right; eexists; eauto]).
      + intros _. split; [reflexivity|left; reflexivity].
    - intros [-> [-> | (document & -> & -> & Hd)]]; [reflexivity|].
      destruct document; try reflexivity. discriminate. }
  split.
  - unfold Config.load. destruct dotenv as [[|]|].
    + rewrite Hyaml. split; [tauto|]. intros [H|H]; [discriminate|exact H].
    + split; [tauto|reflexivity].
    + rewrite Hyaml. split; [tauto|]. intros [H|H]; [discriminate|exact H].
  - intros Hdotenv Hquiet.
    assert (Hload : Config.load config dotenv config_path read
                    = Config.load_yaml config config_path read).
    { unfold Config.load. destruct dotenv as [[|]|]; congruence. }
    rewrite Hload. unfold Config.load_yaml.
    destruct Hquiet as [-> | [-> | (document & -> & Ht)]].
    + reflexivity.
    + now destruct (Py.truthy config_path).
    + rewrite Ht. now destruct (Py.truthy config_path).
Qed.

(** X17. [_set_nested_value] and [get] agree. When setting [value] at
    [path] succeeds, looking up [path] gives [value], mappings having been
    created on the way where they were missing; and a lookup that leaves
    [path] at any depth gives what it gave before. *)
Theorem nested_set_then_get (config_dict : Value) (path : list string)
  (value result : Value) :
  Config._set_nested_value config_dict path value = Some result ->
  Config.lookup result path = Some value
  /\ forall common a b rest rest',
       path = common ++ a :: rest -> a <> b ->
       Config.lookup result (common ++ b :: rest')
       = Config.lookup config_dict (common ++ b :: rest').
Proof.
  intros Hset. split.
  - eapply set_nested_value_round_trip; eauto.
  - intros common a b rest rest' -> Hne.
    eapply set_nested_value_frame; eauto.
Qed.

Lemma nested_set_then_get_witness :
  exists result,
    Config._set_nested_value (VDict Config.defaults)
      ["storage"; "bucket_name"]%string (VStr "archive") = Some result
    /\ Config.lookup result ["storage"; "bucket_name"]%string
       = Some (VStr "archive")
    /\ Config.lookup result ["storage"; "region"]%string
       = Some (VStr "us-east-1").
Proof.
  eexists. split; [reflexivity|].
  pose proof (nested_set_then_get (VDict Config.defaults)
                ["storage"; "bucket_name"]%string (VStr "archive") _
                eq_refl) as [Hget Hframe].
  split; [exact Hget|].
  etransitivity;
    [exact (Hframe ["storage"%string] "bucket_name"%string "region"%string
              [] [] eq_refl ltac:(discriminate))
    |reflexivity].
Defined.

(* ===================================================================== *)
(** ** Properties of email_sender.py *)
(* ===================================================================== *)

Lemma split_free (sep : ascii) (s : string) :
  Forall (fun piece => Email.has_char sep piece = false) (Email.split sep s).
Proof.
  induction s as [|c rest IH]; simpl.
  - repeat constructor.
  - destruct (Ascii.eqb c sep) eqn:E.
    + constructor; auto.
    + destruct (Email.split sep rest) as [|piece pieces].
      * repeat constructor. simpl. now rewrite E.
      * inversion IH; subst. constructor; auto. simpl. now rewrite E.
Qed.

Lemma lstrip_free (c : ascii) (s : string) :
  Email.has_char c s = false -> Email.has_char c (Email.lstrip s) = false.
Proof.
  induction s as [|a rest IH]; simpl; auto.
  intros H. apply orb_false_elim in H as [Ha Hrest].
  destruct (Email.isspace a); auto. simpl. now rewrite Ha, Hrest.
Qed.

Lemma rstrip_free (c : ascii) (s : string) :
  Email.has_char c s = false -> Email.has_char c (Email.rstrip s) = false.
Proof.
  induction s as [|a rest IH]; simpl; auto.
  intros H. apply orb_false_elim in H as [Ha Hrest].
  specialize (IH Hrest).
  destruct (Email.rstrip rest) as [|t ts].
  - destruct (Email.isspace a); simpl; auto. now rewrite Ha.
  - cbn [Email.has_char] in *. now rewrite Ha, IH.
Qed.

Lemma rstrip_idempotent (s : string) :
  Email.rstrip (Email.rstrip s) = Email.rstrip s.
Proof.
  induction s as [|a rest IH]; simpl; auto.
  destruct (Email.rstrip rest) as [|t ts] eqn:E.
  - destruct (Email.isspace a) eqn:Ea; simpl; auto. now rewrite Ea.
  - cbn [Email.rstrip]. cbn [Email.rstrip] in IH. now rewrite IH.
Qed.

Lemma strip_idempotent (s : string) :
  Email.strip (Email.strip s) = Email.strip s.
Proof.
  unfold Email.strip.
  assert (Hhead : Email.lstrip s = EmptyString
                  \/ exists c t, Email.lstrip s = String c t
                                 /\ Email.isspace c = false).
  { induction s as [|a rest IH]; simpl; auto.
    destruct (Email.isspace a) eqn:Ea; eauto. }
  destruct Hhead as [-> | (c & t & -> & Hc)]; [reflexivity|].
  assert (Hkeep : exists t', Email.rstrip (String c t) = String c t').
  { simpl. destruct (Email.rstrip t); [rewrite Hc|]; eauto. }
  destruct Hkeep as (t' & Hkeep).
  rewrite Hkeep. cbn [Email.lstrip]. rewrite Hc.
  rewrite <- Hkeep. apply rstrip_idempotent.
Qed.

(** X18. The recipients of [send_email]. From a string, every recipient is
    an address it can use: not empty, free of commas, without white space
    at either end. From a list this fails: an entry made of white space
    passes the filter and is stripped to the empty address. *)
Theorem recipients_from_a_string_are_clean (s : string) :
  (exists recipients,
     Email.recipients_of (VStr s) = Some recipients
     /\ Forall (fun recipient => Email.clean recipient = true) recipients)
  /\ forall items e,
       In (VStr e) items -> e <> EmptyString ->
       Email.strip e = EmptyString ->
       exists recipients,
         Email.recipients_of (VList items) = Some recipients
         /\ In EmptyString recipients.
Proof.
  split.
  - eexists. split; [reflexivity|].
    apply Forall_forall. intros recipient Hin.
    apply in_map_iff in Hin as (piece & <- & Hin).
    apply filter_In in Hin as [Hin Htruthy].
    pose proof (split_free "," s) as Hfree.
    rewrite Forall_forall in Hfree. specialize (Hfree piece Hin).
    unfold Email.clean. rewrite Htruthy, strip_idempotent, String.eqb_refl.
    unfold Email.strip. rewrite rstrip_free by now apply lstrip_free.
    reflexivity.
  - intros items e Hin Hne Hblank. eexists. split; [reflexivity|].
    apply in_flat_map. exists (VStr e). split; auto.
    assert (Ht : Py.truthy e = true).
    { unfold Py.truthy. destruct (String.eqb e EmptyString) eqn:E; auto.
      apply String.eqb_eq in E. contradiction. }
    rewrite Ht, Hblank. simpl. auto.
Qed.

Lemma recipients_from_a_string_are_clean_witness :
  Email.recipients_of (VStr " ann@example.org, ,bob@example.org,")
  = Some ["ann@example.org"; "bob@example.org"]%string
  /\ exists recipients,
       Email.recipients_of (VList [VStr "ann@example.org"; VStr " "])
       = Some recipients
       /\ In EmptyString recipients.
Proof.
  split; [reflexivity|].
  apply (proj2 (recipients_from_a_string_are_clean EmptyString)
           [VStr "ann@example.org"; VStr " "] " "%string).
  - simpl. auto.
  - discriminate.
  - reflexivity.
Defined.

(** A run of [send_email] that ends before any transport is used. *)
Ltac quiet_run :=
  intros [= <- <- <-];
  split; [auto|];
  split;
  [intros _; split;
   [reflexivity
   |eexists; split; [reflexivity|first [discriminate|reflexivity]]]
  |intros ? []].

(** X19. [send_email] hands a message to a transport at most once, and
    never in a dry run. A message handed over goes to the recipients
    computed from [EMAIL_TO], which are not none, with the subject of the
    target date and the rendered HTML; SendGrid is used whenever its key
    is configured, SMTP only otherwise, and the result is the transport's.
    When nothing is handed over the world is as before, no exception
    leaves, and [True] is returned only by a dry run. *)
Theorem email_is_handed_over_at_most_once {World : Type}
  (EMAIL_FROM EMAIL_TO SENDGRID_API_KEY SMTP_HOST SMTP_USER SMTP_PASSWORD :
     Value)
  (EMAIL_SUBJECT_PREFIX : string) (strftime : Z -> string)
  (isdir isfile : World -> bool)
  (render : Z -> string -> list (string * string) -> bool -> World ->
            Outcome string)
  (_send_with_sendgrid _send_with_smtp :
     list string -> string -> string -> option string -> World ->
     Outcome bool * World)
  (target_date : Z) (today_paper_url : string)
  (past_papers : list (string * string)) (thumbnail_path : option string)
  (dry_run : bool) (world world' : World) (sent : Outcome bool)
  (trace : list Email.Handed) :
  Email.send_email EMAIL_FROM EMAIL_TO SENDGRID_API_KEY SMTP_HOST SMTP_USER
    SMTP_PASSWORD EMAIL_SUBJECT_PREFIX strftime isdir isfile render
    _send_with_sendgrid _send_with_smtp target_date today_paper_url
    past_papers thumbnail_path dry_run world = (sent, world', trace) ->
  (dry_run = true -> trace = [])
  /\ (trace = [] ->
      world' = world
      /\ exists b, sent = Returned b /\ (b = true -> dry_run = true))
  /\ (forall h, In h trace ->
        trace = [h]
        /\ Config.truthy EMAIL_FROM = true
        /\ Email.recipients_of EMAIL_TO = Some (Email.to_emails h)
        /\ Email.to_emails h <> []
        /\ Email.subject_line h
           = (EMAIL_SUBJECT_PREFIX ++ " - " ++ strftime target_date)%string
        /\ (exists has_thumbnail,
              render target_date today_paper_url past_papers has_thumbnail
                world = Returned (Email.html h))
        /\ (Config.truthy SENDGRID_API_KEY = true ->
            Email.via h = Email.SendGrid
            /\ _send_with_sendgrid (Email.to_emails h) (Email.subject_line h)
                 (Email.html h) thumbnail_path world = (sent, world'))
        /\ (Config.truthy SENDGRID_API_KEY = false ->
            Email.via h = Email.Smtp
            /\ _send_with_smtp (Email.to_emails h) (Email.subject_line h)
                 (Email.html h) thumbnail_path world = (sent, world'))).
Proof.
  unfold Email.send_email.
  destruct (Config.truthy EMAIL_FROM) eqn:Hfrom; cbn [negb orb];
    [|quiet_run].
  destruct (Config.truthy EMAIL_TO) eqn:Hto; cbn [negb]; [|quiet_run].
  destruct (Email.recipients_of EMAIL_TO) as [[|first others]|] eqn:Hrec;
    try quiet_run.
  destruct (isdir world); cbn [negb]; [|quiet_run].
  destruct (isfile world); cbn [negb]; [|quiet_run].
  destruct (render target_date today_paper_url past_papers _ world)
    as [html_content|e] eqn:Hrender; [|quiet_run].
  destruct dry_run; [quiet_run|].
  destruct (Config.truthy SENDGRID_API_KEY) eqn:Hkey.
  - destruct (_send_with_sendgrid _ _ _ _ _) as [r w] eqn:Hsend.
    intros [= <- <- <-]. split; [discriminate|]. split; [discriminate|].
    intros h [<- | []]. cbn.
    repeat split; eauto; discriminate.
  - destruct (Config.truthy SMTP_HOST && Config.truthy SMTP_USER
              && Config.truthy SMTP_PASSWORD); [|quiet_run].
    destruct (_send_with_smtp _ _ _ _ _) as [r w] eqn:Hsend.
    intros [= <- <- <-]. split; [discriminate|]. split; [discriminate|].
    intros h [<- | []]. cbn.
    repeat split; eauto; discriminate.
Qed.

Lemma email_is_handed_over_at_most_once_witness :
  Cases.send_email (VStr "ann@example.org, bob@example.org") VNone false
  = (Returned true, tt,
     [Email.mkHanded Email.Smtp ["ann@example.org"; "bob@example.org"]%string
        ("Daily Newspaper - "
         ++ DefaultFormat.strftime Scenario.target_date)%string
        "<html></html>"])
  /\ snd (Cases.send_email (VStr "ann@example.org, bob@example.org")
            (VStr "key") true) = [].
Proof.
  split; [reflexivity|].
  unfold Cases.send_email.
  destruct (Email.send_email _ _ _ _ _ _ _ _ _ _ _ _ _ _ _ _ _ _ _)
    as [[sent world'] trace] eqn:Hrun.
  exact (proj1 (email_is_handed_over_at_most_once _ _ _ _ _ _ _ _ _ _ _ _ _
                  _ _ _ _ _ _ _ _ _ Hrun) eq_refl).
Defined.
